(** * promoters: the analysis notebooks over a shallow embedding

    The notebooks of the repository build [LinearModel] specifications, run a
    [ConditionSimulation] per model, keep the resulting comparisons in
    dictionaries, draw sampled trajectories and render heat maps of
    [threshold_error].  The Python fragments are embedded as Rocq functions:
    Python integers are [Z], floats that are only copied around are [Q],
    exceptions are explicit results.  A function is embedded twice where
    the identity of its arguments matters: on the values of its arguments,
    and on a heap of objects that it reaches by reference. *)

From Stdlib Require Import ZArith QArith String Ascii List.
From stdpp Require Import gmap strings list.

Local Open Scope string_scope.
Local Open Scope Z_scope.

(** ** Python: exceptions, sequences, insertion-ordered dictionaries *)

Module Py.

Inductive Exception :=
| IndexError | KeyError | ValueError | ZeroDivisionError | AttributeError
| OverflowError | TypeError.

Inductive Exc (A : Type) :=
| Ok (a : A)
| Raise (e : Exception).
Arguments Ok {A} a.
Arguments Raise {A} e.

#[export] Instance Exc_ret : MRet Exc := fun A a => Ok a.
#[export] Instance Exc_bind : MBind Exc := fun A B f c =>
  match c with
  | Ok a => f a
  | Raise e => Raise e
  end.

(** A computation over a mutable state [S]: an exception leaves the state as
    it was when it was raised. *)
Definition M (S A : Type) : Type := S -> Exc A * S.

Definition ret {S A} (a : A) : M S A := fun s => (Ok a, s).
Definition bind {S A B} (c : M S A) (k : A -> M S B) : M S B := fun s =>
  match c s with
  | (Ok a, s') => k a s'
  | (Raise e, s') => (Raise e, s')
  end.
Definition lift {S A} (c : Exc A) : M S A := fun s => (c, s).
Definition modify {S} (f : S -> S) : M S unit := fun s => (Ok tt, f s).

(** [for x in xs: body x] *)
Fixpoint for_each {S A} (xs : list A) (body : A -> M S unit) : M S unit :=
  match xs with
  | [] => ret tt
  | x :: xs' => bind (body x) (fun _ => for_each xs' body)
  end.

(** Index normalisation of Python sequences and of numpy axes: [-n <= i < n],
    a negative index counts from the end. *)
Definition normalize_index (n : nat) (i : Z) : Exc nat :=
  if (0 <=? i) && (i <? Z.of_nat n) then Ok (Z.to_nat i)
  else if (- Z.of_nat n <=? i) && (i <? 0) then Ok (Z.to_nat (i + Z.of_nat n))
  else Raise IndexError.

(** [l[i]] *)
Definition getitem {A} (l : list A) (i : Z) : Exc A :=
  k ← normalize_index (length l) i;
  match l !! k with
  | Some x => Ok x
  | None => Raise IndexError
  end.

(** [l[i] = v] *)
Definition setitem {A} (l : list A) (i : Z) (v : A) : Exc (list A) :=
  k ← normalize_index (length l) i;
  Ok (<[k := v]> l).

(** [range(n)] *)
Definition range (n : nat) : list Z := map Z.of_nat (seq 0 n).

(** A [dict]: keys are unique and keep their insertion order, which is the
    order [items()] iterates in. *)
Definition dict (K V : Type) : Type := list (K * V).

Section Dict.
Context {K V : Type} `{EqDecision K}.

(** [d[k] = v] *)
Fixpoint dict_setitem (k : K) (v : V) (d : dict K V) : dict K V :=
  match d with
  | [] => [(k, v)]
  | (k', v') :: d' =>
      if decide (k = k') then (k, v) :: d' else (k', v') :: dict_setitem k v d'
  end.

(** [d.get(k)] *)
Fixpoint dict_get (k : K) (d : dict K V) : option V :=
  match d with
  | [] => None
  | (k', v') :: d' => if decide (k = k') then Some v' else dict_get k d'
  end.

Definition keys (d : dict K V) : list K := map fst d.
Definition items (d : dict K V) : list (K * V) := d.
End Dict.

(** [s.upper()].  Python follows Unicode's case tables; the embedding has
    them for ASCII text, where the letters from a to z move to A to Z and
    every other character stays, and answers [None] for text with any other
    character. *)
Definition upper_ascii (c : ascii) : option ascii :=
  let n := nat_of_ascii c in
  if (128 <=? n)%nat then None
  else if (97 <=? n)%nat && (n <=? 122)%nat then Some (ascii_of_nat (n - 32))
  else Some c.

Fixpoint upper (s : string) : option string :=
  match s with
  | EmptyString => Some EmptyString
  | String c s' =>
      match upper_ascii c, upper s' with
      | Some c', Some u => Some (String c' u)
      | _, _ => None
      end
  end.

End Py.
Import Py.

(** ** numpy: the arrays and the global random state the notebooks use *)

Module Np.

(** A two-dimensional float array, by rows. *)
Abbreviation ndarray2 := (list (list Q)).

(** [np.zeros((r, c), dtype=float)] *)
Definition zeros (r c : nat) : ndarray2 := replicate r (replicate c 0%Q).

(** How numpy takes a Python integer as an index, before it looks at the
    array: an integer of the signed 64-bit range is used as it is; one from
    [2^63] to [2^64 - 1] still makes an unsigned array scalar, whose
    conversion to an index is an [OverflowError]; any other integer is no
    index at all, an [IndexError]. *)
Definition as_index (i : Z) : Exc Z :=
  if (-9223372036854775808 <=? i) && (i <=? 9223372036854775807) then Ok i
  else if (9223372036854775808 <=? i) && (i <=? 18446744073709551615)
       then Raise OverflowError
  else Raise IndexError.

(** [m[i, j] = v]: both parts of the index are converted, then checked
    against the axes. *)
Definition setitem2 (m : ndarray2) (i j : Z) (v : Q) : Exc ndarray2 :=
  i' ← as_index i;
  j' ← as_index j;
  ki ← normalize_index (length m) i';
  match m !! ki with
  | None => Raise IndexError
  | Some row =>
      kj ← normalize_index (length row) j';
      Ok (<[ki := <[kj := v]> row]> m)
  end.

(** [m[i] = v]: the scalar is broadcast over row [i]. *)
Definition setrow (m : ndarray2) (i : Z) (v : Q) : Exc ndarray2 :=
  i' ← as_index i;
  ki ← normalize_index (length m) i';
  match m !! ki with
  | None => Raise IndexError
  | Some row => Ok (<[ki := replicate (length row) v]> m)
  end.

(** The entry [m[i, j]], for indices inside the array. *)
Definition cell (m : ndarray2) (i j : nat) : option Q :=
  row ← m !! i; row !! j.

(** An array of [r] rows and [c] columns. *)
Definition has_shape (r c : nat) (m : ndarray2) : Prop :=
  length m = r /\ Forall (fun row => length row = c) m.

(** [m.T] of an array with [c] columns. *)
Definition transpose (c : nat) (m : ndarray2) : ndarray2 :=
  map (fun j => map (fun row => nth j row 0%Q) m) (seq 0 c).

(** A three-dimensional float array of shape [(shape0, shape1, shape2)];
    [at_ i j k] is read only inside the shape. *)
Record ndarray3 := {
  shape0 : nat;
  shape1 : nat;
  shape2 : nat;
  at_ : nat -> nat -> nat -> Q
}.

(** The row [a[i, j, :]] for indices already inside the shape. *)
Definition row3 (a : ndarray3) (i j : nat) : list Q :=
  map (at_ a i j) (seq 0 (shape2 a)).

(** [a[ind, -1, :]]: advanced indexing by the integer array [ind] on axis 0
    and the last position of axis 1; the result is a new 2-D array with one
    row per entry of [ind]. *)
Definition take_last (a : ndarray3) (ind : list Z) : Exc ndarray2 :=
  j ← normalize_index (shape1 a) (-1);
  ks ← mapM (normalize_index (shape0 a)) ind;
  Ok (map (fun i => row3 a i j) ks).

(** The state of [np.random]: the stream of raw draws still to come. *)
Definition RandomState : Type := nat -> nat.

(** [np.random.randint(low, high, size)]: [size] integers of [[low, high)];
    an empty request is answered without looking at the bounds, otherwise
    an empty interval is a [ValueError]. *)
Definition randint (low high : Z) (size : nat) : M RandomState (list Z) :=
  fun rs =>
    if (size =? 0)%nat then (Ok [], rs)
    else if high <=? low then (Raise ValueError, rs)
    else (Ok (map (fun k => low + Z.of_nat (rs k) mod (high - low)) (seq 0 size)),
          fun k => rs (size + k)%nat).

End Np.

(** ** matplotlib: an axis and a figure record the calls made on them *)

Module Plt.

Record Line2D := {
  xdata : list Q;
  ydata : list Q;
  color : string;
  lw : Q
}.

Record Axes := {
  lines : list Line2D;
  ax_xlabel : string;
  ax_ylabel : string;
  ax_xlim : option (Z * Z)
}.

(** The axis of [plt.subplots(...)] before anything is drawn. *)
Definition new_axes : Axes :=
  {| lines := []; ax_xlabel := ""; ax_ylabel := ""; ax_xlim := None |}.

(** [ax.plot(x, y, color=c, lw=w)]: abscissae and ordinates of different
    lengths are a [ValueError] and nothing is drawn. *)
Definition plot (x y : list Q) (c : string) (w : Q) (ax : Axes) : Exc Axes :=
  if (length x =? length y)%nat then
    Ok {| lines := lines ax ++ [{| xdata := x; ydata := y; color := c; lw := w |}];
          ax_xlabel := ax_xlabel ax; ax_ylabel := ax_ylabel ax;
          ax_xlim := ax_xlim ax |}
  else Raise ValueError.

Definition set_ylabel (s : string) (ax : Axes) : Axes :=
  {| lines := lines ax; ax_xlabel := ax_xlabel ax; ax_ylabel := s;
     ax_xlim := ax_xlim ax |}.

Definition set_xlabel (s : string) (ax : Axes) : Axes :=
  {| lines := lines ax; ax_xlabel := s; ax_ylabel := ax_ylabel ax;
     ax_xlim := ax_xlim ax |}.

Definition set_xlim (lo hi : Z) (ax : Axes) : Axes :=
  {| lines := lines ax; ax_xlabel := ax_xlabel ax; ax_ylabel := ax_ylabel ax;
     ax_xlim := Some (lo, hi) |}.

(** A figure with one image axis, as [plot_heatmap] returns it; [title] is
    [None] for a title outside the text the embedding can upper-case. *)
Record Figure := {
  figsize : Z * Z;
  image : Np.ndarray2;
  cmap : string;
  vmin : Q;
  vmax : Q;
  title : option string;
  xlabel : string;
  ylabel : string;
  xticks : list Z;
  yticks : list Z;
  xticklabels : list string;
  yticklabels : list string
}.

End Plt.

(** ** The promoters package, as far as the notebooks rely on it *)

Module Promoters.

(** [add_promoters] adds activating elements, [add_feedback] repressors. *)
Inductive Kind := Promoter | Repressor.

(** One call of [add_promoters] or [add_feedback]: the three strengths
    (gene, transcript and protein level) and the [perturbed] flag. *)
Record Element := {
  kind : Kind;
  strengths : list Q;
  perturbed : bool
}.

(** Modelled from the spec: the class [LinearModel] of
    [promoters.models.linear] is not among the sources.  The repository
    "build[s] model specifications": a model is the record of its constructor
    arguments and of the elements added to it, in the order of the calls;
    [include_activation] is [None] where the caller leaves it out. *)
Record LinearModel := {
  g1 : Q;
  g2 : Q;
  include_activation : option bool;
  elements : list Element
}.

(** Modelled from the spec: [LinearModel(g1=..., g2=..., ...)], missing from
    the sources, starts without added elements. *)
Definition new_LinearModel (g1 g2 : Q) (ia : option bool) : LinearModel :=
  {| g1 := g1; g2 := g2; include_activation := ia; elements := [] |}.

Definition add_element (e : Element) (m : LinearModel) : LinearModel :=
  {| g1 := g1 m; g2 := g2 m; include_activation := include_activation m;
     elements := elements m ++ [e] |}.

(** Modelled from the spec: [model.add_promoters] applied to the
    unpacked strengths and [perturbed=p], missing from the sources;
    [perturbed] is false where the caller leaves it out. *)
Definition add_promoters (eta : list Q) (p : bool) (m : LinearModel) : LinearModel :=
  add_element {| kind := Promoter; strengths := eta; perturbed := p |} m.

(** Modelled from the spec: [model.add_feedback] applied to the
    unpacked strengths and [perturbed=p], missing from the sources. *)
Definition add_feedback (eta : list Q) (p : bool) (m : LinearModel) : LinearModel :=
  add_element {| kind := Repressor; strengths := eta; perturbed := p |} m.

(** Modelled from the spec: the structural perturbation, "losing a promoter
    or repressor", removes the elements that were added with
    [perturbed=True] and keeps the others. *)
Definition remove_perturbed (m : LinearModel) : LinearModel :=
  {| g1 := g1 m; g2 := g2 m; include_activation := include_activation m;
     elements := List.filter (fun e => negb (perturbed e)) (elements m) |}.

(** [genessa.TimeSeries], a type of the external simulator: the time points
    and the array [states] of shape (trajectories, species, time points). *)
Record TimeSeries := {
  ts_t : list Q;
  states : Np.ndarray3
}.

(** Modelled from the spec: the class [Comparison] of [promoters.analysis] is
    not among the sources.  It holds the two sets of simulated time series,
    their time points and the error frequency. *)
Record Comparison := {
  reference : TimeSeries;
  compared : TimeSeries;
  t : list Q;
  threshold_error : Q
}.

(** Modelled from the spec: the class [ConditionSimulation] of
    [promoters.simulation.environment] is not among the sources.  An
    instance is built from a model and acquires [comparisons] when its
    simulation has completed. *)
Record ConditionSimulation := {
  model : LinearModel;
  comparisons : option (gmap string Comparison)
}.

Definition new_ConditionSimulation (m : LinearModel) : ConditionSimulation :=
  {| model := m; comparisons := None |}.

(** [simulation.comparisons] *)
Definition get_comparisons (s : ConditionSimulation) : Exc (gmap string Comparison) :=
  match comparisons s with
  | Some c => Ok c
  | None => Raise AttributeError
  end.

(** [comparison[condition].threshold_error], where the entry exists. *)
Definition error_of (comparison : gmap string Comparison) (condition : string)
  : option Q :=
  threshold_error <$> comparison !! condition.

(** Two result dictionaries with the same keys, in the same order, and the
    same error frequency under [condition] at every key. *)
Definition same_errors {K : Type} (condition : string)
    (d d' : dict K (gmap string Comparison)) : Prop :=
  Forall2 (fun x y => fst x = fst y /\
                      error_of (snd x) condition = error_of (snd y) condition)
    d d'.

(** Every error frequency in these comparisons is a proportion. *)
Definition proportions (v : gmap string Comparison) : Prop :=
  forall c cmp, v !! c = Some cmp ->
    (0 <= threshold_error cmp)%Q /\ (threshold_error cmp <= 1)%Q.

(** The shorthand the package uses for the three metabolic conditions. *)
Definition conditions : list string := ["normal"; "diabetic"; "hyper_metabolic"].

Section Engine.
(** The external stochastic simulator, a black box with a state of its
    own: a model, a condition and a number of trajectories give a time
    series. *)
Context {EngineState : Type}.
Variable simulate :
  LinearModel -> string -> nat -> EngineState -> TimeSeries * EngineState.
(** The chosen threshold rule: whether trajectory [k] of the compared
    series counts as a developmental error relative to the reference. *)
Variable threshold_rule : TimeSeries -> TimeSeries -> nat -> bool.

(** Modelled from the spec: the number of compared trajectories that the
    threshold rule counts as errors. *)
Definition error_count (ref cmp : TimeSeries) : nat :=
  length (List.filter (threshold_rule ref cmp) (seq 0 (Np.shape0 (states cmp)))).

(** Modelled from the spec: "comparing two sets of simulated time series to
    compute an error-frequency statistic under a chosen threshold rule":
    the fraction of the compared trajectories that are errors, in lowest
    terms (a float has one representation per value).  Without compared
    trajectories the division has no value. *)
Definition error_frequency (ref cmp : TimeSeries) : Exc Q :=
  let n := Np.shape0 (states cmp) in
  if (n =? 0)%nat then Raise ZeroDivisionError
  else Ok (Qred (Z.of_nat (error_count ref cmp) # Pos.of_nat n)).

(** Modelled from the spec: [Comparison(reference, compared)], missing from
    the sources, stores the two series and evaluates the error
    frequency. *)
Definition new_Comparison (ref cmp : TimeSeries) : Exc Comparison :=
  e ← error_frequency ref cmp;
  Ok {| reference := ref; compared := cmp; t := ts_t ref; threshold_error := e |}.

(** Modelled from the spec: one metabolic condition of
    [ConditionSimulation.run]: the dynamics of the model as it is and of
    the model without its perturbed elements, then their comparison. *)
Definition run_condition (m : LinearModel) (N : nat) (c : string)
  : M EngineState Comparison :=
  bind (fun s => let (ts, s') := simulate m c N s in (Ok ts, s')) (fun ref =>
  bind (fun s => let (ts, s') := simulate (remove_perturbed m) c N s in (Ok ts, s'))
    (fun cmp => lift (new_Comparison ref cmp))).

Fixpoint run_conditions (m : LinearModel) (N : nat) (cs : list string)
    (acc : gmap string Comparison) : M EngineState (gmap string Comparison) :=
  match cs with
  | [] => ret acc
  | c :: cs' =>
      bind (run_condition m N c) (fun cmp =>
      run_conditions m N cs' (<[c := cmp]> acc))
  end.

(** Modelled from the spec: [simulation.run(skwargs=dict(N=N))], missing
    from the sources, "run[s] the simulation under each metabolic
    condition"; on completion the instance has its [comparisons], "a
    dictionary of Comparison objects keyed by metabolic condition". *)
Definition run (sim : ConditionSimulation) (N : nat)
  : M EngineState ConditionSimulation :=
  bind (run_conditions (model sim) N conditions ∅) (fun comps =>
  ret {| model := model sim; comparisons := Some comps |}).
(** The comparison [cmp] is what one condition of a run computes: the engine ran the
    model as it is from state [s], then the model without its perturbed
    elements, and the two series were compared. *)
Definition simulated (m : LinearModel) (N : nat) (c : string) (cmp : Comparison)
    (s : EngineState) : Prop :=
  reference cmp = fst (simulate m c N s) /\
  compared cmp =
    fst (simulate (remove_perturbed m) c N (snd (simulate m c N s))) /\
  t cmp = ts_t (reference cmp) /\
  error_frequency (reference cmp) (compared cmp)
    = Ok (threshold_error cmp).
End Engine.

End Promoters.

#[export] Instance M_ret {S} : MRet (M S) := fun A a => Py.ret a.
#[export] Instance M_bind {S} : MBind (M S) := fun A B k c => Py.bind c k.

(** ** Notebook: Example Simulation (Full vs Partial Synthesis)

    The first notebook of [Example Simulation (Full vs Partial
    Synthesis).ipynb]: the model of its first cells and the function
    [plot_trajectories]. *)

Module Example.
Import Promoters Np Plt.

(** What [plot_trajectories] acts on: numpy's global random state and the
    axis object it is given. *)
Record PlotState := {
  np_random : RandomState;
  ax : Axes
}.

Definition with_random {A} (c : M RandomState A) : M PlotState A := fun s =>
  let (r, rs) := c (np_random s) in (r, {| np_random := rs; ax := ax s |}).

Definition on_ax (f : Axes -> Axes) : M PlotState unit :=
  modify (fun s => {| np_random := np_random s; ax := f (ax s) |}).

(** A call on the axis that can raise; the axis is then as it was. *)
Definition try_ax (f : Axes -> Exc Axes) : M PlotState unit := fun s =>
  match f (ax s) with
  | Ok a => (Ok tt, {| np_random := np_random s; ax := a |})
  | Raise e => (Raise e, s)
  end.

(** [plot_trajectories(comparison, ax, N=10)] *)
Definition plot_trajectories (comparison : Comparison) (N : nat) : M PlotState unit :=
  ind ← with_random
          (randint 0 (Z.of_nat (shape0 (states (reference comparison)))) N);
  rows ← lift (take_last (states (reference comparison)) ind);
  for_each rows (fun trajectory =>
    try_ax (plot (t comparison) trajectory "m" (1 # 2)));;
  rows' ← lift (take_last (states (compared comparison)) ind);
  for_each rows' (fun trajectory =>
    try_ax (plot (t comparison) trajectory "grey" (1 # 2)));;
  on_ax (set_ylabel "Protein level");;
  on_ax (set_xlabel "Time (h)");;
  on_ax (set_xlim (-2) 50).

(** The line that [plot_trajectories] draws for trajectory [i] of the array
    [a]: the time points of the comparison against the last species. *)
Definition trajectory_line (comparison : Comparison) (c : string) (a : ndarray3)
    (i : nat) : Line2D :=
  {| xdata := t comparison; ydata := row3 a i (shape1 a - 1);
     color := c; lw := 1 # 2 |}.

(** The promoter strengths and the model of the first cells:
    [severity = 0.5], [eta = (0, 0, 1*severity)]. *)
Definition severity : Q := 1 # 2.
Definition eta : list Q := [0%Q; 0%Q; severity].
Definition example_model : LinearModel :=
  add_promoters eta true (new_LinearModel (1 # 100) (1 # 1000) (Some true)).

End Example.

(** ** Notebook: repressor loss at multiple levels of output regulation

    The second notebook in [Example Simulation (Full vs Partial
    Synthesis).ipynb]: the sweep over pairs of repressors and [plot_heatmap]
    of the 3x3 grid. *)

Module RepressorLoss.
Import Promoters Np Plt.

(** The results of a sweep: one [simulation.comparisons] per pair. *)
Abbreviation Results := (dict (Z * Z) (gmap string Comparison)).

(** [eta = (5e-4, 1e-4, 5e-4)] *)
Definition eta : list Q := [5 # 10000; 1 # 10000; 5 # 10000]%Q.

(** The notebook's bindings that the sweep reads and writes.  [simulations]
    is the history of the [ConditionSimulation] objects the sweep has built
    and run, oldest first. *)
Record Kernel (EngineState : Type) := {
  engine : EngineState;
  comparisons : Results;
  simulations : list ConditionSimulation
}.
Arguments engine {EngineState} k.
Arguments comparisons {EngineState} k.
Arguments simulations {EngineState} k.

(** The feedback strengths of one iteration:
    [v = [0, 0, 0]; v[i] = eta[i]]. *)
Definition strengths_at (eta : list Q) (i : Z) : Exc (list Q) :=
  e ← getitem eta i;
  setitem [0%Q; 0%Q; 0%Q] i e.

(** The vector that is [e] at position [i] and 0 elsewhere. *)
Definition one_hot (i : Z) (e : Q) : list Q :=
  map (fun p => if decide (p = i) then e else 0%Q) (range 3).

(** The model of the pair [(i, j)]. *)
Definition pair_model (eta : list Q) (i j : Z) : Exc LinearModel :=
  permanent ← strengths_at eta i;
  removed ← strengths_at eta j;
  Ok (add_feedback removed true
        (add_feedback permanent false
           (new_LinearModel (1 # 100) (1 # 1000) None))).

Section Sweep.
Context {EngineState : Type}.
Variable simulate :
  LinearModel -> string -> nat -> EngineState -> TimeSeries * EngineState.
Variable threshold_rule : TimeSeries -> TimeSeries -> nat -> bool.

Definition set_comparisons (d : Results) : M (Kernel EngineState) unit :=
  modify (fun k =>
    {| engine := engine k; comparisons := d; simulations := simulations k |}).

(** [simulation = ConditionSimulation(model); simulation.run(...)] *)
Definition simulate_model (m : LinearModel) (N : nat)
  : M (Kernel EngineState) ConditionSimulation := fun k =>
  let (r, e) := run simulate threshold_rule (new_ConditionSimulation m) N (engine k) in
  (r, {| engine := e; comparisons := comparisons k;
         simulations :=
           match r with
           | Ok sim => simulations k ++ [sim]
           | Raise _ => simulations k
           end |}).

(** The body of the nested loop. *)
Definition sweep_body (eta : list Q) (N : nat) (i j : Z) : M (Kernel EngineState) unit :=
  m ← lift (pair_model eta i j);
  sim ← simulate_model m N;
  comps ← lift (get_comparisons sim);
  modify (fun k =>
    {| engine := engine k;
       comparisons := dict_setitem (i, j) comps (comparisons k);
       simulations := simulations k |}).

(** The sweep cell: [comparisons = {}], then one iteration per pair of
    [range(3)] x [range(3)]. *)
Definition sweep (eta : list Q) (N : nat) : M (Kernel EngineState) unit :=
  set_comparisons [];;
  for_each (range 3) (fun i =>
    for_each (range 3) (fun j => sweep_body eta N i j)).
End Sweep.

(** [matrix[i, j] = comparison[condition].threshold_error], one entry of
    [comparisons.items()]; the state is the matrix under assembly. *)
Definition fill_cell (condition : string) (item : Z * Z * gmap string Comparison)
  : M ndarray2 unit := fun matrix =>
  let '((i, j), comparison) := item in
  match comparison !! condition with
  | None => (Raise KeyError, matrix)
  | Some c =>
      match setitem2 matrix i j (threshold_error c) with
      | Ok matrix' => (Ok tt, matrix')
      | Raise e => (Raise e, matrix)
      end
  end.

(** The second half of [plot_heatmap]: the figure of [plt.subplots] after
    [imshow] of the transposed matrix and the calls that set its title,
    labels and ticks. *)
Definition heatmap_figure (matrix : ndarray2) (condition : string) : Figure :=
  {| figsize := (3, 3);
     image := transpose 3 matrix;
     cmap := "copper_r"; vmin := 0; vmax := 1;
     title := upper condition;
     xlabel := "Primary Repressor Target";
     ylabel := "Auxiliary Repressor Target";
     xticks := [0; 1; 2]; yticks := [0; 1; 2];
     xticklabels := ["Gene"; "mRNA"; "Protein"];
     yticklabels := ["Gene"; "mRNA"; "Protein"] |}.

(** [plot_heatmap(comparisons, condition)], returning the figure. *)
Definition plot_heatmap (comparisons : Results) (condition : string) : Exc Figure :=
  match for_each (items comparisons) (fill_cell condition) (zeros 3 3) with
  | (Raise e, _) => Raise e
  | (Ok _, matrix) => Ok (heatmap_figure matrix condition)
  end.

(** A dictionary as the sweep leaves it, for [plot_heatmap]: the keys are
    distinct positions of the 3x3 grid and every entry covers
    [condition]. *)
Definition on_grid (condition : string) (d : Results) : Prop :=
  NoDup (keys d) /\
  (forall i j, In (i, j) (keys d) -> 0 <= i < 3 /\ 0 <= j < 3) /\
  (forall k v, In (k, v) d -> is_Some (v !! condition)).

(** An entry that [plot_heatmap] can write: it covers [condition] and both
    parts of its key are valid indices of an axis of length 3. *)
Definition writable (condition : string) (item : Z * Z * gmap string Comparison)
  : Prop :=
  is_Some (snd item !! condition) /\
  (-3 <= fst (fst item) < 3) /\ (-3 <= snd (fst item) < 3).

End RepressorLoss.

(** ** Notebook: promoter loss at multiple levels of output regulation

    [Simulating Promoter Loss at Multiple Levels of Output Regulation.ipynb]:
    the sweep over the three promoters and [plot_heatmap] of the 3x1
    grid. *)

Module PromoterLoss.
Import Promoters Np Plt.

Abbreviation Results := (dict Z (gmap string Comparison)).

(** [eta = (0.5, 0.5, 0.5)] *)
Definition eta : list Q := [1 # 2; 1 # 2; 1 # 2]%Q.

Record Kernel (EngineState : Type) := {
  engine : EngineState;
  comparisons : Results;
  simulations : list ConditionSimulation
}.
Arguments engine {EngineState} k.
Arguments comparisons {EngineState} k.
Arguments simulations {EngineState} k.

(** The model of iteration [i]:
    [removed = [0, 0, 0]; removed[i] = eta[i]]. *)
Definition loss_model (eta : list Q) (i : Z) : Exc LinearModel :=
  removed ← RepressorLoss.strengths_at eta i;
  Ok (add_promoters removed true
        (new_LinearModel (1 # 100) (1 # 1000) (Some true))).

Section Sweep.
Context {EngineState : Type}.
Variable simulate :
  LinearModel -> string -> nat -> EngineState -> TimeSeries * EngineState.
Variable threshold_rule : TimeSeries -> TimeSeries -> nat -> bool.

Definition set_comparisons (d : Results) : M (Kernel EngineState) unit :=
  modify (fun k =>
    {| engine := engine k; comparisons := d; simulations := simulations k |}).

Definition simulate_model (m : LinearModel) (N : nat)
  : M (Kernel EngineState) ConditionSimulation := fun k =>
  let (r, e) := run simulate threshold_rule (new_ConditionSimulation m) N (engine k) in
  (r, {| engine := e; comparisons := comparisons k;
         simulations :=
           match r with
           | Ok sim => simulations k ++ [sim]
           | Raise _ => simulations k
           end |}).

Definition sweep_body (eta : list Q) (N : nat) (i : Z) : M (Kernel EngineState) unit :=
  m ← lift (loss_model eta i);
  sim ← simulate_model m N;
  comps ← lift (get_comparisons sim);
  modify (fun k =>
    {| engine := engine k;
       comparisons := dict_setitem i comps (comparisons k);
       simulations := simulations k |}).

(** The sweep cell: [comparisons = {}], then one iteration per element of
    [range(3)]. *)
Definition sweep (eta : list Q) (N : nat) : M (Kernel EngineState) unit :=
  set_comparisons [];;
  for_each (range 3) (fun i => sweep_body eta N i).
End Sweep.

(** [matrix[i] = comparison[condition].threshold_error] *)
Definition fill_row (condition : string) (item : Z * gmap string Comparison)
  : M ndarray2 unit := fun matrix =>
  let '(i, comparison) := item in
  match comparison !! condition with
  | None => (Raise KeyError, matrix)
  | Some c =>
      match setrow matrix i (threshold_error c) with
      | Ok matrix' => (Ok tt, matrix')
      | Raise e => (Raise e, matrix)
      end
  end.

(** The second half of [plot_heatmap]: the figure after [imshow] of the
    matrix and the calls that set its title, label and ticks. *)
Definition heatmap_figure (matrix : ndarray2) (condition : string) : Figure :=
  {| figsize := (1, 3);
     image := matrix;
     cmap := "copper_r"; vmin := 0; vmax := 1;
     title := upper condition;
     xlabel := "";
     ylabel := "Auxiliary Promoter Target";
     xticks := []; yticks := [0; 1; 2];
     xticklabels := [];
     yticklabels := ["Gene"; "mRNA"; "Protein"] |}.

(** [plot_heatmap(comparisons, condition)] of the 3x1 grid. *)
Definition plot_heatmap (comparisons : Results) (condition : string) : Exc Figure :=
  match for_each (items comparisons) (fill_row condition) (zeros 3 1) with
  | (Raise e, _) => Raise e
  | (Ok _, matrix) => Ok (heatmap_figure matrix condition)
  end.

(** A dictionary as the sweep leaves it, for [plot_heatmap]: the keys are
    distinct positions of the 3x1 grid and every entry covers
    [condition]. *)
Definition on_column (condition : string) (d : Results) : Prop :=
  NoDup (keys d) /\
  (forall i, In i (keys d) -> 0 <= i < 3) /\
  (forall k v, In (k, v) d -> is_Some (v !! condition)).

(** An entry that [plot_heatmap] can write: it covers [condition] and its
    key is a valid index of an axis of length 3. *)
Definition writable (condition : string) (item : Z * gmap string Comparison)
  : Prop :=
  is_Some (snd item !! condition) /\ (-3 <= fst item < 3).

End PromoterLoss.

(** ** Objects by reference

    A call in a notebook passes references.  The heap holds one object per
    reference; a results dictionary is one object together with the
    comparisons in it, for the plotting functions get no other reference
    into it.  The plotting functions are embedded once more on this heap,
    statement by statement: what they create is allocated, what they read
    is looked up, what they change is written back. *)

Module Store.
Import Promoters Np Plt.

(** The objects of a notebook whose results dictionary has the type [R]. *)
Inductive Object (R : Type) : Type :=
| Results (d : R)
| AComparison (c : Comparison)
| AnArray (m : ndarray2)
| AnAxes (a : Axes)
| AFigure (f : Figure).
Arguments Results {R} d.
Arguments AComparison {R} c.
Arguments AnArray {R} m.
Arguments AnAxes {R} a.
Arguments AFigure {R} f.

(** The reference of an object is its position in [objects]; numpy's global
    random state is part of the interpreter's state as well. *)
Record Heap (R : Type) := {
  objects : list (Object R);
  np_random : RandomState
}.
Arguments objects {R} h.
Arguments np_random {R} h.

Section Primitives.
Context {R : Type}.

(** A new object gets the next reference. *)
Definition new (o : Object R) : M (Heap R) nat := fun h =>
  (Ok (length (objects h)),
   {| objects := objects h ++ [o]; np_random := np_random h |}).

(** The object at [r] becomes [o]. *)
Definition set (r : nat) (o : Object R) : M (Heap R) unit :=
  modify (fun h => {| objects := <[r := o]> (objects h); np_random := np_random h |}).

(** Reading an object as what the code uses it for.  The code reads an
    attribute of a dictionary, a comparison or an axis, an [AttributeError]
    on any other object; it assigns to an item of an array, a [TypeError]
    on any other object. *)
Definition results_at (r : nat) : M (Heap R) R := fun h =>
  match objects h !! r with
  | Some (Results d) => (Ok d, h)
  | _ => (Raise AttributeError, h)
  end.

Definition comparison_at (r : nat) : M (Heap R) Comparison := fun h =>
  match objects h !! r with
  | Some (AComparison c) => (Ok c, h)
  | _ => (Raise AttributeError, h)
  end.

Definition axes_at (r : nat) : M (Heap R) Axes := fun h =>
  match objects h !! r with
  | Some (AnAxes a) => (Ok a, h)
  | _ => (Raise AttributeError, h)
  end.

Definition array_at (r : nat) : M (Heap R) ndarray2 := fun h =>
  match objects h !! r with
  | Some (AnArray m) => (Ok m, h)
  | _ => (Raise TypeError, h)
  end.

Definition with_random {A} (c : M RandomState A) : M (Heap R) A := fun h =>
  let (r, rs) := c (np_random h) in (r, {| objects := objects h; np_random := rs |}).

(** The figures among some objects, in the order of their creation. *)
Definition figures (os : list (Object R)) : list Figure :=
  omap (fun o => match o with AFigure f => Some f | _ => None end) os.
End Primitives.

(** [plot_trajectories] of the first notebook. *)
Module Trajectories.
Section Drawing.
Context {R : Type}.

(** [ax.plot(comparison.t, trajectory, color=c, lw=0.5)] *)
Definition plot_line (comparison ax : nat) (trajectory : list Q) (c : string)
  : M (Heap R) unit :=
  a ← axes_at ax;
  cmp ← comparison_at comparison;
  a' ← lift (plot (t cmp) trajectory c (1 # 2) a);
  set ax (AnAxes a').

(** A call of a method of the axis that sets a label or a limit. *)
Definition format (ax : nat) (f : Axes -> Axes) : M (Heap R) unit :=
  a ← axes_at ax;
  set ax (AnAxes (f a)).

(** [plot_trajectories(comparison, ax, N=10)] *)
Definition plot_trajectories (comparison ax : nat) (N : nat) : M (Heap R) unit :=
  cmp ← comparison_at comparison;
  ind ← with_random (randint 0 (Z.of_nat (shape0 (states (reference cmp)))) N);
  cmp ← comparison_at comparison;
  rows ← lift (take_last (states (reference cmp)) ind);
  for_each rows (fun trajectory => plot_line comparison ax trajectory "m");;
  cmp ← comparison_at comparison;
  rows' ← lift (take_last (states (compared cmp)) ind);
  for_each rows' (fun trajectory => plot_line comparison ax trajectory "grey");;
  format ax (set_ylabel "Protein level");;
  format ax (set_xlabel "Time (h)");;
  format ax (set_xlim (-2) 50).
End Drawing.
End Trajectories.

(** [plot_heatmap] of the 3x3 grid and the cell that calls it. *)
Module Pairs.

(** [matrix[i, j] = comparison[condition].threshold_error] *)
Definition fill_cell (matrix : nat) (condition : string)
    (item : Z * Z * gmap string Comparison) : M (Heap RepressorLoss.Results) unit :=
  let '((i, j), comparison) := item in
  match comparison !! condition with
  | None => lift (Raise KeyError)
  | Some c =>
      m ← array_at matrix;
      m' ← lift (setitem2 m i j (threshold_error c));
      set matrix (AnArray m')
  end.

(** [plot_heatmap(comparisons, condition)], returning the reference of the
    figure. *)
Definition plot_heatmap (comparisons : nat) (condition : string)
  : M (Heap RepressorLoss.Results) nat :=
  matrix ← new (AnArray (zeros 3 3));
  d ← results_at comparisons;
  for_each (items d) (fill_cell matrix condition);;
  m ← array_at matrix;
  new (AFigure (RepressorLoss.heatmap_figure m condition)).

(** The plotting cell acts on the heap and on the variable [fig]. *)
Record Kernel := {
  heap : Heap RepressorLoss.Results;
  fig : option nat
}.

(** [fig = plot_heatmap(comparisons, condition)] *)
Definition show_heatmap (comparisons : nat) (condition : string) : M Kernel unit :=
  fun k =>
    match plot_heatmap comparisons condition (heap k) with
    | (Ok f, h) => (Ok tt, {| heap := h; fig := Some f |})
    | (Raise e, h) => (Raise e, {| heap := h; fig := fig k |})
    end.

(** [for condition in ('normal', 'diabetic', 'hyper_metabolic'): ...] *)
Definition heatmap_cell (comparisons : nat) : M Kernel unit :=
  for_each conditions (show_heatmap comparisons).
End Pairs.

(** [plot_heatmap] of the 3x1 grid. *)
Module Column.

(** [matrix[i] = comparison[condition].threshold_error] *)
Definition fill_row (matrix : nat) (condition : string)
    (item : Z * gmap string Comparison) : M (Heap PromoterLoss.Results) unit :=
  let '(i, comparison) := item in
  match comparison !! condition with
  | None => lift (Raise KeyError)
  | Some c =>
      m ← array_at matrix;
      m' ← lift (setrow m i (threshold_error c));
      set matrix (AnArray m')
  end.

Definition plot_heatmap (comparisons : nat) (condition : string)
  : M (Heap PromoterLoss.Results) nat :=
  matrix ← new (AnArray (zeros 3 1));
  d ← results_at comparisons;
  for_each (items d) (fill_row matrix condition);;
  m ← array_at matrix;
  new (AFigure (PromoterLoss.heatmap_figure m condition)).
End Column.

End Store.

(** ** A small deterministic engine, to run the notebooks on *)

Module Toy.
Import Promoters Np.

(** The engine state counts the simulations done so far; trajectory [i] of
    a model with [e] elements has the level [i + j + k + e] at species [j]
    and time point [k]. *)
Definition simulate (m : LinearModel) (c : string) (N : nat) (s : nat)
  : TimeSeries * nat :=
  ({| ts_t := [0; 1; 2]%Q;
      states := {| shape0 := N; shape1 := 2; shape2 := 3;
                   at_ := fun i j k =>
                     inject_Z (Z.of_nat (i + j + k + length (elements m))) |} |},
   S s).

(** An error is a compared trajectory whose last species ends below the
    level 5; without species or time points there is no error. *)
Definition threshold_rule (ref cmp : TimeSeries) (k : nat) : bool :=
  match shape1 (states cmp), shape2 (states cmp) with
  | S j, S n =>
      match Qcompare (at_ (states cmp) k j n) 5 with
      | Lt => true
      | _ => false
      end
  | _, _ => false
  end.

Definition random_state : RandomState := fun k => (7 * k + 3)%nat.

(** A series of [n] trajectories of one species over three time points. *)
Definition series (n : nat) : TimeSeries :=
  {| ts_t := [0; 1; 2]%Q;
     states := {| shape0 := n; shape1 := 1; shape2 := 3;
                  at_ := fun i j k => inject_Z (Z.of_nat (i + k)) |} |}.

(** The comparison of two series that [Comparison(reference, compared)]
    makes when the error frequency is [e]. *)
Definition compare (ref cmp : TimeSeries) (e : Q) : Comparison :=
  {| reference := ref; compared := cmp; t := ts_t ref; threshold_error := e |}.

(** A comparison whose reference series has no trajectory. *)
Definition no_reference : Comparison := compare (series 0) (series 2) 1.

(** A comparison of two series of four trajectories whose arrays have no
    species. *)
Definition no_species : TimeSeries :=
  {| ts_t := [0; 1; 2]%Q;
     states := {| shape0 := 4; shape1 := 0; shape2 := 3;
                  at_ := fun i j k => 0%Q |} |}.

Definition flat_comparison : Comparison := compare no_species no_species 0.

(** A comparison whose compared series has fewer trajectories than its
    reference. *)
Definition short_comparison : Comparison := compare (series 4) (series 2) 1.

(** A series that has two time points for states over three, and the
    comparison of two such series. *)
Definition two_times : TimeSeries :=
  {| ts_t := [0; 1]%Q; states := states (series 4) |}.

Definition skewed_comparison : Comparison := compare two_times two_times (3 # 4).

(** A series over four time points, compared with a reference over
    three. *)
Definition longer : TimeSeries :=
  {| ts_t := [0; 1; 2; 3]%Q;
     states := {| shape0 := 4; shape1 := 1; shape2 := 4;
                  at_ := fun i j k => inject_Z (Z.of_nat (i + k)) |} |}.

Definition uneven_comparison : Comparison := compare (series 4) longer (1 # 2).

(** The comparison that a run of four trajectories on model [m] makes for
    condition [c] when the engine is in state [s], with error frequency
    [e]. *)
Definition comparison_of (m : LinearModel) (c : string) (s : nat) (e : Q)
  : Comparison :=
  {| reference := fst (simulate m c 4 s);
     compared := fst (simulate (remove_perturbed m) c 4 (S s));
     t := [0; 1; 2]%Q;
     threshold_error := e |}.

(** The two series of the example model under normal metabolism. *)
Definition reference0 : TimeSeries :=
  fst (simulate Example.example_model "normal" 4 0).
Definition compared0 : TimeSeries :=
  fst (simulate (remove_perturbed Example.example_model) "normal" 4 1).

Definition example_comparisons : gmap string Comparison :=
  <["hyper_metabolic" := comparison_of Example.example_model "hyper_metabolic" 4 (1 # 2)]>
    (<["diabetic" := comparison_of Example.example_model "diabetic" 2 (1 # 2)]>
       (<["normal" := comparison_of Example.example_model "normal" 0 (1 # 2)]> ∅)).

(** The example simulation after its run on the engine in state 0. *)
Definition completed : ConditionSimulation :=
  {| model := Example.example_model; comparisons := Some example_comparisons |}.

Definition plot_start : Example.PlotState :=
  {| Example.np_random := random_state; Example.ax := Plt.new_axes |}.

(** Results with entries at two positions of the 3x3 grid, and at one
    position of the 3x1 grid. *)
Definition two_entries : dict (Z * Z) (gmap string Comparison) :=
  [((0, 1), example_comparisons); ((2, 2), example_comparisons)].

Definition one_entry : dict Z (gmap string Comparison) :=
  [(1, example_comparisons)].

(** Comparisons with another error frequency under normal metabolism. *)
Definition quarter_comparisons : gmap string Comparison :=
  <["normal" := comparison_of Example.example_model "normal" 0 (1 # 4)]> ∅.

(** The figures of [two_entries] and of [one_entry] for normal
    metabolism. *)
Definition figure_two : Plt.Figure :=
  {| Plt.figsize := (3, 3);
     Plt.image := [[0; 0; 0]; [1 # 2; 0; 0]; [0; 0; 1 # 2]]%Q;
     Plt.cmap := "copper_r"; Plt.vmin := 0; Plt.vmax := 1;
     Plt.title := Some "NORMAL";
     Plt.xlabel := "Primary Repressor Target";
     Plt.ylabel := "Auxiliary Repressor Target";
     Plt.xticks := [0; 1; 2]; Plt.yticks := [0; 1; 2];
     Plt.xticklabels := ["Gene"; "mRNA"; "Protein"];
     Plt.yticklabels := ["Gene"; "mRNA"; "Protein"] |}.

Definition figure_one : Plt.Figure :=
  {| Plt.figsize := (1, 3);
     Plt.image := [[0]; [1 # 2]; [0]]%Q;
     Plt.cmap := "copper_r"; Plt.vmin := 0; Plt.vmax := 1;
     Plt.title := Some "NORMAL";
     Plt.xlabel := "";
     Plt.ylabel := "Auxiliary Promoter Target";
     Plt.xticks := []; Plt.yticks := [0; 1; 2];
     Plt.xticklabels := [];
     Plt.yticklabels := ["Gene"; "mRNA"; "Protein"] |}.

(** Results with entries at two positions of the 3x1 grid. *)
Definition two_rows : dict Z (gmap string Comparison) :=
  [(1, example_comparisons); (0, quarter_comparisons)].

Definition kernel33 (d : dict (Z * Z) (gmap string Comparison))
  : RepressorLoss.Kernel nat :=
  {| RepressorLoss.engine := 0%nat; RepressorLoss.comparisons := d;
     RepressorLoss.simulations := [] |}.

Definition kernel31 (d : dict Z (gmap string Comparison))
  : PromoterLoss.Kernel nat :=
  {| PromoterLoss.engine := 0%nat; PromoterLoss.comparisons := d;
     PromoterLoss.simulations := [] |}.

(** The notebooks' kernels after their sweeps of four trajectories. *)
Definition swept33 : RepressorLoss.Kernel nat :=
  snd (RepressorLoss.sweep simulate threshold_rule RepressorLoss.eta 4 (kernel33 [])).

Definition swept31 : PromoterLoss.Kernel nat :=
  snd (PromoterLoss.sweep simulate threshold_rule PromoterLoss.eta 4 (kernel31 [])).

(** A series of four trajectories that start one level higher. *)
Definition shifted : TimeSeries :=
  {| ts_t := [0; 1; 2]%Q;
     states := {| shape0 := 4; shape1 := 1; shape2 := 3;
                  at_ := fun i j k => inject_Z (Z.of_nat (i + k + 1)) |} |}.

(** Results that agree with [two_entries] and [one_entry] in the keys and in
    the error frequency under normal metabolism, and in nothing else. *)
Definition other_comparisons : gmap string Comparison :=
  <["normal" := compare (series 4) shifted (1 # 2)]> ∅.

Definition two_others : dict (Z * Z) (gmap string Comparison) :=
  [((0, 1), other_comparisons); ((2, 2), other_comparisons)].

Definition one_other : dict Z (gmap string Comparison) :=
  [(1, other_comparisons)].

(** A heap with the results of the 3x3 notebook, a comparison and an axis;
    a heap with the results of the 3x1 notebook. *)
Definition heap33 : Store.Heap (dict (Z * Z) (gmap string Comparison)) :=
  {| Store.objects :=
       [Store.Results two_entries;
        Store.AComparison (comparison_of Example.example_model "normal" 0 (1 # 2));
        Store.AnAxes Plt.new_axes];
     Store.np_random := random_state |}.

Definition heap31 : Store.Heap (dict Z (gmap string Comparison)) :=
  {| Store.objects := [Store.AnAxes Plt.new_axes; Store.Results one_entry];
     Store.np_random := random_state |}.

End Toy.


(** * Properties *)

Import Promoters Np Plt.
Local Open Scope list_scope.

(** ** The embedding at work *)

Section Examples.
Example normalize_index_end : normalize_index 3 (-1) = Ok 2%nat.
Proof. reflexivity. Qed.

Example normalize_index_past : normalize_index 3 3 = Raise IndexError.
Proof. reflexivity. Qed.

Example normalize_index_before : normalize_index 3 (-4) = Raise IndexError.
Proof. reflexivity. Qed.

Example strengths_at_mRNA :
  RepressorLoss.strengths_at RepressorLoss.eta 1 = Ok [0; 1 # 10000; 0]%Q.
Proof. reflexivity. Qed.

Example strengths_at_short_eta :
  RepressorLoss.strengths_at [1 # 2; 1 # 2]%Q 2 = Raise IndexError.
Proof. reflexivity. Qed.

Example dict_setitem_keeps_position :
  dict_setitem 1 "c" [(1, "a"); (2, "b")] = [(1, "c"); (2, "b")].
Proof. reflexivity. Qed.

Example dict_setitem_appends :
  dict_setitem 3 "c" [(1, "a"); (2, "b")] = [(1, "a"); (2, "b"); (3, "c")].
Proof. reflexivity. Qed.

Example upper_condition : upper "hyper_metabolic" = Some "HYPER_METABOLIC".
Proof. reflexivity. Qed.

Example as_index_word :
  as_index 9223372036854775807 = Ok 9223372036854775807 /\
  as_index 9223372036854775808 = Raise OverflowError /\
  as_index 18446744073709551616 = Raise IndexError /\
  as_index (-9223372036854775809) = Raise IndexError.
Proof. repeat split. Qed.

Example plot_lengths_differ :
  plot [0; 1]%Q [3; 4; 5]%Q "m" (1 # 2) new_axes = Raise ValueError.
Proof. reflexivity. Qed.

Example transpose_square :
  transpose 3 [[1; 2; 3]; [4; 5; 6]; [7; 8; 9]]%Q
  = [[1; 4; 7]; [2; 5; 8]; [3; 6; 9]]%Q.
Proof. reflexivity. Qed.

Example randint_draws :
  fst (randint 0 4 3 Toy.random_state) = Ok [3; 2; 1].
Proof. reflexivity. Qed.

Example randint_empty_interval :
  fst (randint 0 0 10 Toy.random_state) = Raise ValueError.
Proof. reflexivity. Qed.

(** A key outside the grid stops [plot_heatmap]; a negative index counts
    from the end of the axis, as numpy has it. *)
Example plot_heatmap_key_outside :
  RepressorLoss.plot_heatmap [((3, 0), Toy.example_comparisons)] "normal"
  = Raise IndexError.
Proof. vm_compute. reflexivity. Qed.

Example plot_heatmap_key_overflows :
  RepressorLoss.plot_heatmap
    [((3, 9223372036854775808), Toy.example_comparisons)] "normal"
  = Raise OverflowError.
Proof. vm_compute. reflexivity. Qed.

Example plot_heatmap_negative_key :
  image <$> match RepressorLoss.plot_heatmap
                    [((-1, 0), Toy.example_comparisons)] "normal" with
            | Ok f => Some f
            | Raise _ => None
            end
  = Some [[0; 0; 1 # 2]; [0; 0; 0]; [0; 0; 0]]%Q.
Proof. vm_compute. reflexivity. Qed.

Example plot_heatmap_unknown_condition :
  RepressorLoss.plot_heatmap Toy.two_entries "fasting" = Raise KeyError.
Proof. vm_compute. reflexivity. Qed.

Example plot_heatmap_two_entries :
  image <$> match RepressorLoss.plot_heatmap Toy.two_entries "normal" with
            | Ok f => Some f
            | Raise _ => None
            end
  = Some [[0; 0; 0]; [1 # 2; 0; 0]; [0; 0; 1 # 2]]%Q.
Proof. vm_compute. reflexivity. Qed.

(** On the heap [plot_heatmap] allocates the matrix and the figure after
    the three objects that are there, and returns the reference of the
    figure; a reference to an axis has no [items]. *)
Example plot_heatmap_allocates :
  fst (Store.Pairs.plot_heatmap 0 "normal" Toy.heap33) = Ok 4%nat /\
  Store.objects (snd (Store.Pairs.plot_heatmap 0 "normal" Toy.heap33)) !! 3%nat
    = Some (Store.AnArray [[0; 1 # 2; 0]; [0; 0; 0]; [0; 0; 1 # 2]]%Q) /\
  Store.objects (snd (Store.Pairs.plot_heatmap 0 "normal" Toy.heap33)) !! 4%nat
    = Some (Store.AFigure Toy.figure_two).
Proof. repeat split; vm_compute; reflexivity. Qed.

Example plot_heatmap_of_an_axis :
  fst (Store.Pairs.plot_heatmap 2 "normal" Toy.heap33) = Raise AttributeError.
Proof. vm_compute. reflexivity. Qed.

Example plot_trajectories_of_an_axis :
  Store.Trajectories.plot_trajectories 2 2 3 Toy.heap33
  = (Raise AttributeError, Toy.heap33).
Proof. reflexivity. Qed.
End Examples.

(** ** Stepping through computations *)

Section Monad.
Context {S A B : Type}.

Lemma bind_Ok_inv (c : M S A) (k : A -> M S B) (s s' : S) (b : B) :
  (c ≫= k) s = (Ok b, s') ->
  exists a s1, c s = (Ok a, s1) /\ k a s1 = (Ok b, s').
Proof.
  unfold mbind, M_bind, Py.bind.
  destruct (c s) as [[a|e] s1]; [eauto | discriminate].
Qed.

Lemma bind_Ok (c : M S A) (k : A -> M S B) (s s1 : S) (a : A) :
  c s = (Ok a, s1) -> (c ≫= k) s = k a s1.
Proof. unfold mbind, M_bind, Py.bind. now intros ->. Qed.

Lemma bind_Raise (c : M S A) (k : A -> M S B) (s s1 : S) (e : Exception) :
  c s = (Raise e, s1) -> (c ≫= k) s = (Raise e, s1).
Proof. unfold mbind, M_bind, Py.bind. now intros ->. Qed.

Lemma lift_Ok_inv (c : Exc A) (s s' : S) (a : A) :
  lift c s = (Ok a, s') -> c = Ok a /\ s' = s.
Proof. unfold lift. now inversion 1. Qed.
End Monad.

Lemma for_each_app {S A} (xs ys : list A) (body : A -> M S unit) (s : S) :
  for_each (xs ++ ys) body s =
  match for_each xs body s with
  | (Ok _, s1) => for_each ys body s1
  | (Raise e, s1) => (Raise e, s1)
  end.
Proof.
  revert s. induction xs as [|x xs IH]; intros s; simpl.
  - reflexivity.
  - unfold Py.bind. destruct (body x s) as [[[]|e] s1]; [apply IH | reflexivity].
Qed.

(** ** Index arithmetic *)

Lemma normalize_index_nat (n k : nat) :
  (k < n)%nat -> normalize_index n (Z.of_nat k) = Ok k.
Proof.
  intros Hk. unfold normalize_index.
  destruct (Z.leb_spec 0 (Z.of_nat k)); [|lia].
  destruct (Z.ltb_spec (Z.of_nat k) (Z.of_nat n)); [|lia].
  simpl. now rewrite Nat2Z.id.
Qed.

Lemma normalize_index_range (n : nat) (i : Z) :
  0 <= i < Z.of_nat n -> normalize_index n i = Ok (Z.to_nat i).
Proof.
  intros Hi. rewrite <- (Z2Nat.id i) at 1 by lia.
  apply normalize_index_nat. lia.
Qed.

Lemma normalize_index_last (n : nat) :
  (0 < n)%nat -> normalize_index n (-1) = Ok (n - 1)%nat.
Proof.
  intros Hn. unfold normalize_index. simpl.
  destruct (Z.leb_spec (- Z.of_nat n) (-1)); [|lia].
  simpl. f_equal. lia.
Qed.

Lemma normalize_index_Ok_lt (n : nat) (i : Z) (k : nat) :
  normalize_index n i = Ok k -> (k < n)%nat.
Proof.
  unfold normalize_index.
  destruct (Z.leb_spec 0 i), (Z.ltb_spec i (Z.of_nat n)); simpl;
    try (inversion 1; lia);
    destruct (Z.leb_spec (- Z.of_nat n) i), (Z.ltb_spec i 0); simpl;
    try discriminate; inversion 1; lia.
Qed.

Lemma as_index_fits (i : Z) :
  -9223372036854775808 <= i <= 9223372036854775807 -> as_index i = Ok i.
Proof.
  intros Hi. unfold as_index.
  destruct (Z.leb_spec (-9223372036854775808) i); [|lia].
  destruct (Z.leb_spec i 9223372036854775807); [reflexivity|lia].
Qed.

Lemma as_index_Ok_inv (i i' : Z) :
  as_index i = Ok i' ->
  i' = i /\ -9223372036854775808 <= i <= 9223372036854775807.
Proof.
  unfold as_index.
  destruct (Z.leb_spec (-9223372036854775808) i),
           (Z.leb_spec i 9223372036854775807); simpl;
    try (inversion 1; subst; split; [reflexivity|lia]);
    destruct (Z.leb_spec 9223372036854775808 i),
             (Z.leb_spec i 18446744073709551615); simpl; discriminate.
Qed.

Lemma as_index_overflow (i : Z) :
  9223372036854775808 <= i <= 18446744073709551615 ->
  as_index i = Raise OverflowError.
Proof.
  intros Hi. unfold as_index.
  destruct (Z.leb_spec (-9223372036854775808) i); [|lia].
  destruct (Z.leb_spec i 9223372036854775807); [lia|]. simpl.
  destruct (Z.leb_spec 9223372036854775808 i); [|lia].
  destruct (Z.leb_spec i 18446744073709551615); [reflexivity|lia].
Qed.

(** ** [ConditionSimulation.run] *)

Section Run.
Context {EngineState : Type}.
Variable simulate :
  LinearModel -> string -> nat -> EngineState -> TimeSeries * EngineState.
Variable threshold_rule : TimeSeries -> TimeSeries -> nat -> bool.

Lemma error_count_le (ref cmp : TimeSeries) :
  (error_count threshold_rule ref cmp <= shape0 (states cmp))%nat.
Proof.
  unfold error_count.
  etransitivity; [apply List.filter_length_le|]. now rewrite length_seq.
Qed.

Lemma new_Comparison_inv (ref cmp : TimeSeries) (c : Comparison) :
  new_Comparison threshold_rule ref cmp = Ok c ->
  reference c = ref /\ compared c = cmp /\ t c = ts_t ref /\
  error_frequency threshold_rule ref cmp = Ok (threshold_error c).
Proof.
  unfold new_Comparison.
  destruct (error_frequency threshold_rule ref cmp) as [e|]; simpl; [|discriminate].
  now inversion 1.
Qed.

Lemma run_condition_inv m N c s cmp s' :
  run_condition simulate threshold_rule m N c s = (Ok cmp, s') ->
  simulated simulate threshold_rule m N c cmp s.
Proof.
  unfold run_condition, Py.bind, lift, simulated.
  destruct (simulate m c N s) as [ref s1] eqn:E1; simpl.
  destruct (simulate (remove_perturbed m) c N s1) as [pert s2] eqn:E2; simpl.
  destruct (new_Comparison threshold_rule ref pert) as [x|] eqn:E3; [|discriminate].
  inversion 1; subst.
  apply new_Comparison_inv in E3 as (-> & -> & -> & ->). auto.
Qed.

Lemma run_conditions_inv m N cs acc s comps s' :
  run_conditions simulate threshold_rule m N cs acc s = (Ok comps, s') ->
  dom comps = dom acc ∪ list_to_set cs /\
  forall c cmp, comps !! c = Some cmp ->
    acc !! c = Some cmp \/
    (c ∈ cs /\ exists s1, simulated simulate threshold_rule m N c cmp s1).
Proof.
  revert acc s. induction cs as [|c0 cs IH]; intros acc s; simpl.
  - unfold Py.ret. inversion 1; subst. split; [set_solver | auto].
  - unfold Py.bind.
    destruct (run_condition simulate threshold_rule m N c0 s) as [[cmp0|] s1] eqn:E;
      [|discriminate].
    intros H. apply IH in H as [Hdom Hget]. split.
    + rewrite Hdom, dom_insert_L. set_solver.
    + intros c cmp Hc. destruct (Hget c cmp Hc) as [Hacc | (Hin & s2 & Hs)].
      * destruct (decide (c0 = c)) as [->|Hne].
        -- rewrite lookup_insert_eq in Hacc. inversion Hacc; subst.
           right. split; [set_solver|]. eauto using run_condition_inv.
        -- rewrite lookup_insert_ne in Hacc by done. now left.
      * right. split; [set_solver | eauto].
Qed.

Lemma run_inv sim N s sim' s' :
  run simulate threshold_rule sim N s = (Ok sim', s') ->
  model sim' = model sim /\
  exists comps, comparisons sim' = Some comps /\
    dom comps = list_to_set conditions /\
    forall c cmp, comps !! c = Some cmp ->
      c ∈ conditions /\
      exists s1, simulated simulate threshold_rule (model sim) N c cmp s1.
Proof.
  unfold run, Py.bind, Py.ret.
  destruct (run_conditions _ _ _ _ _ _ s) as [[comps|] s1] eqn:E; [|discriminate].
  inversion 1; subst; simpl. split; [reflexivity|].
  exists comps. apply run_conditions_inv in E as [Hdom Hget].
  split; [reflexivity|]. split.
  - rewrite Hdom. set_solver.
  - intros c cmp Hc. destruct (Hget c cmp Hc) as [Habs|H']; [|exact H'].
    now rewrite lookup_empty in Habs.
Qed.
End Run.

(** ** The error frequency and the comparisons of a run *)

Section Claims_Run.
Context {EngineState : Type}.
Variable simulate :
  LinearModel -> string -> nat -> EngineState -> TimeSeries * EngineState.
Variable threshold_rule : TimeSeries -> TimeSeries -> nat -> bool.

Lemma error_frequency_inv (ref cmp : TimeSeries) (e : Q) :
  error_frequency threshold_rule ref cmp = Ok e ->
  (0 < shape0 (states cmp))%nat /\
  e = Qred (Z.of_nat (error_count threshold_rule ref cmp)
            # Pos.of_nat (shape0 (states cmp))).
Proof.
  unfold error_frequency.
  destruct (Nat.eqb_spec (shape0 (states cmp)) 0); [discriminate|].
  inversion 1. split; [lia | reflexivity].
Qed.

(** C1: every completed [Comparison] carries as [threshold_error] the
    error-frequency statistic of the chosen threshold rule: the number of
    compared trajectories the rule counts as errors, divided by the number
    of compared trajectories, a proportion between 0 and 1. *)
Theorem threshold_error_is_error_frequency (ref cmp : TimeSeries) (c : Comparison) :
  new_Comparison threshold_rule ref cmp = Ok c ->
  (threshold_error c ==
     inject_Z (Z.of_nat (error_count threshold_rule ref cmp))
     / inject_Z (Z.of_nat (shape0 (states cmp))))%Q /\
  (error_count threshold_rule ref cmp <= shape0 (states cmp))%nat /\
  (0 <= threshold_error c)%Q /\ (threshold_error c <= 1)%Q.
Proof.
  intros H. apply new_Comparison_inv in H as (_ & _ & _ & H).
  apply error_frequency_inv in H as [Hn ->].
  pose proof (error_count_le threshold_rule ref cmp) as Hle.
  set (k := error_count threshold_rule ref cmp) in *.
  set (n := shape0 (states cmp)) in *.
  assert (Hpos : Z.pos (Pos.of_nat n) = Z.of_nat n).
  { destruct n as [|n']; [lia|]. rewrite <- Pos.of_nat_succ. lia. }
  repeat split.
  - rewrite Qred_correct, Qmake_Qdiv. now rewrite Hpos.
  - exact Hle.
  - rewrite Qred_correct. unfold Qle; simpl. lia.
  - rewrite Qred_correct. unfold Qle; simpl. lia.
Qed.

(** C2: after [ConditionSimulation.run] has completed, [comparisons] is a
    dictionary whose keys are exactly 'normal', 'diabetic' and
    'hyper_metabolic', and each of them maps to a [Comparison] of dynamics
    the engine simulated under that condition. *)
Theorem run_comparisons_keyed_by_condition
    (sim sim' : ConditionSimulation) (N : nat) (s s' : EngineState) :
  run simulate threshold_rule sim N s = (Ok sim', s') ->
  exists comps : gmap string Comparison,
    comparisons sim' = Some comps /\
    dom comps = {[ "normal"; "diabetic"; "hyper_metabolic" ]} /\
    forall c, c ∈ conditions ->
      exists cmp s1 s2,
        comps !! c = Some cmp /\
        reference cmp = fst (simulate (model sim) c N s1) /\
        compared cmp = fst (simulate (remove_perturbed (model sim)) c N s2).
Proof.
  intros H. apply run_inv in H as (_ & comps & Hc & Hdom & Hget).
  exists comps. split; [exact Hc|]. split.
  - rewrite Hdom. unfold conditions. simpl. set_solver.
  - intros c Hin.
    assert (is_Some (comps !! c)) as [cmp Hcmp].
    { apply elem_of_dom. rewrite Hdom. now apply elem_of_list_to_set. }
    destruct (Hget c cmp Hcmp) as (_ & s1 & Hr & Hp & _).
    exists cmp, s1, (snd (simulate (model sim) c N s1)). auto.
Qed.

(** C3: each [Comparison] of a completed run holds as [reference] the
    dynamics of the model as it is and as [compared] the dynamics of the
    model without the elements added with [perturbed=True]; its
    [threshold_error] is the error frequency of the compared series
    relative to the reference.  The model without its perturbed elements
    keeps exactly the other elements, and is smaller as soon as one
    element is perturbed. *)
Theorem run_compares_intact_with_perturbed
    (sim sim' : ConditionSimulation) (N : nat) (s s' : EngineState)
    (comps : gmap string Comparison) (c : string) (cmp : Comparison) :
  run simulate threshold_rule sim N s = (Ok sim', s') ->
  comparisons sim' = Some comps ->
  comps !! c = Some cmp ->
  (exists s1 s2,
     reference cmp = fst (simulate (model sim) c N s1) /\
     compared cmp = fst (simulate (remove_perturbed (model sim)) c N s2)) /\
  error_frequency threshold_rule (reference cmp) (compared cmp)
    = Ok (threshold_error cmp) /\
  (forall e, In e (elements (remove_perturbed (model sim))) <->
             In e (elements (model sim)) /\ perturbed e = false) /\
  ((exists e, In e (elements (model sim)) /\ perturbed e = true) ->
   (length (elements (remove_perturbed (model sim)))
      < length (elements (model sim)))%nat).
Proof.
  intros H Hc Hcmp. apply run_inv in H as (_ & comps' & Hc' & _ & Hget).
  rewrite Hc in Hc'. inversion Hc'; subst comps'.
  destruct (Hget c cmp Hcmp) as (_ & s1 & Hr & Hp & _ & He).
  split; [exists s1; eexists; split; eassumption|]. split; [exact He|]. split.
  - intros e. simpl. rewrite List.filter_In.
    destruct (perturbed e); simpl; intuition congruence.
  - intros (e & Hin & He'). simpl.
    induction (elements (model sim)) as [|x l IH]; [destruct Hin|].
    simpl. pose proof (List.filter_length_le (fun e => negb (perturbed e)) l).
    destruct Hin as [->|Hin].
    + rewrite He'. simpl. lia.
    + destruct (perturbed x); simpl; [lia|]. specialize (IH Hin). lia.
Qed.
End Claims_Run.

(** ** [plot_trajectories] *)

Section Trajectories.
Import Example.

Lemma randint_Ok_inv (low high : Z) (size : nat) (rs rs' : RandomState) ind :
  randint low high size rs = (Ok ind, rs') ->
  length ind = size /\ Forall (fun i => low <= i < high) ind.
Proof.
  unfold randint. destruct (Nat.eqb_spec size 0) as [->|Hs].
  - inversion 1. split; [reflexivity | constructor].
  - destruct (Z.leb_spec high low); [discriminate|].
    inversion 1; subst. split.
    + now rewrite length_map, length_seq.
    + apply List.Forall_forall. intros i Hi. apply in_map_iff in Hi as (k & <- & _).
      pose proof (Z.mod_pos_bound (Z.of_nat (rs k)) (high - low)). lia.
Qed.

Lemma randint_nonempty (high : nat) (size : nat) (rs : RandomState) :
  (0 < high)%nat ->
  exists ind rs', randint 0 (Z.of_nat high) size rs = (Ok ind, rs').
Proof.
  intros Hh. unfold randint. destruct (size =? 0)%nat; [eauto|].
  destruct (Z.leb_spec (Z.of_nat high) 0); [lia | eauto].
Qed.

Lemma mapM_normalize_Ok (n : nat) (ind : list Z) :
  Forall (fun i => 0 <= i < Z.of_nat n) ind ->
  mapM (normalize_index n) ind = Ok (map Z.to_nat ind).
Proof.
  induction 1 as [|i ind Hi _ IH]; [reflexivity|].
  simpl. rewrite (normalize_index_range n i Hi). simpl.
  now rewrite IH.
Qed.

Lemma mapM_normalize_inv (n : nat) (ind : list Z) (ks : list nat) :
  mapM (normalize_index n) ind = Ok ks ->
  length ks = length ind /\ Forall (fun k => (k < n)%nat) ks.
Proof.
  revert ks. induction ind as [|i ind IH]; intros ks; simpl.
  - inversion 1. split; [reflexivity | constructor].
  - destruct (normalize_index n i) as [k|] eqn:Ek; simpl; [|discriminate].
    destruct (mapM (normalize_index n) ind) as [ks'|]; simpl; [|discriminate].
    inversion 1; subst. destruct (IH ks' eq_refl) as [Hl Hf].
    split; [simpl; congruence|].
    constructor; [eapply normalize_index_Ok_lt; eassumption | exact Hf].
Qed.

Lemma take_last_Ok (a : ndarray3) (ind : list Z) :
  (0 < shape1 a)%nat ->
  Forall (fun i => 0 <= i < Z.of_nat (shape0 a)) ind ->
  take_last a ind = Ok (map (fun i => row3 a (Z.to_nat i) (shape1 a - 1)) ind).
Proof.
  intros Hs Hind. unfold take_last.
  rewrite (normalize_index_last _ Hs). simpl.
  rewrite (mapM_normalize_Ok _ _ Hind). simpl.
  now rewrite map_map.
Qed.

Lemma take_last_inv (a : ndarray3) (ind : list Z) (rows : ndarray2) :
  take_last a ind = Ok rows ->
  exists ks, rows = map (fun k => row3 a k (shape1 a - 1)) ks /\
             length ks = length ind /\
             Forall (fun k => (k < shape0 a)%nat) ks /\
             (0 < shape1 a)%nat.
Proof.
  unfold take_last.
  destruct (normalize_index (shape1 a) (-1)) as [j|] eqn:Ej; simpl; [|discriminate].
  destruct (mapM (normalize_index (shape0 a)) ind) as [ks|] eqn:Eks; simpl;
    [|discriminate].
  inversion 1; subst. exists ks.
  pose proof (normalize_index_Ok_lt _ _ _ Ej) as Hj.
  destruct (mapM_normalize_inv _ _ _ Eks) as [Hl Hf].
  assert (j = (shape1 a - 1)%nat) as ->.
  { rewrite normalize_index_last in Ej by lia. now inversion Ej. }
  repeat split; auto. lia.
Qed.

Lemma length_row3 (a : ndarray3) (i j : nat) : length (row3 a i j) = shape2 a.
Proof. unfold row3. now rewrite length_map, length_seq. Qed.

Lemma plot_Ok (x y : list Q) (c : string) (w : Q) (a : Axes) :
  length x = length y ->
  plot x y c w a =
  Ok {| lines := lines a ++ [{| xdata := x; ydata := y; color := c; lw := w |}];
        ax_xlabel := ax_xlabel a; ax_ylabel := ax_ylabel a; ax_xlim := ax_xlim a |}.
Proof. intros H. unfold plot. now rewrite (proj2 (Nat.eqb_eq _ _) H). Qed.

Lemma plot_Raise (x y : list Q) (c : string) (w : Q) (a : Axes) :
  length x <> length y -> plot x y c w a = Raise ValueError.
Proof. intros H. unfold plot. now rewrite (proj2 (Nat.eqb_neq _ _) H). Qed.

(** Drawing the rows of one array, when the time points are as many as the
    entries of a row, adds one line per row, in order, and touches nothing
    else. *)
Lemma for_each_plot (c : Comparison) (col : string) (a : ndarray3)
    (ks : list nat) (s : PlotState) :
  ks = [] \/ length (t c) = shape2 a ->
  for_each (map (fun k => row3 a k (shape1 a - 1)) ks)
    (fun trajectory => try_ax (plot (t c) trajectory col (1 # 2))) s =
  (Ok tt,
   {| np_random := np_random s;
      ax := {| lines := lines (ax s) ++ map (trajectory_line c col a) ks;
               ax_xlabel := ax_xlabel (ax s); ax_ylabel := ax_ylabel (ax s);
               ax_xlim := ax_xlim (ax s) |} |}).
Proof.
  revert s. induction ks as [|k ks IH]; intros [rs [l xl yl lim]] Hlen; simpl.
  - unfold Py.ret. now rewrite app_nil_r.
  - destruct Hlen as [Hnil|Hlen]; [discriminate|].
    unfold Py.bind, try_ax. simpl.
    rewrite plot_Ok by now rewrite length_row3.
    rewrite IH by now right. simpl. now rewrite <- app_assoc.
Qed.

(** With another number of time points the first row already raises, and
    nothing is drawn. *)
Lemma for_each_plot_Raise (c : Comparison) (col : string) (a : ndarray3)
    (k : nat) (ks : list nat) (s : PlotState) :
  length (t c) <> shape2 a ->
  for_each (map (fun k => row3 a k (shape1 a - 1)) (k :: ks))
    (fun trajectory => try_ax (plot (t c) trajectory col (1 # 2))) s =
  (Raise ValueError, s).
Proof.
  intros Hlen. simpl. unfold Py.bind, try_ax.
  now rewrite plot_Raise by now rewrite length_row3.
Qed.

(** The two ways the loop over the rows of one array can end. *)
Lemma for_each_plot_cases (c : Comparison) (col : string) (a : ndarray3)
    (ks : list nat) (s : PlotState) :
  (for_each (map (fun k => row3 a k (shape1 a - 1)) ks)
     (fun trajectory => try_ax (plot (t c) trajectory col (1 # 2))) s =
   (Ok tt,
    {| np_random := np_random s;
       ax := {| lines := lines (ax s) ++ map (trajectory_line c col a) ks;
                ax_xlabel := ax_xlabel (ax s); ax_ylabel := ax_ylabel (ax s);
                ax_xlim := ax_xlim (ax s) |} |}) /\
   (ks = [] \/ length (t c) = shape2 a)) \/
  (for_each (map (fun k => row3 a k (shape1 a - 1)) ks)
     (fun trajectory => try_ax (plot (t c) trajectory col (1 # 2))) s =
   (Raise ValueError, s) /\
   ks <> [] /\ length (t c) <> shape2 a).
Proof.
  destruct (decide (length (t c) = shape2 a)) as [Heq|Hne].
  - left. split; [apply for_each_plot|]; now right.
  - destruct ks as [|k ks].
    + left. split; [apply for_each_plot|]; now left.
    + right. split; [now apply for_each_plot_Raise|]. split; [discriminate | exact Hne].
Qed.

(** Every way [plot_trajectories] can end: the lines on the axis are the
    old ones, then lines for reference trajectories [ks], then lines for
    compared trajectories [ks']; the call succeeds only with one line per
    drawn index from each array. *)
Lemma plot_trajectories_lines (c : Comparison) (N : nat) (s s' : PlotState) r :
  plot_trajectories c N s = (r, s') ->
  exists ks ks',
    lines (ax s') =
      lines (ax s)
      ++ map (trajectory_line c "m" (states (reference c))) ks
      ++ map (trajectory_line c "grey" (states (compared c))) ks' /\
    Forall (fun k => (k < shape0 (states (reference c)))%nat) ks /\
    Forall (fun k => (k < shape0 (states (compared c)))%nat) ks' /\
    (r = Ok tt -> length ks = N /\ length ks' = N).
Proof.
  unfold plot_trajectories, mbind, M_bind, Py.bind, with_random, lift.
  destruct (randint 0 _ N (np_random s)) as [[ind|e] rs] eqn:Er; simpl.
  2:{ inversion 1; subst. exists [], []. simpl. rewrite app_nil_r.
      repeat split; auto; discriminate. }
  destruct (randint_Ok_inv _ _ _ _ _ _ Er) as [Hlen _].
  destruct (take_last (states (reference c)) ind) as [rows|e] eqn:E1; simpl.
  2:{ inversion 1; subst. exists [], []. simpl. rewrite app_nil_r.
      repeat split; auto; discriminate. }
  apply take_last_inv in E1 as (ks & -> & Hks & Hf & _).
  match goal with |- context [for_each _ _ ?s0] =>
    destruct (for_each_plot_cases c "m" (states (reference c)) ks s0)
      as [[-> _]|[-> _]] end; simpl.
  2:{ inversion 1; subst. exists [], []. simpl. rewrite app_nil_r.
      repeat split; auto; discriminate. }
  destruct (take_last (states (compared c)) ind) as [rows'|e] eqn:E2; simpl.
  2:{ inversion 1; subst. exists ks, []. simpl. rewrite app_nil_r.
      repeat split; auto; discriminate. }
  apply take_last_inv in E2 as (ks' & -> & Hks' & Hf' & _).
  match goal with |- context [for_each _ _ ?s0] =>
    destruct (for_each_plot_cases c "grey" (states (compared c)) ks' s0)
      as [[-> _]|[-> _]] end; simpl.
  2:{ inversion 1; subst. exists ks, []. simpl. rewrite app_nil_r.
      repeat split; auto; discriminate. }
  unfold on_ax, modify. simpl. inversion 1; subst. simpl.
  exists ks, ks'. rewrite <- app_assoc. repeat split; auto; congruence.
Qed.
End Trajectories.

Section Claims_Trajectories.
Import Example.
Context {EngineState : Type}.
Variable simulate :
  LinearModel -> string -> nat -> EngineState -> TimeSeries * EngineState.
Variable threshold_rule : TimeSeries -> TimeSeries -> nat -> bool.

(** C7: the trajectories that [plot_trajectories] draws for a comparison of
    a completed run are rows of the arrays the external engine returned:
    every new line has the comparison's time points as abscissa and, as
    ordinate, the last-species row of one trajectory of the engine's
    output for the model (magenta) or for the model without its perturbed
    elements (grey), value by value as the engine returned it. *)
Theorem plotted_trajectories_are_engine_rows
    (sim sim' : ConditionSimulation) (N : nat) (e e' : EngineState)
    (comps : gmap string Comparison) (condition : string) (c : Comparison)
    (n : nat) (s s' : PlotState) (r : Exc unit) :
  run simulate threshold_rule sim N e = (Ok sim', e') ->
  comparisons sim' = Some comps ->
  comps !! condition = Some c ->
  plot_trajectories c n s = (r, s') ->
  exists e1 e2 new,
    let ref := states (fst (simulate (model sim) condition N e1)) in
    let cmp :=
      states (fst (simulate (remove_perturbed (model sim)) condition N e2)) in
    reference c = fst (simulate (model sim) condition N e1) /\
    compared c = fst (simulate (remove_perturbed (model sim)) condition N e2) /\
    lines (ax s') = lines (ax s) ++ new /\
    Forall (fun l =>
      xdata l = t c /\
      exists k,
        (color l = "m" /\ (k < shape0 ref)%nat /\
         ydata l = map (at_ ref k (shape1 ref - 1)) (seq 0 (shape2 ref))) \/
        (color l = "grey" /\ (k < shape0 cmp)%nat /\
         ydata l = map (at_ cmp k (shape1 cmp - 1)) (seq 0 (shape2 cmp)))) new.
Proof.
  intros Hrun Hc Hcmp Hplot.
  apply run_inv in Hrun as (_ & comps' & Hc' & _ & Hget).
  rewrite Hc in Hc'. inversion Hc'; subst comps'.
  destruct (Hget _ _ Hcmp) as (_ & e1 & Hr & Hp & _).
  apply plot_trajectories_lines in Hplot as (ks & ks' & Hl & Hks & Hks' & _).
  exists e1, (snd (simulate (model sim) condition N e1)),
    (map (trajectory_line c "m" (states (reference c))) ks
     ++ map (trajectory_line c "grey" (states (compared c))) ks').
  simpl. split; [exact Hr|]. split; [exact Hp|]. split; [exact Hl|].
  rewrite <- Hr, <- Hp. apply Forall_app. split.
  - apply List.Forall_forall. intros l Hin.
    apply in_map_iff in Hin as (k & <- & Hin). split; [reflexivity|].
    exists k. left. simpl. repeat split.
    rewrite List.Forall_forall in Hks. auto.
  - apply List.Forall_forall. intros l Hin.
    apply in_map_iff in Hin as (k & <- & Hin). split; [reflexivity|].
    exists k. right. simpl. repeat split.
    rewrite List.Forall_forall in Hks'. auto.
Qed.
End Claims_Trajectories.

Section Claims_Bounds.
Import Example.

Lemma randint_Ok (high : nat) (size : nat) (rs : RandomState) :
  size = 0%nat \/ (0 < high)%nat ->
  exists ind rs', randint 0 (Z.of_nat high) size rs = (Ok ind, rs').
Proof.
  intros [->|Hh]; [unfold randint; simpl; eauto|].
  now apply randint_nonempty.
Qed.

(** C8, as the code has it: when the reference series has at least one
    trajectory and the comparison has as many time points as both arrays
    have along their time axis (or no trajectory is asked for), both arrays
    have at least one species and the compared series has at least as many
    trajectories as the reference, [plot_trajectories] draws [N] indices
    inside the reference's trajectory axis, reads both arrays at exactly
    these indices without leaving their bounds, and adds [N] lines for each
    array. *)
Theorem plot_trajectories_in_bounds (c : Comparison) (N : nat) (s : PlotState) :
  (N = 0%nat \/
   ((0 < shape0 (states (reference c)))%nat /\
    length (t c) = shape2 (states (reference c)) /\
    length (t c) = shape2 (states (compared c)))) ->
  (0 < shape1 (states (reference c)))%nat ->
  (0 < shape1 (states (compared c)))%nat ->
  (shape0 (states (reference c)) <= shape0 (states (compared c)))%nat ->
  exists (ind : list Z) (s' : PlotState),
    randint 0 (Z.of_nat (shape0 (states (reference c)))) N (np_random s)
      = (Ok ind, np_random s') /\
    length ind = N /\
    Forall (fun i => 0 <= i < Z.of_nat (shape0 (states (reference c)))) ind /\
    take_last (states (reference c)) ind
      = Ok (map (fun i => row3 (states (reference c)) (Z.to_nat i)
                            (shape1 (states (reference c)) - 1)) ind) /\
    take_last (states (compared c)) ind
      = Ok (map (fun i => row3 (states (compared c)) (Z.to_nat i)
                            (shape1 (states (compared c)) - 1)) ind) /\
    plot_trajectories c N s = (Ok tt, s') /\
    lines (ax s') =
      lines (ax s)
      ++ map (fun i => trajectory_line c "m" (states (reference c)) (Z.to_nat i)) ind
      ++ map (fun i => trajectory_line c "grey" (states (compared c)) (Z.to_nat i)) ind.
Proof.
  intros Hn Hs1 Hs2 Hle.
  destruct (randint_Ok (shape0 (states (reference c))) N (np_random s))
    as (ind & rs' & Er); [tauto|].
  destruct (randint_Ok_inv _ _ _ _ _ _ Er) as [Hlen Hind].
  assert (Hind' : Forall (fun i => 0 <= i < Z.of_nat (shape0 (states (compared c)))) ind).
  { eapply Forall_impl; [exact Hind|]. simpl. intros i Hi. lia. }
  pose proof (take_last_Ok _ _ Hs1 Hind) as E1.
  pose proof (take_last_Ok _ _ Hs2 Hind') as E2.
  assert (Hr : map Z.to_nat ind = []
               \/ length (t c) = shape2 (states (reference c))).
  { destruct Hn as [->|(_ & H & _)]; [left|now right].
    destruct ind; [reflexivity | discriminate]. }
  assert (Hc : map Z.to_nat ind = []
               \/ length (t c) = shape2 (states (compared c))).
  { destruct Hn as [->|(_ & _ & H)]; [left|now right].
    destruct ind; [reflexivity | discriminate]. }
  exists ind. eexists. split; [|split; [exact Hlen|split; [exact Hind|
    split; [exact E1|split; [exact E2|]]]]].
  2:{ unfold plot_trajectories, mbind, M_bind, Py.bind, with_random, lift.
      rewrite Er. simpl. rewrite E1. simpl.
      rewrite <- (map_map Z.to_nat
        (fun k => row3 (states (reference c)) k (shape1 (states (reference c)) - 1))).
      rewrite for_each_plot by exact Hr. simpl. rewrite E2. simpl.
      rewrite <- (map_map Z.to_nat
        (fun k => row3 (states (compared c)) k (shape1 (states (compared c)) - 1))).
      rewrite for_each_plot by exact Hc. simpl. unfold on_ax, modify. simpl.
      split; [reflexivity|]. simpl.
      rewrite <- app_assoc, !map_map. reflexivity. }
  simpl. exact Er.
Qed.

(** C8, as the claim states it, fails on comparisons that
    [Comparison(reference, compared)] makes and whose compared series has
    at least as many trajectories as the reference.  With a reference
    without trajectories the draw of ten indices from an empty interval
    raises [ValueError].  With arrays without species the ten indices are
    drawn and reading position -1 of the empty species axis raises
    [IndexError].  With two time points for states over three the first
    call of [ax.plot] raises [ValueError].  In these three cases no line is
    drawn.  With a compared series over four time points and a reference
    over three the reference lines are drawn and the first compared line
    raises [ValueError]. *)
Lemma plot_trajectories_out_of_bounds :
  (new_Comparison Toy.threshold_rule (Toy.series 0) (Toy.series 2)
     = Ok Toy.no_reference /\
   (shape0 (states (reference Toy.no_reference))
      <= shape0 (states (compared Toy.no_reference)))%nat /\
   plot_trajectories Toy.no_reference 10 Toy.plot_start
   = (Raise ValueError, Toy.plot_start)) /\
  (new_Comparison Toy.threshold_rule Toy.no_species Toy.no_species
     = Ok Toy.flat_comparison /\
   (shape0 (states (reference Toy.flat_comparison))
      <= shape0 (states (compared Toy.flat_comparison)))%nat /\
   plot_trajectories Toy.flat_comparison 10 Toy.plot_start
   = (Raise IndexError,
      {| np_random := fun k => Toy.random_state (10 + k)%nat;
         ax := new_axes |})) /\
  (new_Comparison Toy.threshold_rule Toy.two_times Toy.two_times
     = Ok Toy.skewed_comparison /\
   (shape0 (states (reference Toy.skewed_comparison))
      <= shape0 (states (compared Toy.skewed_comparison)))%nat /\
   plot_trajectories Toy.skewed_comparison 10 Toy.plot_start
   = (Raise ValueError,
      {| np_random := fun k => Toy.random_state (10 + k)%nat;
         ax := new_axes |})) /\
  (new_Comparison Toy.threshold_rule (Toy.series 4) Toy.longer
     = Ok Toy.uneven_comparison /\
   (shape0 (states (reference Toy.uneven_comparison))
      <= shape0 (states (compared Toy.uneven_comparison)))%nat /\
   fst (plot_trajectories Toy.uneven_comparison 10 Toy.plot_start)
   = Raise ValueError /\
   Forall (fun l => color l = "m")
     (lines (ax (snd (plot_trajectories Toy.uneven_comparison 10 Toy.plot_start)))) /\
   length (lines (ax (snd (plot_trajectories Toy.uneven_comparison 10 Toy.plot_start))))
   = 10%nat).
Proof.
  repeat split; try (simpl; lia); try reflexivity.
  vm_compute. repeat constructor.
Qed.
End Claims_Bounds.

(** ** Arrays *)

Section Arrays.
Lemma lookup_map {A B} (f : A -> B) (l : list A) (i : nat) :
  map f l !! i = f <$> l !! i.
Proof.
  revert i. induction l as [|x l IH]; intros [|i]; simpl; auto.
Qed.

Lemma has_shape_zeros (r c : nat) : has_shape r c (zeros r c).
Proof.
  unfold has_shape, zeros. split; [apply length_replicate|].
  apply Forall_replicate, length_replicate.
Qed.

Lemma cell_zeros (r c i j : nat) :
  (i < r)%nat -> (j < c)%nat -> cell (zeros r c) i j = Some 0%Q.
Proof.
  intros Hi Hj. unfold cell, zeros.
  rewrite lookup_replicate_2 by exact Hi. simpl.
  now apply lookup_replicate_2.
Qed.

Lemma has_shape_lookup (r c : nat) (m : ndarray2) (i : nat) :
  has_shape r c m -> (i < r)%nat -> exists row, m !! i = Some row /\ length row = c.
Proof.
  intros [Hr Hc] Hi.
  destruct (lookup_lt_is_Some_2 m i) as [row Hrow]; [lia|].
  exists row. split; [exact Hrow|].
  rewrite Forall_lookup in Hc. eauto.
Qed.

Lemma has_shape_insert (r c : nat) (m : ndarray2) (i : nat) (row : list Q) :
  has_shape r c m -> length row = c -> has_shape r c (<[i := row]> m).
Proof.
  intros [Hr Hc] Hrow. split; [now rewrite length_insert|].
  now apply Forall_insert.
Qed.

(** [m[i, j] = v] inside the array writes that entry and no other. *)
Lemma setitem2_spec (r c : nat) (m : ndarray2) (i j : Z) (v : Q) :
  has_shape r c m ->
  0 <= i < Z.min (Z.of_nat r) 9223372036854775808 ->
  0 <= j < Z.min (Z.of_nat c) 9223372036854775808 ->
  exists m',
    setitem2 m i j v = Ok m' /\ has_shape r c m' /\
    cell m' (Z.to_nat i) (Z.to_nat j) = Some v /\
    forall a b, (a, b) <> (Z.to_nat i, Z.to_nat j) -> cell m' a b = cell m a b.
Proof.
  intros Hm Hi Hj.
  destruct (has_shape_lookup r c m (Z.to_nat i) Hm) as (row & Hrow & Hlen); [lia|].
  pose proof Hm as [Hr _].
  unfold setitem2. rewrite !as_index_fits by lia. simpl.
  rewrite normalize_index_range by lia. simpl.
  rewrite Hrow. rewrite normalize_index_range by lia. simpl.
  eexists. split; [reflexivity|]. split; [|split].
  - apply has_shape_insert; [exact Hm | now rewrite length_insert].
  - unfold cell. rewrite list_lookup_insert_eq by lia. simpl.
    apply list_lookup_insert_eq. lia.
  - intros a b Hab. unfold cell.
    destruct (decide (a = Z.to_nat i)) as [->|Ha].
    + rewrite list_lookup_insert_eq by lia. rewrite Hrow. simpl.
      apply list_lookup_insert_ne. congruence.
    + now rewrite list_lookup_insert_ne by congruence.
Qed.

(** Writing the value an entry already has leaves the array as it is. *)
Lemma setitem2_same (r c : nat) (m : ndarray2) (i j : Z) (v : Q) :
  has_shape r c m ->
  0 <= i < Z.min (Z.of_nat r) 9223372036854775808 ->
  0 <= j < Z.min (Z.of_nat c) 9223372036854775808 ->
  cell m (Z.to_nat i) (Z.to_nat j) = Some v ->
  setitem2 m i j v = Ok m.
Proof.
  intros Hm Hi Hj Hcell.
  destruct (has_shape_lookup r c m (Z.to_nat i) Hm) as (row & Hrow & Hlen); [lia|].
  pose proof Hm as [Hr _].
  unfold setitem2. rewrite !as_index_fits by lia. simpl.
  rewrite normalize_index_range by lia. simpl.
  rewrite Hrow. rewrite normalize_index_range by lia. simpl.
  unfold cell in Hcell. rewrite Hrow in Hcell. simpl in Hcell.
  f_equal. rewrite (list_insert_id row) by exact Hcell.
  now apply list_insert_id.
Qed.

(** [m[i] = v] on an array of one column. *)
Lemma setrow_spec (r : nat) (m : ndarray2) (i : Z) (v : Q) :
  has_shape r 1 m -> 0 <= i < Z.min (Z.of_nat r) 9223372036854775808 ->
  exists m',
    setrow m i v = Ok m' /\ has_shape r 1 m' /\
    m' !! Z.to_nat i = Some [v] /\
    forall a, a <> Z.to_nat i -> m' !! a = m !! a.
Proof.
  intros Hm Hi.
  destruct (has_shape_lookup r 1 m (Z.to_nat i) Hm) as (row & Hrow & Hlen); [lia|].
  pose proof Hm as [Hr _].
  unfold setrow. rewrite as_index_fits by lia. simpl.
  rewrite normalize_index_range by lia. simpl.
  rewrite Hrow, Hlen. simpl.
  eexists. split; [reflexivity|]. split; [|split].
  - now apply has_shape_insert.
  - apply list_lookup_insert_eq. lia.
  - intros a Ha. now apply list_lookup_insert_ne.
Qed.

Lemma setrow_same (r : nat) (m : ndarray2) (i : Z) (v : Q) :
  has_shape r 1 m -> 0 <= i < Z.min (Z.of_nat r) 9223372036854775808 ->
  m !! Z.to_nat i = Some [v] ->
  setrow m i v = Ok m.
Proof.
  intros Hm Hi Hrow. pose proof Hm as [Hr _].
  unfold setrow. rewrite as_index_fits by lia. simpl.
  rewrite normalize_index_range by lia. simpl.
  rewrite Hrow. simpl. f_equal. now apply list_insert_id.
Qed.

(** The transpose swaps the two indices. *)
Lemma cell_transpose (r c : nat) (m : ndarray2) (i j : nat) :
  has_shape r c m -> (i < r)%nat -> (j < c)%nat ->
  cell (transpose c m) j i = cell m i j.
Proof.
  intros Hm Hi Hj.
  destruct (has_shape_lookup r c m i Hm Hi) as (row & Hrow & Hlen).
  unfold cell, transpose. rewrite lookup_map.
  rewrite lookup_seq_lt by exact Hj. simpl.
  rewrite lookup_map, Hrow. simpl.
  destruct (lookup_lt_is_Some_2 row j) as [x Hx]; [lia|].
  rewrite Hx. f_equal. now apply nth_lookup_Some with (d := 0%Q).
Qed.
End Arrays.

(** ** Dictionaries *)

Section Dicts.
Context {K V : Type} `{EqDecision K}.

Lemma dict_get_None (k : K) (d : dict K V) :
  dict_get k d = None <-> ~ In k (keys d).
Proof.
  induction d as [|[k' v'] d IH]; simpl; [tauto|].
  destruct (decide (k = k')) as [->|Hne].
  - split; [discriminate | tauto].
  - rewrite IH. split; [intros H [?|?]; [congruence | tauto] | tauto].
Qed.

Lemma dict_get_In (k : K) (v : V) (d : dict K V) :
  NoDup (keys d) -> In (k, v) d -> dict_get k d = Some v.
Proof.
  induction d as [|[k' v'] d IH]; simpl; [tauto|].
  intros Hnd [Heq|Hin].
  - inversion Heq; subst. now rewrite decide_True.
  - apply NoDup_cons in Hnd as [Hk' Hnd].
    destruct (decide (k = k')) as [->|Hne]; [|auto].
    exfalso. apply Hk'. apply list_elem_of_In.
    change k' with (fst (k', v)). now apply in_map.
Qed.

(** A new key goes to the end of the dictionary. *)
Lemma dict_setitem_new (k : K) (v : V) (d : dict K V) :
  dict_get k d = None -> dict_setitem k v d = d ++ [(k, v)].
Proof.
  induction d as [|[k' v'] d IH]; simpl; [reflexivity|].
  destruct (decide (k = k')); [discriminate|].
  intros H. now rewrite IH.
Qed.
End Dicts.

(** ** [plot_heatmap] of the 3x3 grid *)

Section Heatmap33.
Import RepressorLoss.

Lemma on_grid_cons condition k v (d : Results) :
  on_grid condition ((k, v) :: d) ->
  ~ In k (keys d) /\ (0 <= fst k < 3 /\ 0 <= snd k < 3) /\
  is_Some (v !! condition) /\ on_grid condition d.
Proof.
  intros (Hnd & Hk & Hv). simpl in Hnd. apply NoDup_cons in Hnd as [Hnotin Hnd].
  split; [now rewrite <- list_elem_of_In|]. split.
  - destruct k as [i j]. apply Hk. now left.
  - split; [apply (Hv k); now left|].
    split; [exact Hnd|]. split.
    + intros i j Hin. apply Hk. now right.
    + intros k' v' Hin. apply (Hv k'). now right.
Qed.

Lemma fill_cells_spec (condition : string) (d : Results) (m : ndarray2) :
  has_shape 3 3 m -> on_grid condition d ->
  exists m',
    for_each (items d) (fill_cell condition) m = (Ok tt, m') /\
    has_shape 3 3 m' /\
    forall i j, 0 <= i < 3 -> 0 <= j < 3 ->
      cell m' (Z.to_nat i) (Z.to_nat j) =
      match dict_get (i, j) d with
      | Some v => error_of v condition
      | None => cell m (Z.to_nat i) (Z.to_nat j)
      end.
Proof.
  revert m. induction d as [|[[i0 j0] v0] d IH]; intros m Hm Hd.
  - exists m. simpl. auto.
  - apply on_grid_cons in Hd as (Hnotin & [Hi0 Hj0] & [c0 Hc0] & Hd).
    simpl in Hi0, Hj0.
    destruct (setitem2_spec 3 3 m i0 j0 (threshold_error c0) Hm)
      as (m1 & Hset & Hm1 & Hhit & Hmiss); [lia | lia |].
    destruct (IH m1 Hm1 Hd) as (m' & Hfor & Hm' & Hcells).
    exists m'. split; [|split; [exact Hm'|]].
    + simpl. unfold Py.bind. simpl. rewrite Hc0, Hset. exact Hfor.
    + intros i j Hi Hj. rewrite (Hcells i j Hi Hj). simpl.
      destruct (decide ((i, j) = (i0, j0))) as [Heq|Hne].
      * inversion Heq; subst.
        apply dict_get_None in Hnotin. rewrite Hnotin, Hhit.
        unfold error_of. now rewrite Hc0.
      * destruct (dict_get (i, j) d); [reflexivity|].
        apply Hmiss. intros Heq. apply Hne. inversion Heq. f_equal; lia.
Qed.

Lemma plot_heatmap_image (d : Results) (condition : string) (m : ndarray2) :
  for_each (items d) (fill_cell condition) (zeros 3 3) = (Ok tt, m) ->
  exists fig, plot_heatmap d condition = Ok fig /\
              image fig = transpose 3 m /\ vmin fig = 0%Q /\ vmax fig = 1%Q /\
              title fig = upper condition.
Proof.
  intros H. unfold plot_heatmap. rewrite H. eexists. split; [reflexivity|].
  simpl. auto.
Qed.
End Heatmap33.

(** ** [plot_heatmap] of the 3x1 grid *)

Section Heatmap31.
Import PromoterLoss.

Lemma on_column_cons condition k v (d : Results) :
  on_column condition ((k, v) :: d) ->
  ~ In k (keys d) /\ 0 <= k < 3 /\ is_Some (v !! condition) /\
  on_column condition d.
Proof.
  intros (Hnd & Hk & Hv). simpl in Hnd. apply NoDup_cons in Hnd as [Hnotin Hnd].
  split; [now rewrite <- list_elem_of_In|]. split.
  - apply Hk. now left.
  - split; [apply (Hv k); now left|].
    split; [exact Hnd|]. split.
    + intros i Hin. apply Hk. now right.
    + intros k' v' Hin. apply (Hv k'). now right.
Qed.

Lemma fill_rows_spec (condition : string) (d : Results) (m : ndarray2) :
  has_shape 3 1 m -> on_column condition d ->
  exists m',
    for_each (items d) (fill_row condition) m = (Ok tt, m') /\
    has_shape 3 1 m' /\
    forall i, 0 <= i < 3 ->
      m' !! Z.to_nat i =
      match dict_get i d with
      | Some v => match error_of v condition with
                  | Some e => Some [e]
                  | None => None
                  end
      | None => m !! Z.to_nat i
      end.
Proof.
  revert m. induction d as [|[i0 v0] d IH]; intros m Hm Hd.
  - exists m. simpl. auto.
  - apply on_column_cons in Hd as (Hnotin & Hi0 & [c0 Hc0] & Hd).
    destruct (setrow_spec 3 m i0 (threshold_error c0) Hm)
      as (m1 & Hset & Hm1 & Hhit & Hmiss); [lia|].
    destruct (IH m1 Hm1 Hd) as (m' & Hfor & Hm' & Hrows).
    exists m'. split; [|split; [exact Hm'|]].
    + simpl. unfold Py.bind. simpl. rewrite Hc0, Hset. exact Hfor.
    + intros i Hi. rewrite (Hrows i Hi). simpl.
      destruct (decide (i = i0)) as [->|Hne].
      * apply dict_get_None in Hnotin. rewrite Hnotin, Hhit.
        unfold error_of. now rewrite Hc0.
      * destruct (dict_get i d); [reflexivity|].
        apply Hmiss. lia.
Qed.

Lemma plot_heatmap_column (d : Results) (condition : string) (m : ndarray2) :
  for_each (items d) (fill_row condition) (zeros 3 1) = (Ok tt, m) ->
  exists fig, plot_heatmap d condition = Ok fig /\
              image fig = m /\ vmin fig = 0%Q /\ vmax fig = 1%Q /\
              title fig = upper condition.
Proof.
  intros H. unfold plot_heatmap. rewrite H. eexists. split; [reflexivity|].
  simpl. auto.
Qed.
End Heatmap31.

Section Claims_Heatmap.

(** C5: for a results dictionary keyed by pairs of the 3x3 grid,
    [plot_heatmap] starts from the zero matrix, writes at every key
    [(i, j)] present the [threshold_error] of
    [comparisons[(i, j)][condition]], and shows the transpose of that
    matrix on the colour range from 0 to 1; the 3x1 variant writes row [i]
    from [comparisons[i][condition].threshold_error] and shows the matrix
    itself. *)
Theorem plot_heatmap_assembles_errors
    (d : RepressorLoss.Results) (d1 : PromoterLoss.Results) (condition : string) :
  RepressorLoss.on_grid condition d ->
  PromoterLoss.on_column condition d1 ->
  (exists matrix fig,
     for_each (items d) (RepressorLoss.fill_cell condition)
       [[0; 0; 0]; [0; 0; 0]; [0; 0; 0]]%Q = (Ok tt, matrix) /\
     RepressorLoss.plot_heatmap d condition = Ok fig /\
     image fig = transpose 3 matrix /\ vmin fig = 0%Q /\ vmax fig = 1%Q /\
     forall i j v c, In ((i, j), v) d -> v !! condition = Some c ->
       cell matrix (Z.to_nat i) (Z.to_nat j) = Some (threshold_error c) /\
       cell (image fig) (Z.to_nat j) (Z.to_nat i) = Some (threshold_error c)) /\
  (exists matrix fig,
     for_each (items d1) (PromoterLoss.fill_row condition)
       [[0]; [0]; [0]]%Q = (Ok tt, matrix) /\
     PromoterLoss.plot_heatmap d1 condition = Ok fig /\
     image fig = matrix /\ vmin fig = 0%Q /\ vmax fig = 1%Q /\
     forall i v c, In (i, v) d1 -> v !! condition = Some c ->
       matrix !! Z.to_nat i = Some [threshold_error c]).
Proof.
  intros Hd Hd1. split.
  - destruct (fill_cells_spec condition d (zeros 3 3) (has_shape_zeros 3 3) Hd)
      as (m & Hfor & Hm & Hcells).
    destruct (plot_heatmap_image d condition m Hfor) as (fig & Hfig & Him & Hlo & Hhi & _).
    exists m, fig. repeat (split; [assumption|]).
    intros i j v c Hin Hc.
    destruct Hd as (Hnd & Hk & _).
    assert (Hij : 0 <= i < 3 /\ 0 <= j < 3).
    { apply Hk. change (i, j) with (fst ((i, j), v)). now apply in_map. }
    destruct Hij as [Hi Hj].
    assert (Hcell : cell m (Z.to_nat i) (Z.to_nat j) = Some (threshold_error c)).
    { rewrite (Hcells i j Hi Hj), (dict_get_In _ _ _ Hnd Hin).
      unfold error_of. now rewrite Hc. }
    split; [exact Hcell|].
    rewrite Him, (cell_transpose 3 3) by (auto; lia). exact Hcell.
  - destruct (fill_rows_spec condition d1 (zeros 3 1) (has_shape_zeros 3 1) Hd1)
      as (m & Hfor & Hm & Hrows).
    destruct (plot_heatmap_column d1 condition m Hfor) as (fig & Hfig & Him & Hlo & Hhi & _).
    exists m, fig. repeat (split; [assumption|]).
    intros i v c Hin Hc.
    destruct Hd1 as (Hnd & Hk & _).
    assert (Hi : 0 <= i < 3).
    { apply Hk. change i with (fst (i, v)). now apply in_map. }
    rewrite (Hrows i Hi), (dict_get_In _ _ _ Hnd Hin).
    unfold error_of. now rewrite Hc.
Qed.

(** C9: a grid position without entry does not make [plot_heatmap] fail;
    its cell keeps the initial zero, and the figure is the very figure
    that results when the position has an entry whose error frequency is
    zero.  This holds for the 3x3 grid and for the 3x1 grid. *)
Theorem plot_heatmap_missing_entry_is_zero
    (d : RepressorLoss.Results) (d1 : PromoterLoss.Results) (condition : string)
    (i j : Z) :
  RepressorLoss.on_grid condition d ->
  PromoterLoss.on_column condition d1 ->
  0 <= i < 3 -> 0 <= j < 3 ->
  dict_get (i, j) d = None ->
  dict_get i d1 = None ->
  (exists fig,
     RepressorLoss.plot_heatmap d condition = Ok fig /\
     cell (image fig) (Z.to_nat j) (Z.to_nat i) = Some 0%Q /\
     forall v c, v !! condition = Some c -> threshold_error c = 0%Q ->
       RepressorLoss.plot_heatmap (dict_setitem (i, j) v d) condition = Ok fig) /\
  (exists fig,
     PromoterLoss.plot_heatmap d1 condition = Ok fig /\
     image fig !! Z.to_nat i = Some [0%Q] /\
     forall v c, v !! condition = Some c -> threshold_error c = 0%Q ->
       PromoterLoss.plot_heatmap (dict_setitem i v d1) condition = Ok fig).
Proof.
  intros Hd Hd1 Hi Hj Hnone Hnone1. split.
  - destruct (fill_cells_spec condition d (zeros 3 3) (has_shape_zeros 3 3) Hd)
      as (m & Hfor & Hm & Hcells).
    destruct (plot_heatmap_image d condition m Hfor) as (fig & Hfig & Him & _).
    assert (Hcell : cell m (Z.to_nat i) (Z.to_nat j) = Some 0%Q).
    { rewrite (Hcells i j Hi Hj), Hnone. apply cell_zeros; lia. }
    exists fig. split; [exact Hfig|]. split.
    + rewrite Him, (cell_transpose 3 3) by (auto; lia). exact Hcell.
    + intros v c Hc Hzero. rewrite (dict_setitem_new _ _ _ Hnone).
      unfold RepressorLoss.plot_heatmap, items in *.
      rewrite for_each_app, Hfor in *. simpl. unfold Py.bind. simpl.
      rewrite Hc, Hzero. rewrite (setitem2_same 3 3) by (auto; lia).
      simpl. exact Hfig.
  - destruct (fill_rows_spec condition d1 (zeros 3 1) (has_shape_zeros 3 1) Hd1)
      as (m & Hfor & Hm & Hrows).
    destruct (plot_heatmap_column d1 condition m Hfor) as (fig & Hfig & Him & _).
    assert (Hrow : m !! Z.to_nat i = Some [0%Q]).
    { rewrite (Hrows i Hi), Hnone1. unfold zeros.
      apply lookup_replicate_2. lia. }
    exists fig. split; [exact Hfig|]. split.
    + now rewrite Him.
    + intros v c Hc Hzero. rewrite (dict_setitem_new _ _ _ Hnone1).
      unfold PromoterLoss.plot_heatmap, items in *.
      rewrite for_each_app, Hfor in *. simpl. unfold Py.bind. simpl.
      rewrite Hc, Hzero. rewrite (setrow_same 3) by (auto; lia).
      simpl. exact Hfig.
Qed.
End Claims_Heatmap.

(** ** The plotting functions on the heap *)

Section StoreLists.
Context {A : Type}.

Lemma lookup_end (l : list A) (x : A) : (l ++ [x]) !! length l = Some x.
Proof. now apply list_lookup_middle. Qed.

Lemma insert_end (l : list A) (x y : A) : <[length l := y]> (l ++ [x]) = l ++ [y].
Proof. rewrite insert_app_r_alt by lia. now rewrite Nat.sub_diag. Qed.
End StoreLists.

Section StoreHeatmap.
Import Store.

(** One iteration of [plot_heatmap] on the heap changes the matrix it has
    allocated as the iteration on values changes its matrix, and nothing
    else. *)
Lemma fill_cell_on_heap (c : string) item
    (old : list (Object RepressorLoss.Results)) (rs : RandomState) (m : ndarray2) :
  Pairs.fill_cell (length old) c item
    {| objects := old ++ [AnArray m]; np_random := rs |} =
  (fst (RepressorLoss.fill_cell c item m),
   {| objects := old ++ [AnArray (snd (RepressorLoss.fill_cell c item m))];
      np_random := rs |}).
Proof.
  destruct item as [[i j] v].
  unfold Pairs.fill_cell, RepressorLoss.fill_cell.
  destruct (v !! c) as [x|]; [|reflexivity].
  unfold mbind, M_bind, Py.bind, array_at, lift, set, modify. simpl.
  rewrite lookup_end.
  destruct (setitem2 m i j (threshold_error x)) as [m'|e]; [|reflexivity].
  simpl. now rewrite insert_end.
Qed.

Lemma fill_cells_on_heap (c : string) (d : RepressorLoss.Results)
    (old : list (Object RepressorLoss.Results)) (rs : RandomState) (m : ndarray2) :
  for_each d (Pairs.fill_cell (length old) c)
    {| objects := old ++ [AnArray m]; np_random := rs |} =
  (fst (for_each d (RepressorLoss.fill_cell c) m),
   {| objects := old ++ [AnArray (snd (for_each d (RepressorLoss.fill_cell c) m))];
      np_random := rs |}).
Proof.
  revert m. induction d as [|item d IH]; intros m; simpl; [reflexivity|].
  unfold Py.bind. rewrite fill_cell_on_heap.
  destruct (RepressorLoss.fill_cell c item m) as [[[]|e] m1]; simpl;
    [apply IH | reflexivity].
Qed.

Lemma fill_row_on_heap (c : string) item
    (old : list (Object PromoterLoss.Results)) (rs : RandomState) (m : ndarray2) :
  Column.fill_row (length old) c item
    {| objects := old ++ [AnArray m]; np_random := rs |} =
  (fst (PromoterLoss.fill_row c item m),
   {| objects := old ++ [AnArray (snd (PromoterLoss.fill_row c item m))];
      np_random := rs |}).
Proof.
  destruct item as [i v].
  unfold Column.fill_row, PromoterLoss.fill_row.
  destruct (v !! c) as [x|]; [|reflexivity].
  unfold mbind, M_bind, Py.bind, array_at, lift, set, modify. simpl.
  rewrite lookup_end.
  destruct (setrow m i (threshold_error x)) as [m'|e]; [|reflexivity].
  simpl. now rewrite insert_end.
Qed.

Lemma fill_rows_on_heap (c : string) (d : PromoterLoss.Results)
    (old : list (Object PromoterLoss.Results)) (rs : RandomState) (m : ndarray2) :
  for_each d (Column.fill_row (length old) c)
    {| objects := old ++ [AnArray m]; np_random := rs |} =
  (fst (for_each d (PromoterLoss.fill_row c) m),
   {| objects := old ++ [AnArray (snd (for_each d (PromoterLoss.fill_row c) m))];
      np_random := rs |}).
Proof.
  revert m. induction d as [|item d IH]; intros m; simpl; [reflexivity|].
  unfold Py.bind. rewrite fill_row_on_heap.
  destruct (PromoterLoss.fill_row c item m) as [[[]|e] m1]; simpl;
    [apply IH | reflexivity].
Qed.

(** [plot_heatmap] on the heap, for a reference to results: the heap gets
    the matrix and, on completion, the figure that [plot_heatmap] on the
    value of the results returns. *)
Lemma plot_heatmap_on_heap (h : Heap RepressorLoss.Results) (l : nat)
    (c : string) (d : RepressorLoss.Results) :
  objects h !! l = Some (Results d) ->
  Pairs.plot_heatmap l c h =
  match for_each (items d) (RepressorLoss.fill_cell c) (zeros 3 3) with
  | (Ok _, m) =>
      (Ok (S (length (objects h))),
       {| objects := objects h
                     ++ [AnArray m; AFigure (RepressorLoss.heatmap_figure m c)];
          np_random := np_random h |})
  | (Raise e, m) =>
      (Raise e, {| objects := objects h ++ [AnArray m]; np_random := np_random h |})
  end.
Proof.
  intros Hl. unfold Pairs.plot_heatmap, mbind, M_bind, Py.bind, new, results_at.
  simpl. rewrite (lookup_app_l_Some _ _ _ _ Hl).
  rewrite fill_cells_on_heap. unfold items.
  destruct (for_each d (RepressorLoss.fill_cell c) (zeros 3 3)) as [[[]|e] m];
    simpl; [|reflexivity].
  unfold array_at. simpl. rewrite lookup_end. simpl.
  rewrite length_app, Nat.add_1_r, <- app_assoc. reflexivity.
Qed.

Lemma plot_column_on_heap (h : Heap PromoterLoss.Results) (l : nat)
    (c : string) (d : PromoterLoss.Results) :
  objects h !! l = Some (Results d) ->
  Column.plot_heatmap l c h =
  match for_each (items d) (PromoterLoss.fill_row c) (zeros 3 1) with
  | (Ok _, m) =>
      (Ok (S (length (objects h))),
       {| objects := objects h
                     ++ [AnArray m; AFigure (PromoterLoss.heatmap_figure m c)];
          np_random := np_random h |})
  | (Raise e, m) =>
      (Raise e, {| objects := objects h ++ [AnArray m]; np_random := np_random h |})
  end.
Proof.
  intros Hl. unfold Column.plot_heatmap, mbind, M_bind, Py.bind, new, results_at.
  simpl. rewrite (lookup_app_l_Some _ _ _ _ Hl).
  rewrite fill_rows_on_heap. unfold items.
  destruct (for_each d (PromoterLoss.fill_row c) (zeros 3 1)) as [[[]|e] m];
    simpl; [|reflexivity].
  unfold array_at. simpl. rewrite lookup_end. simpl.
  rewrite length_app, Nat.add_1_r, <- app_assoc. reflexivity.
Qed.

(** Whatever the reference denotes, [plot_heatmap] adds objects to the heap
    and changes none. *)
Lemma plot_heatmap_extends (h : Heap RepressorLoss.Results) (l : nat) (c : string) :
  exists news,
    snd (Pairs.plot_heatmap l c h)
    = {| objects := objects h ++ news; np_random := np_random h |}.
Proof.
  destruct (objects h !! l) as [o|] eqn:Hl;
    [destruct o as [d| | | |]|];
    try (rewrite (plot_heatmap_on_heap h l c d Hl);
         destruct (for_each (items d) (RepressorLoss.fill_cell c) (zeros 3 3))
           as [[[]|e] m]; eexists; reflexivity);
    (exists [AnArray (zeros 3 3)];
     unfold Pairs.plot_heatmap, mbind, M_bind, Py.bind, new, results_at; simpl;
     first [ rewrite (lookup_app_l_Some _ _ _ _ Hl); reflexivity
           | rewrite lookup_app_r by (apply lookup_ge_None_1 in Hl; lia);
             apply lookup_ge_None_1 in Hl;
             destruct (l - length (objects h))%nat; reflexivity ]).
Qed.

Lemma plot_column_extends (h : Heap PromoterLoss.Results) (l : nat) (c : string) :
  exists news,
    snd (Column.plot_heatmap l c h)
    = {| objects := objects h ++ news; np_random := np_random h |}.
Proof.
  destruct (objects h !! l) as [o|] eqn:Hl;
    [destruct o as [d| | | |]|];
    try (rewrite (plot_column_on_heap h l c d Hl);
         destruct (for_each (items d) (PromoterLoss.fill_row c) (zeros 3 1))
           as [[[]|e] m]; eexists; reflexivity);
    (exists [AnArray (zeros 3 1)];
     unfold Column.plot_heatmap, mbind, M_bind, Py.bind, new, results_at; simpl;
     first [ rewrite (lookup_app_l_Some _ _ _ _ Hl); reflexivity
           | rewrite lookup_app_r by (apply lookup_ge_None_1 in Hl; lia);
             apply lookup_ge_None_1 in Hl;
             destruct (l - length (objects h))%nat; reflexivity ]).
Qed.
End StoreHeatmap.

Section StoreCell.
Import Store.

Lemma figures_app {R} (os os' : list (Object R)) :
  figures (os ++ os') = figures os ++ figures os'.
Proof. apply omap_app. Qed.

(** The plotting cell on the heap: every iteration reads the results the
    reference denoted when the cell started, and adds a matrix and a
    figure. *)
Lemma heatmap_cells_on_heap (cs : list string) (l : nat)
    (d : RepressorLoss.Results) (k : Pairs.Kernel) :
  objects (Pairs.heap k) !! l = Some (Results d) ->
  exists news,
    Pairs.heap (snd (for_each cs (Pairs.show_heatmap l) k))
    = {| objects := objects (Pairs.heap k) ++ news;
         np_random := np_random (Pairs.heap k) |} /\
    Forall2 (fun c f => RepressorLoss.plot_heatmap d c = Ok f)
      (take (length (figures news)) cs) (figures news) /\
    (fst (for_each cs (Pairs.show_heatmap l) k) = Ok tt ->
     length (figures news) = length cs /\
     match last (figures news) with
     | Some f =>
         exists r,
           Pairs.fig (snd (for_each cs (Pairs.show_heatmap l) k)) = Some r /\
           (objects (Pairs.heap k) ++ news) !! r = Some (AFigure f)
     | None => Pairs.fig (snd (for_each cs (Pairs.show_heatmap l) k)) = Pairs.fig k
     end).
Proof.
  revert k. induction cs as [|c cs IH]; intros [h f0] Hl; simpl in *.
  - exists []. rewrite app_nil_r. destruct h. repeat split; constructor.
  - unfold Py.bind, Pairs.show_heatmap at 1 3 5 7. simpl.
    rewrite (plot_heatmap_on_heap h l c d Hl).
    destruct (for_each (items d) (RepressorLoss.fill_cell c) (zeros 3 3))
      as [[[]|e] m] eqn:E; simpl.
    + match goal with |- context [for_each cs _ ?k1] =>
        destruct (IH k1) as (news & Hh & Hfigs & Hok) end.
      { simpl. now apply lookup_app_l_Some. }
      simpl in *.
      exists ([AnArray m; AFigure (RepressorLoss.heatmap_figure m c)] ++ news).
      rewrite Hh, <- app_assoc. simpl. split; [reflexivity|]. split.
      * constructor; [|exact Hfigs].
        unfold RepressorLoss.plot_heatmap. now rewrite E.
      * intros Hr. destruct (Hok Hr) as [Hlen Hlast]. split; [now rewrite Hlen|].
        rewrite last_cons. destruct (last (figures news)) as [f|].
        -- destruct Hlast as (r & Hfig & Hobj). exists r. split; [exact Hfig|].
           rewrite <- Hobj, <- app_assoc. reflexivity.
        -- eexists. split; [exact Hlast|].
           rewrite lookup_app_r by lia.
           replace (S (length (objects h)) - length (objects h))%nat with 1%nat
             by lia.
           reflexivity.
    + exists [AnArray m]. simpl. split; [reflexivity|].
      split; [constructor | discriminate].
Qed.

(** Whatever the reference denotes, the plotting cell adds objects to the
    heap and changes none. *)
Lemma heatmap_cells_extend (cs : list string) (l : nat) (k : Pairs.Kernel) :
  exists news,
    Pairs.heap (snd (for_each cs (Pairs.show_heatmap l) k))
    = {| objects := objects (Pairs.heap k) ++ news;
         np_random := np_random (Pairs.heap k) |}.
Proof.
  revert k. induction cs as [|c cs IH]; intros [h f0]; simpl.
  - exists []. rewrite app_nil_r. now destruct h.
  - unfold Py.bind, Pairs.show_heatmap at 1. simpl.
    destruct (plot_heatmap_extends h l c) as [news Hn].
    destruct (Pairs.plot_heatmap l c h) as [[r|e] h1]; simpl in Hn; subst h1.
    + match goal with |- context [for_each cs _ ?k1] =>
        destruct (IH k1) as [news' ->] end.
      simpl. exists (news ++ news'). now rewrite app_assoc.
    + simpl. eauto.
Qed.
End StoreCell.

Section StoreTrajectories.
Import Store.
Context {R : Type}.

Lemma try_ax_keeps_random (rows : list (list Q)) (x : list Q) (col : string)
    (s : Example.PlotState) :
  Example.np_random
    (snd (for_each rows (fun trajectory =>
            Example.try_ax (plot x trajectory col (1 # 2))) s))
  = Example.np_random s.
Proof.
  revert s. induction rows as [|row rows IH]; intros s; simpl; [reflexivity|].
  unfold Py.bind, Example.try_ax at 1.
  destruct (plot x row col (1 # 2) (Example.ax s)) as [a|e]; simpl; [|reflexivity].
  now rewrite IH.
Qed.

Lemma heap_eta (h : Heap R) (l : nat) (o : Object R) :
  objects h !! l = Some o ->
  {| objects := <[l := o]> (objects h); np_random := np_random h |} = h.
Proof. intros H. destruct h. simpl in *. now rewrite list_insert_id. Qed.

(** The loop over the rows of an array on the heap changes the axis as the
    loop on values does, and no other object. *)
Lemma plot_lines_on_heap (rows : list (list Q)) (col : string) (lc la : nat)
    (c : Comparison) (a : Axes) (h : Heap R) :
  objects h !! lc = Some (AComparison c) ->
  objects h !! la = Some (AnAxes a) ->
  for_each rows (fun trajectory => Trajectories.plot_line lc la trajectory col) h =
  let p := for_each rows (fun trajectory =>
                            Example.try_ax (plot (t c) trajectory col (1 # 2)))
             {| Example.np_random := np_random h; Example.ax := a |} in
  (fst p,
   {| objects := <[la := AnAxes (Example.ax (snd p))]> (objects h);
      np_random := np_random h |}).
Proof.
  revert a h. induction rows as [|row rows IH]; intros a h Hc Ha; simpl.
  - unfold Py.ret. simpl. now rewrite heap_eta.
  - unfold Py.bind, Trajectories.plot_line at 1, Example.try_ax at 1 3.
    unfold mbind, M_bind, Py.bind, axes_at, comparison_at, lift, set, modify.
    simpl. rewrite Ha, Hc.
    destruct (plot (t c) row col (1 # 2) a) as [a1|e]; simpl.
    + assert (Hne : la <> lc) by (intros ->; congruence).
      assert (Hlt : (la < length (objects h))%nat)
        by (apply lookup_lt_is_Some; eauto).
      rewrite (IH a1); simpl.
      * now rewrite list_insert_insert_eq.
      * now rewrite list_lookup_insert_ne.
      * now apply list_lookup_insert_eq.
    + now rewrite heap_eta.
Qed.

(** [plot_trajectories] on the heap, for references to a comparison and to
    an axis: the axis becomes what [plot_trajectories] on the values makes
    of it, the random state advances as there, and no other object
    changes. *)
Lemma plot_trajectories_on_heap (lc la : nat) (N : nat) (c : Comparison)
    (a : Axes) (h : Heap R) :
  objects h !! lc = Some (AComparison c) ->
  objects h !! la = Some (AnAxes a) ->
  Trajectories.plot_trajectories lc la N h =
  let p := Example.plot_trajectories c N
             {| Example.np_random := np_random h; Example.ax := a |} in
  (fst p,
   {| objects := <[la := AnAxes (Example.ax (snd p))]> (objects h);
      np_random := Example.np_random (snd p) |}).
Proof.
  intros Hc Ha.
  assert (Hne : la <> lc) by (intros ->; congruence).
  assert (Hlt : (la < length (objects h))%nat)
    by (apply lookup_lt_is_Some; eauto).
  unfold Trajectories.plot_trajectories, Example.plot_trajectories.
  unfold mbind, M_bind, Py.bind, comparison_at at 1, with_random,
    Example.with_random, lift. simpl. rewrite Hc.
  destruct (randint 0 _ N (np_random h)) as [[ind|e] rs] eqn:Er; simpl.
  2:{ now rewrite list_insert_id. }
  unfold comparison_at at 1. simpl. rewrite Hc.
  destruct (take_last (states (reference c)) ind) as [rows|e]; simpl.
  2:{ now rewrite list_insert_id. }
  rewrite (plot_lines_on_heap rows "m" lc la c a) by assumption. simpl.
  pose proof (try_ax_keeps_random rows (t c) "m"
                {| Example.np_random := rs; Example.ax := a |}) as Hrs.
  destruct (for_each rows _ {| Example.np_random := rs; Example.ax := a |})
    as [[[]|e] [rs1 a1]]; simpl in *; subst rs1; [|reflexivity].
  unfold comparison_at at 1. simpl.
  rewrite list_lookup_insert_ne, Hc by exact Hne.
  destruct (take_last (states (compared c)) ind) as [rows'|e]; simpl;
    [|reflexivity].
  rewrite (plot_lines_on_heap rows' "grey" lc la c a1); simpl;
    [| now rewrite list_lookup_insert_ne | now apply list_lookup_insert_eq].
  rewrite list_insert_insert_eq.
  pose proof (try_ax_keeps_random rows' (t c) "grey"
                {| Example.np_random := rs; Example.ax := a1 |}) as Hrs'.
  destruct (for_each rows' _ {| Example.np_random := rs; Example.ax := a1 |})
    as [[[]|e] [rs2 a2]]; simpl in *; subst rs2; [|reflexivity].
  unfold Trajectories.format, Example.on_ax, modify, mbind, M_bind, Py.bind,
    axes_at, set, modify. simpl.
  repeat (rewrite list_lookup_insert_eq by (rewrite ?length_insert; exact Hlt);
          simpl; rewrite ?list_insert_insert_eq).
  reflexivity.
Qed.
End StoreTrajectories.

Section StoreFrame.
Import Store.
Context {R : Type}.

(** A reference to anything but an axis stops every call on it. *)
Lemma plot_lines_no_axes (rows : list (list Q)) (col : string) (lc la : nat)
    (h : Heap R) :
  (forall a, objects h !! la <> Some (AnAxes a)) ->
  snd (for_each rows (fun trajectory => Trajectories.plot_line lc la trajectory col) h)
  = h /\
  (fst (for_each rows (fun trajectory => Trajectories.plot_line lc la trajectory col) h)
   = Ok tt -> rows = []).
Proof.
  intros Hno. destruct rows as [|row rows]; simpl; [auto|].
  unfold Py.bind, Trajectories.plot_line, mbind, M_bind, Py.bind, axes_at.
  destruct (objects h !! la) as [[d0|c0|m0|a|f0]|] eqn:E; simpl;
    try (split; [reflexivity | discriminate]).
  now destruct (Hno a).
Qed.

Lemma format_no_axes (la : nat) (f : Axes -> Axes) (h : Heap R) :
  (forall a, objects h !! la <> Some (AnAxes a)) ->
  snd (Trajectories.format la f h) = h.
Proof.
  intros Hno. unfold Trajectories.format, mbind, M_bind, Py.bind, axes_at.
  destruct (objects h !! la) as [[d0|c0|m0|a|f0]|] eqn:E; simpl; try reflexivity.
  now destruct (Hno a).
Qed.

Lemma plot_trajectories_no_axes (lc la N : nat) (h : Heap R) :
  (forall a, objects h !! la <> Some (AnAxes a)) ->
  objects (snd (Trajectories.plot_trajectories lc la N h)) = objects h.
Proof.
  intros Hno.
  unfold Trajectories.plot_trajectories, mbind, M_bind, Py.bind.
  destruct (comparison_at lc h) as [[c|e] h0] eqn:E0.
  2:{ unfold comparison_at in E0.
      destruct (objects h !! lc) as [[d0|c0|m0|a0|f0]|]; now inversion E0. }
  assert (h0 = h) as ->.
  { unfold comparison_at in E0.
    destruct (objects h !! lc) as [[d0|c0|m0|a0|f0]|]; now inversion E0. }
  unfold with_random.
  destruct (randint 0 _ N (np_random h)) as [[ind|e] rs]; [|reflexivity].
  set (h1 := {| objects := objects h; np_random := rs |}).
  assert (Hno1 : forall a, objects h1 !! la <> Some (AnAxes a)) by exact Hno.
  assert (E1 : comparison_at lc h1 = (Ok c, h1)).
  { unfold comparison_at in *. simpl.
    destruct (objects h !! lc) as [[d0|c0|m0|a0|f0]|]; now inversion E0. }
  change (objects h) with (objects h1). clearbody h1. clear E0 Hno h.
  rewrite E1. unfold lift.
  destruct (take_last (states (reference c)) ind) as [rows|e]; [|reflexivity].
  destruct (plot_lines_no_axes rows "m" lc la h1 Hno1) as [Hs _].
  destruct (for_each rows _ h1) as [[[]|e] h2]; simpl in Hs; subst h2;
    [|reflexivity].
  rewrite E1.
  destruct (take_last (states (compared c)) ind) as [rows'|e]; [|reflexivity].
  destruct (plot_lines_no_axes rows' "grey" lc la h1 Hno1) as [Hs _].
  destruct (for_each rows' _ h1) as [[[]|e] h2]; simpl in Hs; subst h2;
    [|reflexivity].
  pose proof (format_no_axes la (set_ylabel "Protein level") h1 Hno1) as Hs.
  destruct (Trajectories.format la (set_ylabel "Protein level") h1)
    as [[[]|e] h2]; simpl in Hs; subst h2; [|reflexivity].
  pose proof (format_no_axes la (set_xlabel "Time (h)") h1 Hno1) as Hs.
  destruct (Trajectories.format la (set_xlabel "Time (h)") h1)
    as [[[]|e] h2]; simpl in Hs; subst h2; [|reflexivity].
  now rewrite (format_no_axes la (set_xlim (-2) 50) h1 Hno1).
Qed.

(** Whatever the references denote, [plot_trajectories] changes no object
    but the axis. *)
Lemma plot_trajectories_frame (lc la N : nat) (h : Heap R) (l : nat) :
  l <> la ->
  objects (snd (Trajectories.plot_trajectories lc la N h)) !! l = objects h !! l.
Proof.
  intros Hl.
  destruct (objects h !! la) as [[d1|c1|m1|a|f1]|] eqn:Ha;
    try (rewrite plot_trajectories_no_axes;
         [reflexivity | intros a'; rewrite Ha; discriminate]).
  destruct (objects h !! lc) as [[d0|c|m0|a0|f0]|] eqn:Hc;
    try (unfold Trajectories.plot_trajectories, mbind, M_bind, Py.bind,
           comparison_at; now rewrite Hc).
  rewrite (plot_trajectories_on_heap lc la N c a h Hc Ha). simpl.
  now rewrite list_lookup_insert_ne.
Qed.

(** A comparison it is given is as it was, also when the two references
    are the same. *)
Lemma plot_trajectories_keeps_comparison (lc la N : nat) (h : Heap R)
    (c : Comparison) :
  objects h !! lc = Some (AComparison c) ->
  objects (snd (Trajectories.plot_trajectories lc la N h)) !! lc
  = Some (AComparison c).
Proof.
  intros Hc. destruct (decide (lc = la)) as [->|Hne].
  - rewrite plot_trajectories_no_axes; [exact Hc|].
    intros a. rewrite Hc. discriminate.
  - now rewrite plot_trajectories_frame.
Qed.
End StoreFrame.

Section Claims_Frame.
Import Store.

(** C10: the plotting functions leave the comparison data as they found
    it.  On a heap of objects [plot_heatmap], of the 3x3 and of the 3x1
    grid, changes no object that was there before the call, whatever
    reference it is given: it only adds objects.  Given a reference to
    results, these results are there unchanged after the call, and the
    figure returned (or the exception raised) is the one that
    [plot_heatmap] makes of the value of these results.  The plotting cell
    over 'normal', 'diabetic' and 'hyper_metabolic' only adds objects as
    well; given a reference to results, the figures it adds are, in order,
    what [plot_heatmap] makes of that one mapping for each condition, all
    three when the cell completes, with [fig] bound to the last.  [plot_trajectories], whatever references
    it is given, changes no object but the one its axis argument refers to;
    a comparison it is given is unchanged, and given a comparison and an
    axis it changes the axis as it does on values. *)
Theorem plotting_leaves_results_unchanged :
  (forall (h : Heap RepressorLoss.Results) (comparisons : nat) (condition : string),
     (exists news,
        snd (Pairs.plot_heatmap comparisons condition h)
        = {| objects := objects h ++ news; np_random := np_random h |}) /\
     forall d, objects h !! comparisons = Some (Results d) ->
       objects (snd (Pairs.plot_heatmap comparisons condition h)) !! comparisons
         = Some (Results d) /\
       match fst (Pairs.plot_heatmap comparisons condition h) with
       | Ok r =>
           exists f,
             RepressorLoss.plot_heatmap d condition = Ok f /\
             objects (snd (Pairs.plot_heatmap comparisons condition h)) !! r
               = Some (AFigure f)
       | Raise e => RepressorLoss.plot_heatmap d condition = Raise e
       end) /\
  (forall (h : Heap PromoterLoss.Results) (comparisons : nat) (condition : string),
     (exists news,
        snd (Column.plot_heatmap comparisons condition h)
        = {| objects := objects h ++ news; np_random := np_random h |}) /\
     forall d, objects h !! comparisons = Some (Results d) ->
       objects (snd (Column.plot_heatmap comparisons condition h)) !! comparisons
         = Some (Results d) /\
       match fst (Column.plot_heatmap comparisons condition h) with
       | Ok r =>
           exists f,
             PromoterLoss.plot_heatmap d condition = Ok f /\
             objects (snd (Column.plot_heatmap comparisons condition h)) !! r
               = Some (AFigure f)
       | Raise e => PromoterLoss.plot_heatmap d condition = Raise e
       end) /\
  (forall (k : Pairs.Kernel) (comparisons : nat),
     exists news,
       Pairs.heap (snd (Pairs.heatmap_cell comparisons k))
       = {| objects := objects (Pairs.heap k) ++ news;
            np_random := np_random (Pairs.heap k) |}) /\
  (forall (k : Pairs.Kernel) (comparisons : nat) (d : RepressorLoss.Results),
     objects (Pairs.heap k) !! comparisons = Some (Results d) ->
     exists news,
       Pairs.heap (snd (Pairs.heatmap_cell comparisons k))
       = {| objects := objects (Pairs.heap k) ++ news;
            np_random := np_random (Pairs.heap k) |} /\
       (objects (Pairs.heap k) ++ news) !! comparisons = Some (Results d) /\
       Forall2 (fun c f => RepressorLoss.plot_heatmap d c = Ok f)
         (take (length (figures news)) ["normal"; "diabetic"; "hyper_metabolic"])
         (figures news) /\
       (fst (Pairs.heatmap_cell comparisons k) = Ok tt ->
        length (figures news) = 3%nat /\
        exists r f,
          Pairs.fig (snd (Pairs.heatmap_cell comparisons k)) = Some r /\
          (objects (Pairs.heap k) ++ news) !! r = Some (AFigure f) /\
          RepressorLoss.plot_heatmap d "hyper_metabolic" = Ok f)) /\
  (forall (R : Type) (h : Heap R) (comparison ax N : nat),
     (forall l, l <> ax ->
        objects (snd (Trajectories.plot_trajectories comparison ax N h)) !! l
        = objects h !! l) /\
     forall c, objects h !! comparison = Some (AComparison c) ->
       objects (snd (Trajectories.plot_trajectories comparison ax N h)) !! comparison
         = Some (AComparison c) /\
       forall a, objects h !! ax = Some (AnAxes a) ->
         exists a',
           objects (snd (Trajectories.plot_trajectories comparison ax N h)) !! ax
             = Some (AnAxes a') /\
           Example.plot_trajectories c N
             {| Example.np_random := np_random h; Example.ax := a |}
           = (fst (Trajectories.plot_trajectories comparison ax N h),
              {| Example.np_random :=
                   np_random (snd (Trajectories.plot_trajectories comparison ax N h));
                 Example.ax := a' |})).
Proof.
  split; [|split; [|split; [|split]]].
  - intros h l c. split; [apply plot_heatmap_extends|].
    intros d Hl. rewrite (plot_heatmap_on_heap h l c d Hl).
    unfold RepressorLoss.plot_heatmap.
    destruct (for_each (items d) (RepressorLoss.fill_cell c) (zeros 3 3))
      as [[[]|e] m]; simpl.
    + split; [now apply lookup_app_l_Some|]. eexists. split; [reflexivity|].
      rewrite lookup_app_r by lia.
      replace (S (length (objects h)) - length (objects h))%nat with 1%nat by lia.
      reflexivity.
    + split; [now apply lookup_app_l_Some | reflexivity].
  - intros h l c. split; [apply plot_column_extends|].
    intros d Hl. rewrite (plot_column_on_heap h l c d Hl).
    unfold PromoterLoss.plot_heatmap.
    destruct (for_each (items d) (PromoterLoss.fill_row c) (zeros 3 1))
      as [[[]|e] m]; simpl.
    + split; [now apply lookup_app_l_Some|]. eexists. split; [reflexivity|].
      rewrite lookup_app_r by lia.
      replace (S (length (objects h)) - length (objects h))%nat with 1%nat by lia.
      reflexivity.
    + split; [now apply lookup_app_l_Some | reflexivity].
  - intros k l. apply heatmap_cells_extend.
  - intros k l d Hl. unfold Pairs.heatmap_cell.
    destruct (heatmap_cells_on_heap conditions l d k Hl) as (news & Hh & Hfigs & Hok).
    exists news. split; [exact Hh|]. split; [now apply lookup_app_l_Some|].
    split; [exact Hfigs|]. intros Hr. destruct (Hok Hr) as [Hlen Hlast].
    split; [exact Hlen|].
    destruct (figures news) as [|f1 [|f2 [|f3 [|f4 fs]]]]; try discriminate Hlen.
    simpl in Hlast, Hfigs. destruct Hlast as (r & Hfig & Hobj).
    exists r, f3. split; [exact Hfig|]. split; [exact Hobj|].
    inversion Hfigs as [|? ? ? ? _ H2]; subst.
    inversion H2 as [|? ? ? ? _ H3]; subst.
    now inversion H3.
  - intros R h lc la N.
    split; [intros l Hl; now apply plot_trajectories_frame|].
    intros c Hc. split; [now apply plot_trajectories_keeps_comparison|].
    intros a Ha.
    assert (Hlt : (la < length (objects h))%nat)
      by (apply lookup_lt_is_Some; eauto).
    rewrite (plot_trajectories_on_heap lc la N c a h Hc Ha). simpl.
    eexists. split; [now apply list_lookup_insert_eq|].
    now destruct (Example.plot_trajectories c N _) as [r [rs a']].
Qed.
End Claims_Frame.

(** ** The parameter sweeps *)

Section Loops.
Context {S A : Type}.

Lemma for_each_cons_inv (x : A) (xs : list A) (body : A -> M S unit) (s s' : S) :
  for_each (x :: xs) body s = (Ok tt, s') ->
  exists s1, body x s = (Ok tt, s1) /\ for_each xs body s1 = (Ok tt, s').
Proof.
  simpl. unfold Py.bind. destruct (body x s) as [[[]|e] s1]; [eauto | discriminate].
Qed.

Lemma for_each_nil_inv (body : A -> M S unit) (s s' : S) :
  for_each [] body s = (Ok tt, s') -> s' = s.
Proof. simpl. unfold Py.ret. now inversion 1. Qed.
End Loops.

Section Strengths.
Import RepressorLoss.

Lemma strengths_at_inv (eta : list Q) (i : Z) (v : list Q) :
  0 <= i < 3 -> strengths_at eta i = Ok v ->
  exists e, getitem eta i = Ok e /\ v = one_hot i e.
Proof.
  intros Hi. unfold strengths_at.
  destruct (getitem eta i) as [e|]; simpl; [|discriminate].
  intros H. exists e. split; [reflexivity|].
  assert (i = 0 \/ i = 1 \/ i = 2) as [->|[->| ->]] by lia;
    vm_compute in H; inversion H; reflexivity.
Qed.

Lemma pair_model_inv (eta : list Q) (i j : Z) (m : LinearModel) :
  0 <= i < 3 -> 0 <= j < 3 -> pair_model eta i j = Ok m ->
  exists ei ej,
    getitem eta i = Ok ei /\ getitem eta j = Ok ej /\
    m = {| g1 := 1 # 100; g2 := 1 # 1000; include_activation := None;
           elements :=
             [{| kind := Repressor; strengths := one_hot i ei; perturbed := false |};
              {| kind := Repressor; strengths := one_hot j ej; perturbed := true |}] |}.
Proof.
  intros Hi Hj. unfold pair_model.
  destruct (strengths_at eta i) as [p|] eqn:Ep; simpl; [|discriminate].
  destruct (strengths_at eta j) as [r|] eqn:Er; simpl; [|discriminate].
  apply strengths_at_inv in Ep as (ei & Hei & ->); [|exact Hi].
  apply strengths_at_inv in Er as (ej & Hej & ->); [|exact Hj].
  inversion 1. exists ei, ej. auto.
Qed.

Lemma loss_model_inv (eta : list Q) (i : Z) (m : LinearModel) :
  0 <= i < 3 -> PromoterLoss.loss_model eta i = Ok m ->
  exists ei,
    getitem eta i = Ok ei /\
    m = {| g1 := 1 # 100; g2 := 1 # 1000; include_activation := Some true;
           elements :=
             [{| kind := Promoter; strengths := one_hot i ei; perturbed := true |}] |}.
Proof.
  intros Hi. unfold PromoterLoss.loss_model.
  destruct (strengths_at eta i) as [r|] eqn:Er; simpl; [|discriminate].
  apply strengths_at_inv in Er as (ei & Hei & ->); [|exact Hi].
  inversion 1. exists ei. auto.
Qed.
End Strengths.

Section SweepSteps.
Context {EngineState : Type}.
Variable simulate :
  LinearModel -> string -> nat -> EngineState -> TimeSeries * EngineState.
Variable threshold_rule : TimeSeries -> TimeSeries -> nat -> bool.

(** One completed iteration of the repressor sweep builds one model, runs
    one simulation on the engine and stores its comparisons under the
    pair. *)
Lemma sweep_body_inv_33 (eta : list Q) (N : nat) (i j : Z)
    (k k' : RepressorLoss.Kernel EngineState) :
  RepressorLoss.sweep_body simulate threshold_rule eta N i j k = (Ok tt, k') ->
  exists m sim comps,
    RepressorLoss.pair_model eta i j = Ok m /\
    run simulate threshold_rule (new_ConditionSimulation m) N (RepressorLoss.engine k)
      = (Ok sim, RepressorLoss.engine k') /\
    model sim = m /\ comparisons sim = Some comps /\
    RepressorLoss.comparisons k'
      = dict_setitem (i, j) comps (RepressorLoss.comparisons k) /\
    RepressorLoss.simulations k' = RepressorLoss.simulations k ++ [sim].
Proof.
  unfold RepressorLoss.sweep_body. intros H.
  apply bind_Ok_inv in H as (m & s1 & Hm & H).
  apply lift_Ok_inv in Hm as [Hm ->].
  apply bind_Ok_inv in H as (sim & s2 & Hsim & H).
  apply bind_Ok_inv in H as (comps & s3 & Hc & H).
  apply lift_Ok_inv in Hc as [Hc ->].
  unfold RepressorLoss.simulate_model in Hsim.
  destruct (run simulate threshold_rule (new_ConditionSimulation m) N
              (RepressorLoss.engine k)) as [r e] eqn:Er.
  inversion Hsim; subst r s2; clear Hsim.
  unfold modify in H. inversion H; subst k'; clear H. simpl.
  pose proof (run_inv _ _ _ _ _ _ _ Er) as (Hmodel & comps' & Hcs & _).
  unfold get_comparisons in Hc. rewrite Hcs in Hc. inversion Hc; subst comps'.
  exists m, sim, comps. repeat split; auto.
Qed.

Lemma sweep_body_inv_31 (eta : list Q) (N : nat) (i : Z)
    (k k' : PromoterLoss.Kernel EngineState) :
  PromoterLoss.sweep_body simulate threshold_rule eta N i k = (Ok tt, k') ->
  exists m sim comps,
    PromoterLoss.loss_model eta i = Ok m /\
    run simulate threshold_rule (new_ConditionSimulation m) N (PromoterLoss.engine k)
      = (Ok sim, PromoterLoss.engine k') /\
    model sim = m /\ comparisons sim = Some comps /\
    PromoterLoss.comparisons k'
      = dict_setitem i comps (PromoterLoss.comparisons k) /\
    PromoterLoss.simulations k' = PromoterLoss.simulations k ++ [sim].
Proof.
  unfold PromoterLoss.sweep_body. intros H.
  apply bind_Ok_inv in H as (m & s1 & Hm & H).
  apply lift_Ok_inv in Hm as [Hm ->].
  apply bind_Ok_inv in H as (sim & s2 & Hsim & H).
  apply bind_Ok_inv in H as (comps & s3 & Hc & H).
  apply lift_Ok_inv in Hc as [Hc ->].
  unfold PromoterLoss.simulate_model in Hsim.
  destruct (run simulate threshold_rule (new_ConditionSimulation m) N
              (PromoterLoss.engine k)) as [r e] eqn:Er.
  inversion Hsim; subst r s2; clear Hsim.
  unfold modify in H. inversion H; subst k'; clear H. simpl.
  pose proof (run_inv _ _ _ _ _ _ _ Er) as (Hmodel & comps' & Hcs & _).
  unfold get_comparisons in Hc. rewrite Hcs in Hc. inversion Hc; subst comps'.
  exists m, sim, comps. repeat split; auto.
Qed.
End SweepSteps.

Section Claims_Sweep.
Context {EngineState : Type}.
Variable simulate :
  LinearModel -> string -> nat -> EngineState -> TimeSeries * EngineState.
Variable threshold_rule : TimeSeries -> TimeSeries -> nat -> bool.

Lemma sweep_step_33 (eta : list Q) (N : nat) (i j : Z)
    (k k' : RepressorLoss.Kernel EngineState) :
  0 <= i < 3 -> 0 <= j < 3 ->
  RepressorLoss.sweep_body simulate threshold_rule eta N i j k = (Ok tt, k') ->
  exists sim comps ei ej,
    RepressorLoss.simulations k' = RepressorLoss.simulations k ++ [sim] /\
    RepressorLoss.comparisons k'
      = dict_setitem (i, j) comps (RepressorLoss.comparisons k) /\
    model sim =
      {| g1 := 1 # 100; g2 := 1 # 1000; include_activation := None;
         elements :=
           [{| kind := Repressor; strengths := RepressorLoss.one_hot i ei; perturbed := false |};
            {| kind := Repressor; strengths := RepressorLoss.one_hot j ej; perturbed := true |}] |} /\
    getitem eta i = Ok ei /\ getitem eta j = Ok ej /\
    comparisons sim = Some comps.
Proof.
  intros Hi Hj H.
  apply sweep_body_inv_33 in H
    as (m & sim & comps & Hm & _ & Hmodel & Hc & Hk & Hs).
  apply pair_model_inv in Hm as (ei & ej & Hei & Hej & ->); [|exact Hi|exact Hj].
  exists sim, comps, ei, ej. repeat split; assumption.
Qed.

Lemma sweep_step_31 (eta : list Q) (N : nat) (i : Z)
    (k k' : PromoterLoss.Kernel EngineState) :
  0 <= i < 3 ->
  PromoterLoss.sweep_body simulate threshold_rule eta N i k = (Ok tt, k') ->
  exists sim comps ei,
    PromoterLoss.simulations k' = PromoterLoss.simulations k ++ [sim] /\
    PromoterLoss.comparisons k'
      = dict_setitem i comps (PromoterLoss.comparisons k) /\
    model sim =
      {| g1 := 1 # 100; g2 := 1 # 1000; include_activation := Some true;
         elements :=
           [{| kind := Promoter; strengths := RepressorLoss.one_hot i ei; perturbed := true |}] |} /\
    getitem eta i = Ok ei /\
    comparisons sim = Some comps.
Proof.
  intros Hi H.
  apply sweep_body_inv_31 in H
    as (m & sim & comps & Hm & _ & Hmodel & Hc & Hk & Hs).
  apply loss_model_inv in Hm as (ei & Hei & ->); [|exact Hi].
  exists sim, comps, ei. repeat split; assumption.
Qed.

(** C4: a completed repressor-pair sweep has built one model and run one
    [ConditionSimulation] for each ordered pair [(i, j)] of [{0, 1, 2}], in
    the order of the keys: the model's permanent feedback is [eta[i]] at
    position [i] and 0 elsewhere, its perturbed feedback is [eta[j]] at
    position [j] and 0 elsewhere, and [comparisons] is keyed by exactly
    these nine pairs, each mapped to the comparisons of its simulation.
    A completed promoter-loss sweep has in the same way one simulation and
    one entry for each [i] of [{0, 1, 2}]. *)
Theorem sweeps_build_one_simulation_per_position :
  (forall (eta : list Q) (N : nat) (k k' : RepressorLoss.Kernel EngineState),
   RepressorLoss.sweep simulate threshold_rule eta N k = (Ok tt, k') ->
   keys (RepressorLoss.comparisons k')
     = [(0, 0); (0, 1); (0, 2); (1, 0); (1, 1); (1, 2); (2, 0); (2, 1); (2, 2)] /\
   exists sims,
     RepressorLoss.simulations k' = RepressorLoss.simulations k ++ sims /\
     length sims = 9%nat /\
     forall n i j, keys (RepressorLoss.comparisons k') !! n = Some (i, j) ->
       exists sim ei ej comps,
         sims !! n = Some sim /\
         model sim =
           {| g1 := 1 # 100; g2 := 1 # 1000; include_activation := None;
              elements :=
                [{| kind := Repressor; strengths := RepressorLoss.one_hot i ei;
                    perturbed := false |};
                 {| kind := Repressor; strengths := RepressorLoss.one_hot j ej;
                    perturbed := true |}] |} /\
         getitem eta i = Ok ei /\ getitem eta j = Ok ej /\
         comparisons sim = Some comps /\
         dict_get (i, j) (RepressorLoss.comparisons k') = Some comps) /\
  (forall (eta1 : list Q) (N1 : nat) (k1 k1' : PromoterLoss.Kernel EngineState),
   PromoterLoss.sweep simulate threshold_rule eta1 N1 k1 = (Ok tt, k1') ->
   keys (PromoterLoss.comparisons k1') = [0; 1; 2] /\
   exists sims,
     PromoterLoss.simulations k1' = PromoterLoss.simulations k1 ++ sims /\
     length sims = 3%nat /\
     forall n i, keys (PromoterLoss.comparisons k1') !! n = Some i ->
       exists sim ei comps,
         sims !! n = Some sim /\
         model sim =
           {| g1 := 1 # 100; g2 := 1 # 1000; include_activation := Some true;
              elements :=
                [{| kind := Promoter; strengths := RepressorLoss.one_hot i ei;
                    perturbed := true |}] |} /\
         getitem eta1 i = Ok ei /\
         comparisons sim = Some comps /\
         dict_get i (PromoterLoss.comparisons k1') = Some comps).
Proof.
  split.
  - intros eta N k k' H. unfold RepressorLoss.sweep in H.
    apply bind_Ok_inv in H as ([] & k0 & H0 & H).
    unfold RepressorLoss.set_comparisons, modify in H0.
    inversion H0; subst k0; clear H0.
    change (range 3) with [0; 1; 2] in H.
    repeat match goal with
    | H : for_each (_ :: _) _ _ = (Ok tt, _) |- _ =>
        apply for_each_cons_inv in H as (? & ? & H); cbv beta in *
    | H : for_each [] _ _ = (Ok tt, _) |- _ =>
        apply for_each_nil_inv in H; subst
    | H : RepressorLoss.sweep_body _ _ _ _ _ _ _ = (Ok tt, _) |- _ =>
        apply sweep_step_33 in H as (? & ? & ? & ? & ? & ? & ? & ? & ? & ?);
        [|lia|lia]
    end.
    repeat match goal with
    | H : RepressorLoss.comparisons _ = _ |- _ => rewrite H; clear H
    | H : RepressorLoss.simulations _ = _ |- _ => rewrite H; clear H
    end.
    simpl. split; [reflexivity|].
    rewrite <- !app_assoc. simpl.
    eexists. split; [reflexivity|]. split; [reflexivity|].
    intros n i j Hn.
    do 9 (destruct n as [|n];
          [simpl in Hn; inversion Hn; subst i j;
           eexists _, _, _, _; split; [reflexivity|];
           split; [eassumption|]; split; [eassumption|];
           split; [eassumption|]; split; [eassumption|]; reflexivity|]).
    discriminate Hn.
  - intros eta1 N1 k1 k1' H1. unfold PromoterLoss.sweep in H1.
    apply bind_Ok_inv in H1 as ([] & k0 & H0 & H1).
    unfold PromoterLoss.set_comparisons, modify in H0.
    inversion H0; subst k0; clear H0.
    change (range 3) with [0; 1; 2] in H1.
    repeat match goal with
    | H : for_each (_ :: _) _ _ = (Ok tt, _) |- _ =>
        apply for_each_cons_inv in H as (? & ? & H); cbv beta in *
    | H : for_each [] _ _ = (Ok tt, _) |- _ =>
        apply for_each_nil_inv in H; subst
    | H : PromoterLoss.sweep_body _ _ _ _ _ _ = (Ok tt, _) |- _ =>
        apply sweep_step_31 in H as (? & ? & ? & ? & ? & ? & ? & ?);
        [|lia]
    end.
    repeat match goal with
    | H : PromoterLoss.comparisons _ = _ |- _ => rewrite H; clear H
    | H : PromoterLoss.simulations _ = _ |- _ => rewrite H; clear H
    end.
    simpl. split; [reflexivity|].
    rewrite <- !app_assoc. simpl.
    eexists. split; [reflexivity|]. split; [reflexivity|].
    intros n i Hn.
    do 3 (destruct n as [|n];
          [simpl in Hn; inversion Hn; subst i;
           eexists _, _, _; split; [reflexivity|];
           split; [eassumption|]; split; [eassumption|];
           split; [eassumption|]; reflexivity|]).
    discriminate Hn.
Qed.
End Claims_Sweep.

(** ** Completion *)

Section Completion.
Context {EngineState : Type}.
Variable simulate :
  LinearModel -> string -> nat -> EngineState -> TimeSeries * EngineState.
Variable threshold_rule : TimeSeries -> TimeSeries -> nat -> bool.
Variable N : nat.
(** The engine never returns a series without trajectories. *)
Hypothesis nonempty :
  forall m c s, (0 < shape0 (states (fst (simulate m c N s))))%nat.

Lemma run_condition_completes (m : LinearModel) (c : string) (s : EngineState) :
  exists cmp s', run_condition simulate threshold_rule m N c s = (Ok cmp, s').
Proof.
  unfold run_condition, Py.bind, lift.
  destruct (simulate m c N s) as [ref s1] eqn:E1.
  pose proof (nonempty (remove_perturbed m) c s1) as Hn.
  destruct (simulate (remove_perturbed m) c N s1) as [pert s2] eqn:E2.
  simpl in Hn. unfold new_Comparison, error_frequency.
  destruct (Nat.eqb_spec (shape0 (states pert)) 0); [lia|]. simpl. eauto.
Qed.

Lemma run_conditions_complete (m : LinearModel) (cs : list string)
    (acc : gmap string Comparison) (s : EngineState) :
  exists comps s',
    run_conditions simulate threshold_rule m N cs acc s = (Ok comps, s').
Proof.
  revert acc s. induction cs as [|c cs IH]; intros acc s; simpl.
  - unfold Py.ret. eauto.
  - unfold Py.bind.
    destruct (run_condition_completes m c s) as (cmp & s1 & ->). apply IH.
Qed.

(** With such an engine every run completes. *)
Lemma run_completes (sim : ConditionSimulation) (s : EngineState) :
  exists sim' s', run simulate threshold_rule sim N s = (Ok sim', s').
Proof.
  unfold run, Py.bind, Py.ret.
  destruct (run_conditions_complete (model sim) conditions ∅ s) as (comps & s1 & ->).
  eauto.
Qed.

Lemma strengths_at_completes (eta : list Q) (i : Z) :
  (3 <= length eta)%nat -> 0 <= i < 3 ->
  exists v, RepressorLoss.strengths_at eta i = Ok v.
Proof.
  intros Hlen Hi. unfold RepressorLoss.strengths_at, getitem.
  rewrite normalize_index_range by lia. simpl.
  destruct (lookup_lt_is_Some_2 eta (Z.to_nat i)) as [e ->]; [lia|]. simpl.
  unfold setitem. rewrite normalize_index_range by (simpl; lia). simpl. eauto.
Qed.

Lemma sweep_body_completes_33 (eta : list Q) (i j : Z)
    (k : RepressorLoss.Kernel EngineState) :
  (3 <= length eta)%nat -> 0 <= i < 3 -> 0 <= j < 3 ->
  exists k', RepressorLoss.sweep_body simulate threshold_rule eta N i j k = (Ok tt, k').
Proof.
  intros Hlen Hi Hj.
  destruct (strengths_at_completes eta i Hlen Hi) as (p & Hp).
  destruct (strengths_at_completes eta j Hlen Hj) as (r & Hr).
  unfold RepressorLoss.sweep_body, RepressorLoss.pair_model, mbind, M_bind, Py.bind, lift.
  rewrite Hp, Hr. simpl. unfold RepressorLoss.simulate_model.
  match goal with |- context [run _ _ ?sim N ?s] =>
    destruct (run_completes sim s) as (sim' & s' & Hrun);
    pose proof (run_inv _ _ _ _ _ _ _ Hrun) as (_ & comps & Hc & _);
    rewrite Hrun end.
  unfold get_comparisons. rewrite Hc. unfold modify. eauto.
Qed.

Lemma sweep_body_completes_31 (eta : list Q) (i : Z)
    (k : PromoterLoss.Kernel EngineState) :
  (3 <= length eta)%nat -> 0 <= i < 3 ->
  exists k', PromoterLoss.sweep_body simulate threshold_rule eta N i k = (Ok tt, k').
Proof.
  intros Hlen Hi.
  destruct (strengths_at_completes eta i Hlen Hi) as (r & Hr).
  unfold PromoterLoss.sweep_body, PromoterLoss.loss_model, mbind, M_bind, Py.bind, lift.
  rewrite Hr. simpl. unfold PromoterLoss.simulate_model.
  match goal with |- context [run _ _ ?sim N ?s] =>
    destruct (run_completes sim s) as (sim' & s' & Hrun);
    pose proof (run_inv _ _ _ _ _ _ _ Hrun) as (_ & comps & Hc & _);
    rewrite Hrun end.
  unfold get_comparisons. rewrite Hc. unfold modify. eauto.
Qed.

(** With such an engine and three strengths both sweeps complete. *)
Lemma sweeps_complete (eta : list Q)
    (k : RepressorLoss.Kernel EngineState) (k1 : PromoterLoss.Kernel EngineState) :
  (3 <= length eta)%nat ->
  (exists k', RepressorLoss.sweep simulate threshold_rule eta N k = (Ok tt, k')) /\
  (exists k1', PromoterLoss.sweep simulate threshold_rule eta N k1 = (Ok tt, k1')).
Proof.
  intros Hlen. split.
  - unfold RepressorLoss.sweep, mbind, M_bind, Py.bind,
      RepressorLoss.set_comparisons, modify.
    change (range 3) with [0; 1; 2]. simpl. unfold Py.bind.
    repeat match goal with
    | |- context [RepressorLoss.sweep_body simulate threshold_rule eta N ?i ?j ?s] =>
        let k' := fresh "k" in
        let H := fresh "H" in
        destruct (sweep_body_completes_33 eta i j s Hlen) as (k' & H); [lia|lia|];
        rewrite H; clear H; unfold Py.ret; simpl
    end.
    unfold Py.ret. eauto.
  - unfold PromoterLoss.sweep, mbind, M_bind, Py.bind,
      PromoterLoss.set_comparisons, modify.
    change (range 3) with [0; 1; 2]. simpl. unfold Py.bind.
    repeat match goal with
    | |- context [PromoterLoss.sweep_body simulate threshold_rule eta N ?i ?s] =>
        let k' := fresh "k" in
        let H := fresh "H" in
        destruct (sweep_body_completes_31 eta i s Hlen) as (k' & H); [lia|];
        rewrite H; clear H; unfold Py.ret; simpl
    end.
    unfold Py.ret. eauto.
Qed.
End Completion.

(** ** What a completed sweep hands to [plot_heatmap] *)

Section DictInvariants.
Context {K V : Type} `{EqDecision K}.

Lemma keys_dict_setitem (k : K) (v : V) (d : dict K V) :
  keys (dict_setitem k v d) =
  match dict_get k d with
  | Some _ => keys d
  | None => keys d ++ [k]
  end.
Proof.
  induction d as [|[k' v'] d IH]; simpl; [reflexivity|].
  destruct (decide (k = k')) as [->|Hne]; simpl; [reflexivity|].
  rewrite IH. now destruct (dict_get k d).
Qed.

Lemma NoDup_dict_setitem (k : K) (v : V) (d : dict K V) :
  NoDup (keys d) -> NoDup (keys (dict_setitem k v d)).
Proof.
  intros Hnd. rewrite keys_dict_setitem.
  destruct (dict_get k d) eqn:Hget; [exact Hnd|].
  apply NoDup_app. split; [exact Hnd|]. split.
  - intros x Hx Hk. apply list_elem_of_singleton in Hk as ->.
    apply dict_get_None in Hget. apply Hget. now apply list_elem_of_In.
  - apply NoDup_singleton.
Qed.

Lemma In_keys_dict_setitem (k k0 : K) (v : V) (d : dict K V) :
  In k0 (keys (dict_setitem k v d)) -> k0 = k \/ In k0 (keys d).
Proof.
  rewrite keys_dict_setitem. destruct (dict_get k d); [auto|].
  rewrite in_app_iff. simpl. intuition.
Qed.

Lemma In_dict_setitem (k k0 : K) (v v0 : V) (d : dict K V) :
  In (k0, v0) (dict_setitem k v d) -> (k0, v0) = (k, v) \/ In (k0, v0) d.
Proof.
  induction d as [|[k' v'] d IH]; simpl; [intuition|].
  destruct (decide (k = k')) as [->|Hne]; simpl; intuition.
Qed.
End DictInvariants.

Section Loops_Invariant.
Context {S A : Type}.

(** A property that every completed iteration keeps holds after the
    completed loop. *)
Lemma for_each_invariant (I : S -> Prop) (xs : list A) (body : A -> M S unit) :
  (forall x s s', In x xs -> body x s = (Ok tt, s') -> I s -> I s') ->
  forall s s', for_each xs body s = (Ok tt, s') -> I s -> I s'.
Proof.
  induction xs as [|x xs IH]; intros Hbody s s' H Hs.
  - apply for_each_nil_inv in H. now subst.
  - apply for_each_cons_inv in H as (s1 & H1 & H).
    eapply IH; [| exact H |].
    + intros y t t' Hy. apply Hbody. now right.
    + eapply Hbody; [now left | exact H1 | exact Hs].
Qed.
End Loops_Invariant.

Section SweptResults.
Context {EngineState : Type}.
Variable simulate :
  LinearModel -> string -> nat -> EngineState -> TimeSeries * EngineState.
Variable threshold_rule : TimeSeries -> TimeSeries -> nat -> bool.

Lemma In_range (n : nat) (i : Z) : In i (range n) -> 0 <= i < Z.of_nat n.
Proof.
  unfold range. rewrite in_map_iff. intros (k & <- & Hk).
  apply in_seq in Hk. lia.
Qed.

(** The results of a completed repressor sweep have distinct keys on the
    3x3 grid and cover each of the three conditions. *)
Lemma swept_results_on_grid (eta : list Q) (N : nat)
    (k k' : RepressorLoss.Kernel EngineState) (c : string) :
  RepressorLoss.sweep simulate threshold_rule eta N k = (Ok tt, k') ->
  In c conditions ->
  RepressorLoss.on_grid c (RepressorLoss.comparisons k').
Proof.
  intros H Hc. unfold RepressorLoss.sweep in H.
  apply bind_Ok_inv in H as ([] & k0 & H0 & H).
  unfold RepressorLoss.set_comparisons, modify in H0.
  inversion H0; subst k0; clear H0.
  refine (for_each_invariant
            (fun k => RepressorLoss.on_grid c (RepressorLoss.comparisons k))
            _ _ _ _ _ H _).
  - intros i s s' Hi Hloop.
    refine (for_each_invariant
              (fun k => RepressorLoss.on_grid c (RepressorLoss.comparisons k))
              _ _ _ _ _ Hloop).
    intros j t t' Hj Hbody (Hnd & Hk & Hv).
    apply In_range in Hi. apply In_range in Hj.
    apply sweep_body_inv_33 in Hbody
      as (m & sim & comps & _ & Hrun & _ & Hcs & -> & _).
    apply run_inv in Hrun as (_ & comps' & Hcs' & Hdom & _).
    rewrite Hcs in Hcs'. inversion Hcs'; subst comps'.
    split; [now apply NoDup_dict_setitem|]. split.
    + intros i0 j0 Hin. apply In_keys_dict_setitem in Hin as [Heq|Hin]; [|auto].
      inversion Heq; subst. simpl in *. lia.
    + intros k1 v Hin. apply In_dict_setitem in Hin as [Heq|Hin]; [|eauto].
      inversion Heq; subst. apply elem_of_dom. rewrite Hdom.
      apply elem_of_list_to_set. now apply list_elem_of_In.
  - simpl. split; [apply NoDup_nil_2|]. split; intros; contradiction.
Qed.

(** The same for the promoter sweep and the 3x1 grid. *)
Lemma swept_results_on_column (eta : list Q) (N : nat)
    (k k' : PromoterLoss.Kernel EngineState) (c : string) :
  PromoterLoss.sweep simulate threshold_rule eta N k = (Ok tt, k') ->
  In c conditions ->
  PromoterLoss.on_column c (PromoterLoss.comparisons k').
Proof.
  intros H Hc. unfold PromoterLoss.sweep in H.
  apply bind_Ok_inv in H as ([] & k0 & H0 & H).
  unfold PromoterLoss.set_comparisons, modify in H0.
  inversion H0; subst k0; clear H0.
  refine (for_each_invariant
            (fun k => PromoterLoss.on_column c (PromoterLoss.comparisons k))
            _ _ _ _ _ H _).
  - intros i s s' Hi Hbody (Hnd & Hk & Hv).
    apply In_range in Hi.
    apply sweep_body_inv_31 in Hbody
      as (m & sim & comps & _ & Hrun & _ & Hcs & -> & _).
    apply run_inv in Hrun as (_ & comps' & Hcs' & Hdom & _).
    rewrite Hcs in Hcs'. inversion Hcs'; subst comps'.
    split; [now apply NoDup_dict_setitem|]. split.
    + intros i0 Hin. apply In_keys_dict_setitem in Hin as [->|Hin]; [|auto].
      simpl in *. lia.
    + intros k1 v Hin. apply In_dict_setitem in Hin as [Heq|Hin]; [|eauto].
      inversion Heq; subst. apply elem_of_dom. rewrite Hdom.
      apply elem_of_list_to_set. now apply list_elem_of_In.
  - simpl. split; [apply NoDup_nil_2|]. split; intros; contradiction.
Qed.
End SweptResults.

(** ** The notebooks on the small engine *)

Section Instances.
Import Example.

Lemma threshold_error_is_error_frequency_witness :
  new_Comparison Toy.threshold_rule Toy.reference0 Toy.compared0
    = Ok (Toy.comparison_of example_model "normal" 0 (1 # 2)) /\
  (1 # 2 ==
     inject_Z (Z.of_nat (error_count Toy.threshold_rule Toy.reference0 Toy.compared0))
     / inject_Z (Z.of_nat (shape0 (states Toy.compared0))))%Q /\
  (error_count Toy.threshold_rule Toy.reference0 Toy.compared0
     <= shape0 (states Toy.compared0))%nat /\
  (0 <= 1 # 2)%Q /\ (1 # 2 <= 1)%Q.
Proof.
  split; [reflexivity|].
  apply (threshold_error_is_error_frequency Toy.threshold_rule
           Toy.reference0 Toy.compared0
           (Toy.comparison_of example_model "normal" 0 (1 # 2))).
  reflexivity.
Defined.

Lemma run_comparisons_keyed_by_condition_witness :
  run Toy.simulate Toy.threshold_rule (new_ConditionSimulation example_model) 4 0%nat
    = (Ok Toy.completed, 6%nat) /\
  exists comps : gmap string Comparison,
    comparisons Toy.completed = Some comps /\
    dom comps = {[ "normal"; "diabetic"; "hyper_metabolic" ]} /\
    forall c, c ∈ conditions ->
      exists cmp s1 s2,
        comps !! c = Some cmp /\
        reference cmp = fst (Toy.simulate example_model c 4 s1) /\
        compared cmp = fst (Toy.simulate (remove_perturbed example_model) c 4 s2).
Proof.
  split; [vm_compute; reflexivity|].
  apply (run_comparisons_keyed_by_condition Toy.simulate Toy.threshold_rule
           (new_ConditionSimulation example_model) Toy.completed 4 0%nat 6%nat).
  vm_compute; reflexivity.
Defined.

Lemma run_compares_intact_with_perturbed_witness :
  run Toy.simulate Toy.threshold_rule (new_ConditionSimulation example_model) 4 0%nat
    = (Ok Toy.completed, 6%nat) /\
  comparisons Toy.completed = Some Toy.example_comparisons /\
  Toy.example_comparisons !! "diabetic"
    = Some (Toy.comparison_of example_model "diabetic" 2 (1 # 2)) /\
  (exists s1 s2,
     fst (Toy.simulate example_model "diabetic" 4 2%nat)
       = fst (Toy.simulate example_model "diabetic" 4 s1) /\
     fst (Toy.simulate (remove_perturbed example_model) "diabetic" 4 3%nat)
       = fst (Toy.simulate (remove_perturbed example_model) "diabetic" 4 s2)) /\
  error_frequency Toy.threshold_rule
    (fst (Toy.simulate example_model "diabetic" 4 2%nat))
    (fst (Toy.simulate (remove_perturbed example_model) "diabetic" 4 3%nat))
    = Ok (1 # 2) /\
  (forall e, In e (elements (remove_perturbed example_model)) <->
             In e (elements example_model) /\ perturbed e = false) /\
  ((exists e, In e (elements example_model) /\ perturbed e = true) ->
   (length (elements (remove_perturbed example_model))
      < length (elements example_model))%nat).
Proof.
  split; [vm_compute; reflexivity|].
  split; [reflexivity|]. split; [vm_compute; reflexivity|].
  apply (run_compares_intact_with_perturbed Toy.simulate Toy.threshold_rule
           (new_ConditionSimulation example_model) Toy.completed 4 0%nat 6%nat
           Toy.example_comparisons "diabetic"
           (Toy.comparison_of example_model "diabetic" 2 (1 # 2)));
    vm_compute; reflexivity.
Defined.

Lemma plotted_trajectories_are_engine_rows_witness :
  run Toy.simulate Toy.threshold_rule (new_ConditionSimulation example_model) 4 0%nat
    = (Ok Toy.completed, 6%nat) /\
  comparisons Toy.completed = Some Toy.example_comparisons /\
  Toy.example_comparisons !! "normal"
    = Some (Toy.comparison_of example_model "normal" 0 (1 # 2)) /\
  plot_trajectories (Toy.comparison_of example_model "normal" 0 (1 # 2)) 3
    Toy.plot_start
    = (Ok tt,
       {| np_random := fun k => Toy.random_state (3 + k)%nat;
          ax := {| lines :=
                     [{| xdata := [0; 1; 2]; ydata := [5; 6; 7];
                         color := "m"; lw := 1 # 2 |};
                      {| xdata := [0; 1; 2]; ydata := [4; 5; 6];
                         color := "m"; lw := 1 # 2 |};
                      {| xdata := [0; 1; 2]; ydata := [3; 4; 5];
                         color := "m"; lw := 1 # 2 |};
                      {| xdata := [0; 1; 2]; ydata := [4; 5; 6];
                         color := "grey"; lw := 1 # 2 |};
                      {| xdata := [0; 1; 2]; ydata := [3; 4; 5];
                         color := "grey"; lw := 1 # 2 |};
                      {| xdata := [0; 1; 2]; ydata := [2; 3; 4];
                         color := "grey"; lw := 1 # 2 |}]%Q;
                   ax_xlabel := "Time (h)"; ax_ylabel := "Protein level";
                   ax_xlim := Some (-2, 50) |} |}) /\
  exists e1 e2 new,
    lines (ax (snd (plot_trajectories
                      (Toy.comparison_of example_model "normal" 0 (1 # 2)) 3
                      Toy.plot_start)))
      = lines (ax Toy.plot_start) ++ new /\
    Forall (fun l =>
      xdata l = [0; 1; 2]%Q /\
      exists k,
        (color l = "m" /\ (k < 4)%nat /\
         ydata l = map (at_ (states (fst (Toy.simulate example_model "normal" 4 e1)))
                          k 1) (seq 0 3)) \/
        (color l = "grey" /\ (k < 4)%nat /\
         ydata l = map (at_ (states (fst (Toy.simulate
                                            (remove_perturbed example_model)
                                            "normal" 4 e2))) k 1) (seq 0 3)))
      new.
Proof.
  split; [vm_compute; reflexivity|].
  split; [reflexivity|]. split; [vm_compute; reflexivity|].
  split; [vm_compute; reflexivity|].
  destruct (plotted_trajectories_are_engine_rows Toy.simulate Toy.threshold_rule
              (new_ConditionSimulation example_model) Toy.completed 4 0%nat 6%nat
              Toy.example_comparisons "normal"
              (Toy.comparison_of example_model "normal" 0 (1 # 2)) 3
              Toy.plot_start
              (snd (plot_trajectories
                      (Toy.comparison_of example_model "normal" 0 (1 # 2)) 3
                      Toy.plot_start))
              (Ok tt))
    as (e1 & e2 & new & _ & _ & Hl & Hf);
    [vm_compute; reflexivity | reflexivity | vm_compute; reflexivity
    | vm_compute; reflexivity |].
  exists e1, e2, new. split; [exact Hl | exact Hf].
Defined.

Lemma plot_trajectories_in_bounds_witness :
  (3%nat = 0%nat \/
   ((0 < shape0 (states Toy.reference0))%nat /\
    length [0; 1; 2]%Q = shape2 (states Toy.reference0) /\
    length [0; 1; 2]%Q = shape2 (states Toy.compared0))) /\
  (0 < shape1 (states Toy.reference0))%nat /\
  (0 < shape1 (states Toy.compared0))%nat /\
  (shape0 (states Toy.reference0) <= shape0 (states Toy.compared0))%nat /\
  exists (ind : list Z) (s' : PlotState),
    randint 0 4 3 Toy.random_state = (Ok ind, np_random s') /\
    length ind = 3%nat /\
    Forall (fun i => 0 <= i < 4) ind /\
    take_last (states Toy.reference0) ind
      = Ok (map (fun i => row3 (states Toy.reference0) (Z.to_nat i) 1) ind) /\
    take_last (states Toy.compared0) ind
      = Ok (map (fun i => row3 (states Toy.compared0) (Z.to_nat i) 1) ind) /\
    plot_trajectories (Toy.comparison_of example_model "normal" 0 (1 # 2)) 3
      Toy.plot_start = (Ok tt, s') /\
    lines (ax s') =
      map (fun i => trajectory_line
                      (Toy.comparison_of example_model "normal" 0 (1 # 2)) "m"
                      (states Toy.reference0) (Z.to_nat i)) ind
      ++ map (fun i => trajectory_line
                         (Toy.comparison_of example_model "normal" 0 (1 # 2)) "grey"
                         (states Toy.compared0) (Z.to_nat i)) ind.
Proof.
  assert (H : 3%nat = 0%nat \/
              ((0 < shape0 (states Toy.reference0))%nat /\
               length [0; 1; 2]%Q = shape2 (states Toy.reference0) /\
               length [0; 1; 2]%Q = shape2 (states Toy.compared0))).
  { right. split; [simpl; lia|]. split; reflexivity. }
  split; [exact H|]. split; [simpl; lia|].
  split; [simpl; lia|]. split; [simpl; lia|].
  apply (plot_trajectories_in_bounds
           (Toy.comparison_of example_model "normal" 0 (1 # 2)) 3 Toy.plot_start H);
    simpl; lia.
Defined.

(** Without any trajectory asked for, an empty reference series is no
    obstacle. *)
Lemma plot_trajectories_none_asked :
  plot_trajectories Toy.no_reference 0 Toy.plot_start
  = (Ok tt,
     {| np_random := Toy.random_state;
        ax := {| lines := []; ax_xlabel := "Time (h)";
                 ax_ylabel := "Protein level"; ax_xlim := Some (-2, 50) |} |}).
Proof. reflexivity. Qed.

Lemma sweeps_build_one_simulation_per_position_witness :
  (RepressorLoss.sweep Toy.simulate Toy.threshold_rule RepressorLoss.eta 4
     (Toy.kernel33 []) = (Ok tt, Toy.swept33) /\
   keys (RepressorLoss.comparisons Toy.swept33)
     = [(0, 0); (0, 1); (0, 2); (1, 0); (1, 1); (1, 2); (2, 0); (2, 1); (2, 2)] /\
   exists sims,
     RepressorLoss.simulations Toy.swept33 = [] ++ sims /\
     length sims = 9%nat /\
     forall n i j, keys (RepressorLoss.comparisons Toy.swept33) !! n = Some (i, j) ->
       exists sim ei ej comps,
         sims !! n = Some sim /\
         model sim =
           {| g1 := 1 # 100; g2 := 1 # 1000; include_activation := None;
              elements :=
                [{| kind := Repressor; strengths := RepressorLoss.one_hot i ei;
                    perturbed := false |};
                 {| kind := Repressor; strengths := RepressorLoss.one_hot j ej;
                    perturbed := true |}] |} /\
         getitem RepressorLoss.eta i = Ok ei /\
         getitem RepressorLoss.eta j = Ok ej /\
         comparisons sim = Some comps /\
         dict_get (i, j) (RepressorLoss.comparisons Toy.swept33) = Some comps) /\
  (PromoterLoss.sweep Toy.simulate Toy.threshold_rule PromoterLoss.eta 4
     (Toy.kernel31 []) = (Ok tt, Toy.swept31) /\
   keys (PromoterLoss.comparisons Toy.swept31) = [0; 1; 2] /\
   exists sims,
     PromoterLoss.simulations Toy.swept31 = [] ++ sims /\
     length sims = 3%nat /\
     forall n i, keys (PromoterLoss.comparisons Toy.swept31) !! n = Some i ->
       exists sim ei comps,
         sims !! n = Some sim /\
         model sim =
           {| g1 := 1 # 100; g2 := 1 # 1000; include_activation := Some true;
              elements :=
                [{| kind := Promoter; strengths := RepressorLoss.one_hot i ei;
                    perturbed := true |}] |} /\
         getitem PromoterLoss.eta i = Ok ei /\
         comparisons sim = Some comps /\
         dict_get i (PromoterLoss.comparisons Toy.swept31) = Some comps).
Proof.
  split.
  - split; [vm_compute; reflexivity|].
    apply (proj1 (sweeps_build_one_simulation_per_position
                    Toy.simulate Toy.threshold_rule)
             RepressorLoss.eta 4%nat (Toy.kernel33 []) Toy.swept33).
    vm_compute; reflexivity.
  - split; [vm_compute; reflexivity|].
    apply (proj2 (sweeps_build_one_simulation_per_position
                    Toy.simulate Toy.threshold_rule)
             PromoterLoss.eta 4%nat (Toy.kernel31 []) Toy.swept31).
    vm_compute; reflexivity.
Defined.

Lemma two_entries_on_grid : RepressorLoss.on_grid "normal" Toy.two_entries.
Proof.
  split; [|split].
  - apply (bool_decide_unpack _). vm_compute. exact I.
  - intros i j [H|[H|[]]]; inversion H; lia.
  - intros k v [H|[H|[]]]; inversion H; vm_compute; eauto.
Defined.

Lemma one_entry_on_column : PromoterLoss.on_column "normal" Toy.one_entry.
Proof.
  split; [|split].
  - apply (bool_decide_unpack _). vm_compute. exact I.
  - intros i [H|[]]; simpl in H; subst; lia.
  - intros k v [H|[]]; inversion H; vm_compute; eauto.
Defined.

Lemma swept33_on_grid :
  RepressorLoss.on_grid "normal" (RepressorLoss.comparisons Toy.swept33).
Proof.
  apply (swept_results_on_grid Toy.simulate Toy.threshold_rule RepressorLoss.eta 4
           (Toy.kernel33 []) Toy.swept33 "normal").
  - vm_compute; reflexivity.
  - simpl; auto.
Defined.

Lemma swept31_on_column :
  PromoterLoss.on_column "normal" (PromoterLoss.comparisons Toy.swept31).
Proof.
  apply (swept_results_on_column Toy.simulate Toy.threshold_rule PromoterLoss.eta 4
           (Toy.kernel31 []) Toy.swept31 "normal").
  - vm_compute; reflexivity.
  - simpl; auto.
Defined.

Lemma plot_heatmap_assembles_errors_witness :
  RepressorLoss.on_grid "normal" (RepressorLoss.comparisons Toy.swept33) /\
  PromoterLoss.on_column "normal" (PromoterLoss.comparisons Toy.swept31) /\
  (exists matrix fig,
     for_each (items (RepressorLoss.comparisons Toy.swept33))
       (RepressorLoss.fill_cell "normal")
       [[0; 0; 0]; [0; 0; 0]; [0; 0; 0]]%Q = (Ok tt, matrix) /\
     RepressorLoss.plot_heatmap (RepressorLoss.comparisons Toy.swept33) "normal"
       = Ok fig /\
     image fig = transpose 3 matrix /\ vmin fig = 0%Q /\ vmax fig = 1%Q /\
     forall i j v c,
       In ((i, j), v) (RepressorLoss.comparisons Toy.swept33) ->
       v !! "normal" = Some c ->
       cell matrix (Z.to_nat i) (Z.to_nat j) = Some (threshold_error c) /\
       cell (image fig) (Z.to_nat j) (Z.to_nat i) = Some (threshold_error c)) /\
  (exists matrix fig,
     for_each (items (PromoterLoss.comparisons Toy.swept31))
       (PromoterLoss.fill_row "normal")
       [[0]; [0]; [0]]%Q = (Ok tt, matrix) /\
     PromoterLoss.plot_heatmap (PromoterLoss.comparisons Toy.swept31) "normal"
       = Ok fig /\
     image fig = matrix /\ vmin fig = 0%Q /\ vmax fig = 1%Q /\
     forall i v c,
       In (i, v) (PromoterLoss.comparisons Toy.swept31) ->
       v !! "normal" = Some c ->
       matrix !! Z.to_nat i = Some [threshold_error c]).
Proof.
  split; [exact swept33_on_grid|]. split; [exact swept31_on_column|].
  apply (plot_heatmap_assembles_errors
           (RepressorLoss.comparisons Toy.swept33)
           (PromoterLoss.comparisons Toy.swept31) "normal"
           swept33_on_grid swept31_on_column).
Defined.

Lemma plot_heatmap_missing_entry_is_zero_witness :
  RepressorLoss.on_grid "normal" Toy.two_entries /\
  PromoterLoss.on_column "normal" Toy.one_entry /\
  0 <= 0 < 3 /\
  dict_get (0, 0) Toy.two_entries = None /\
  dict_get 0 Toy.one_entry = None /\
  (exists fig,
     RepressorLoss.plot_heatmap Toy.two_entries "normal" = Ok fig /\
     cell (image fig) 0 0 = Some 0%Q /\
     forall v c, v !! "normal" = Some c -> threshold_error c = 0%Q ->
       RepressorLoss.plot_heatmap (dict_setitem (0, 0) v Toy.two_entries) "normal"
       = Ok fig) /\
  (exists fig,
     PromoterLoss.plot_heatmap Toy.one_entry "normal" = Ok fig /\
     image fig !! 0%nat = Some [0%Q] /\
     forall v c, v !! "normal" = Some c -> threshold_error c = 0%Q ->
       PromoterLoss.plot_heatmap (dict_setitem 0 v Toy.one_entry) "normal" = Ok fig).
Proof.
  split; [exact two_entries_on_grid|]. split; [exact one_entry_on_column|].
  split; [lia|]. split; [reflexivity|]. split; [reflexivity|].
  apply (plot_heatmap_missing_entry_is_zero Toy.two_entries Toy.one_entry "normal"
           0 0 two_entries_on_grid one_entry_on_column);
    (lia || reflexivity).
Defined.

Lemma plotting_leaves_results_unchanged_witness :
  (Store.objects Toy.heap33 !! 0%nat = Some (Store.Results Toy.two_entries) /\
   Store.objects (snd (Store.Pairs.plot_heatmap 0 "normal" Toy.heap33)) !! 0%nat
     = Some (Store.Results Toy.two_entries) /\
   exists f,
     RepressorLoss.plot_heatmap Toy.two_entries "normal" = Ok f /\
     Store.objects (snd (Store.Pairs.plot_heatmap 0 "normal" Toy.heap33)) !! 4%nat
       = Some (Store.AFigure f)) /\
  (Store.objects Toy.heap31 !! 1%nat = Some (Store.Results Toy.one_entry) /\
   Store.objects (snd (Store.Column.plot_heatmap 1 "normal" Toy.heap31)) !! 1%nat
     = Some (Store.Results Toy.one_entry) /\
   exists f,
     PromoterLoss.plot_heatmap Toy.one_entry "normal" = Ok f /\
     Store.objects (snd (Store.Column.plot_heatmap 1 "normal" Toy.heap31)) !! 3%nat
       = Some (Store.AFigure f)) /\
  (exists news,
     Store.Pairs.heap
       (snd (Store.Pairs.heatmap_cell 0
               {| Store.Pairs.heap := Toy.heap33; Store.Pairs.fig := None |}))
     = {| Store.objects := Store.objects Toy.heap33 ++ news;
          Store.np_random := Toy.random_state |} /\
     (Store.objects Toy.heap33 ++ news) !! 0%nat
       = Some (Store.Results Toy.two_entries) /\
     length (Store.figures news) = 3%nat) /\
  (Store.objects Toy.heap33 !! 1%nat
     = Some (Store.AComparison (Toy.comparison_of example_model "normal" 0 (1 # 2))) /\
   Store.objects Toy.heap33 !! 2%nat = Some (Store.AnAxes new_axes) /\
   Store.objects (snd (Store.Trajectories.plot_trajectories 1 2 3 Toy.heap33)) !! 1%nat
     = Some (Store.AComparison (Toy.comparison_of example_model "normal" 0 (1 # 2))) /\
   Store.objects (snd (Store.Trajectories.plot_trajectories 1 2 3 Toy.heap33)) !! 0%nat
     = Some (Store.Results Toy.two_entries)).
Proof.
  destruct plotting_leaves_results_unchanged as (H33 & H31 & _ & Hcell & Htraj).
  split; [|split; [|split]].
  - split; [reflexivity|].
    destruct (H33 Toy.heap33 0%nat "normal") as [_ H].
    destruct (H Toy.two_entries eq_refl) as [Hd Hf].
    split; [exact Hd|].
    assert (E : fst (Store.Pairs.plot_heatmap 0 "normal" Toy.heap33) = Ok 4%nat)
      by (vm_compute; reflexivity).
    rewrite E in Hf. exact Hf.
  - split; [reflexivity|].
    destruct (H31 Toy.heap31 1%nat "normal") as [_ H].
    destruct (H Toy.one_entry eq_refl) as [Hd Hf].
    split; [exact Hd|].
    assert (E : fst (Store.Column.plot_heatmap 1 "normal" Toy.heap31) = Ok 3%nat)
      by (vm_compute; reflexivity).
    rewrite E in Hf. exact Hf.
  - destruct (Hcell {| Store.Pairs.heap := Toy.heap33; Store.Pairs.fig := None |}
                0%nat Toy.two_entries eq_refl) as (news & Hh & Hd & _ & Hok).
    exists news. split; [exact Hh|]. split; [exact Hd|].
    apply Hok. vm_compute; reflexivity.
  - split; [reflexivity|]. split; [reflexivity|].
    destruct (Htraj _ Toy.heap33 1%nat 2%nat 3%nat) as [Hother Hcmp].
    destruct (Hcmp (Toy.comparison_of example_model "normal" 0 (1 # 2)) eq_refl)
      as [Hc _].
    split; [exact Hc|]. rewrite Hother by lia. reflexivity.
Defined.
End Instances.

(** * Further properties of the notebooks' code *)

(** ** Every outcome of [plot_heatmap] *)

Section Indices.
Lemma normalize_index_Ok_iff (n : nat) (i : Z) :
  (exists k, normalize_index n i = Ok k) <-> - Z.of_nat n <= i < Z.of_nat n.
Proof.
  unfold normalize_index.
  destruct (Z.leb_spec 0 i), (Z.ltb_spec i (Z.of_nat n)); simpl.
  - split; [lia | intros _; eexists; reflexivity].
  - destruct (Z.leb_spec (- Z.of_nat n) i), (Z.ltb_spec i 0); simpl;
      (split; [try lia; intros [k Hk]; discriminate | lia]).
  - destruct (Z.leb_spec (- Z.of_nat n) i), (Z.ltb_spec i 0); simpl.
    + split; [lia | intros _; eexists; reflexivity].
    + lia.
    + split; [intros [k Hk]; discriminate | lia].
    + lia.
  - lia.
Qed.

Lemma normalize_index_Raise (n : nat) (i : Z) :
  ~ (- Z.of_nat n <= i < Z.of_nat n) -> normalize_index n i = Raise IndexError.
Proof.
  intros H. destruct (normalize_index n i) as [k|e] eqn:E.
  - exfalso. apply H. apply normalize_index_Ok_iff. eauto.
  - unfold normalize_index in E.
    destruct ((0 <=? i) && (i <? Z.of_nat n)); [discriminate|].
    destruct ((- Z.of_nat n <=? i) && (i <? 0)); [discriminate|].
    now inversion E.
Qed.

(** [m[i, j] = v] for any valid pair of indices, negative ones included,
    writes the entry they denote and no other. *)
Lemma setitem2_at (r c : nat) (m : ndarray2) (i j : Z) (a b : nat) (v : Q) :
  Z.of_nat r <= 9223372036854775808 -> Z.of_nat c <= 9223372036854775808 ->
  has_shape r c m ->
  normalize_index r i = Ok a -> normalize_index c j = Ok b ->
  exists m',
    setitem2 m i j v = Ok m' /\ has_shape r c m' /\
    cell m' a b = Some v /\
    forall a' b', (a', b') <> (a, b) -> cell m' a' b' = cell m a' b'.
Proof.
  intros Hr64 Hc64 Hm Ha Hb.
  pose proof (normalize_index_Ok_lt _ _ _ Ha) as Hlta.
  pose proof (normalize_index_Ok_lt _ _ _ Hb) as Hltb.
  assert (Hi : - Z.of_nat r <= i < Z.of_nat r)
    by (apply normalize_index_Ok_iff; eauto).
  assert (Hj : - Z.of_nat c <= j < Z.of_nat c)
    by (apply normalize_index_Ok_iff; eauto).
  destruct (has_shape_lookup r c m a Hm Hlta) as (row & Hrow & Hlen).
  pose proof Hm as [Hr _].
  unfold setitem2. rewrite !as_index_fits by lia. simpl.
  rewrite Hr, Ha. simpl. rewrite Hrow, Hlen, Hb. simpl.
  eexists. split; [reflexivity|]. split; [|split].
  - apply has_shape_insert; [exact Hm | now rewrite length_insert].
  - unfold cell. rewrite list_lookup_insert_eq by lia. simpl.
    apply list_lookup_insert_eq. lia.
  - intros a' b' Hab. unfold cell.
    destruct (decide (a' = a)) as [->|Hne].
    + rewrite list_lookup_insert_eq by lia. rewrite Hrow. simpl.
      apply list_lookup_insert_ne. congruence.
    + now rewrite list_lookup_insert_ne by congruence.
Qed.

(** Where the bounds of the axes refuse a pair of converted indices. *)
Lemma setitem2_bounds (r c : nat) (m : ndarray2) (i j : Z) (v : Q) :
  has_shape r c m ->
  -9223372036854775808 <= i <= 9223372036854775807 ->
  -9223372036854775808 <= j <= 9223372036854775807 ->
  ~ ((- Z.of_nat r <= i < Z.of_nat r) /\ (- Z.of_nat c <= j < Z.of_nat c)) ->
  setitem2 m i j v = Raise IndexError.
Proof.
  intros Hm Hi64 Hj64 Hout. pose proof Hm as [Hr _]. unfold setitem2.
  rewrite !as_index_fits by lia. simpl. rewrite Hr.
  destruct (normalize_index r i) as [a|e] eqn:Ea.
  - simpl.
    pose proof (normalize_index_Ok_lt _ _ _ Ea) as Hlta.
    destruct (has_shape_lookup r c m a Hm Hlta) as (row & Hrow & Hlen).
    rewrite Hrow, Hlen.
    rewrite (normalize_index_Raise c j); [reflexivity|].
    intros Hj. apply Hout. split; [|exact Hj].
    apply normalize_index_Ok_iff. eauto.
  - simpl. destruct (Z_lt_le_dec i (- Z.of_nat r)) as [Hlo|Hlo];
      [|destruct (Z_lt_le_dec i (Z.of_nat r)) as [Hhi|Hhi]].
    + rewrite normalize_index_Raise in Ea by lia. now inversion Ea.
    + assert (H : exists k, normalize_index r i = Ok k)
        by (apply normalize_index_Ok_iff; lia).
      destruct H as [k Hk]. congruence.
    + rewrite normalize_index_Raise in Ea by lia. now inversion Ea.
Qed.

Lemma as_index_cases (i : Z) :
  (as_index i = Ok i /\ -9223372036854775808 <= i <= 9223372036854775807) \/
  (exists e, as_index i = Raise e /\
             ~ (-9223372036854775808 <= i <= 9223372036854775807)).
Proof.
  destruct (decide (-9223372036854775808 <= i <= 9223372036854775807)) as [H|H].
  - left. split; [now apply as_index_fits | exact H].
  - right. destruct (as_index i) as [i'|e] eqn:E; [|eauto].
    apply as_index_Ok_inv in E as [_ E]. contradiction.
Qed.

(** A pair of indices outside the axes is refused. *)
Lemma setitem2_outside (r c : nat) (m : ndarray2) (i j : Z) (v : Q) :
  Z.of_nat r <= 9223372036854775808 -> Z.of_nat c <= 9223372036854775808 ->
  has_shape r c m ->
  ~ ((- Z.of_nat r <= i < Z.of_nat r) /\ (- Z.of_nat c <= j < Z.of_nat c)) ->
  exists e, setitem2 m i j v = Raise e.
Proof.
  intros Hr64 Hc64 Hm Hout.
  destruct (as_index_cases i) as [[Ei Hi]|(e & Ei & _)];
    [|exists e; unfold setitem2; now rewrite Ei].
  destruct (as_index_cases j) as [[Ej Hj]|(e & Ej & _)];
    [|exists e; unfold setitem2; now rewrite Ei, Ej].
  exists IndexError. now apply (setitem2_bounds r c).
Qed.

(** The exception of an index of 64 bits that numpy refuses: the index
    overflows from [2^63] on, and is out of bounds below. *)
Lemma setitem2_refused (r c : nat) (m : ndarray2) (i j : Z) (v : Q) :
  Z.of_nat r <= 9223372036854775808 -> Z.of_nat c <= 9223372036854775808 ->
  has_shape r c m ->
  -9223372036854775808 <= i <= 18446744073709551615 ->
  -9223372036854775808 <= j <= 18446744073709551615 ->
  ~ ((- Z.of_nat r <= i < Z.of_nat r) /\ (- Z.of_nat c <= j < Z.of_nat c)) ->
  setitem2 m i j v =
  Raise (if (9223372036854775808 <=? i) || (9223372036854775808 <=? j)
         then OverflowError else IndexError).
Proof.
  intros Hr64 Hc64 Hm Hi Hj Hout.
  destruct (Z.leb_spec 9223372036854775808 i) as [Hbi|Hbi]; simpl.
  { unfold setitem2. now rewrite (as_index_overflow i) by lia. }
  destruct (Z.leb_spec 9223372036854775808 j) as [Hbj|Hbj]; simpl.
  { unfold setitem2. rewrite (as_index_fits i) by lia. simpl.
    now rewrite (as_index_overflow j) by lia. }
  apply (setitem2_bounds r c); [exact Hm | lia | lia | exact Hout].
Qed.

Lemma setrow_at (r : nat) (m : ndarray2) (i : Z) (a : nat) (v : Q) :
  Z.of_nat r <= 9223372036854775808 ->
  has_shape r 1 m -> normalize_index r i = Ok a ->
  exists m',
    setrow m i v = Ok m' /\ has_shape r 1 m' /\
    m' !! a = Some [v] /\
    forall a', a' <> a -> m' !! a' = m !! a'.
Proof.
  intros Hr64 Hm Ha.
  pose proof (normalize_index_Ok_lt _ _ _ Ha) as Hlta.
  assert (Hi : - Z.of_nat r <= i < Z.of_nat r)
    by (apply normalize_index_Ok_iff; eauto).
  destruct (has_shape_lookup r 1 m a Hm Hlta) as (row & Hrow & Hlen).
  pose proof Hm as [Hr _].
  unfold setrow. rewrite as_index_fits by lia. simpl.
  rewrite Hr, Ha. simpl. rewrite Hrow, Hlen. simpl.
  eexists. split; [reflexivity|]. split; [|split].
  - now apply has_shape_insert.
  - apply list_lookup_insert_eq. lia.
  - intros a' Hne. now apply list_lookup_insert_ne.
Qed.

Lemma setrow_bounds (r : nat) (m : ndarray2) (i : Z) (v : Q) :
  has_shape r 1 m ->
  -9223372036854775808 <= i <= 9223372036854775807 ->
  ~ (- Z.of_nat r <= i < Z.of_nat r) ->
  setrow m i v = Raise IndexError.
Proof.
  intros [Hr _] Hi64 Hout. unfold setrow. rewrite as_index_fits by lia. simpl.
  rewrite Hr. now rewrite (normalize_index_Raise r i Hout).
Qed.

Lemma setrow_outside (r : nat) (m : ndarray2) (i : Z) (v : Q) :
  Z.of_nat r <= 9223372036854775808 ->
  has_shape r 1 m -> ~ (- Z.of_nat r <= i < Z.of_nat r) ->
  exists e, setrow m i v = Raise e.
Proof.
  intros Hr64 Hm Hout.
  destruct (as_index_cases i) as [[Ei Hi]|(e & Ei & _)];
    [|exists e; unfold setrow; now rewrite Ei].
  exists IndexError. now apply (setrow_bounds r).
Qed.

Lemma setrow_refused (r : nat) (m : ndarray2) (i : Z) (v : Q) :
  Z.of_nat r <= 9223372036854775808 ->
  has_shape r 1 m ->
  -9223372036854775808 <= i <= 18446744073709551615 ->
  ~ (- Z.of_nat r <= i < Z.of_nat r) ->
  setrow m i v =
  Raise (if 9223372036854775808 <=? i then OverflowError else IndexError).
Proof.
  intros Hr64 Hm Hi Hout.
  destruct (Z.leb_spec 9223372036854775808 i) as [Hbi|Hbi].
  { unfold setrow. now rewrite as_index_overflow by lia. }
  apply (setrow_bounds r); [exact Hm | lia | exact Hout].
Qed.
End Indices.

Section Outcomes33.
Import RepressorLoss.

Lemma writable_dec (c : string) (item : Z * Z * gmap string Comparison) :
  writable c item \/ ~ writable c item.
Proof.
  unfold writable.
  destruct (decide (is_Some (snd item !! c) /\
                    (-3 <= fst (fst item) /\ fst (fst item) < 3) /\
                    (-3 <= snd (fst item) /\ snd (fst item) < 3))); auto.
Qed.

Lemma fill_cell_writable (c : string) item (m : ndarray2) :
  has_shape 3 3 m -> writable c item ->
  exists m', fill_cell c item m = (Ok tt, m') /\ has_shape 3 3 m'.
Proof.
  destruct item as [[i j] v]. intros Hm ([x Hx] & Hi & Hj). simpl in *.
  destruct (proj2 (normalize_index_Ok_iff 3 i)) as [a Ha]; [simpl; lia|].
  destruct (proj2 (normalize_index_Ok_iff 3 j)) as [b Hb]; [simpl; lia|].
  destruct (setitem2_at 3 3 m i j a b (threshold_error x)
              ltac:(simpl; lia) ltac:(simpl; lia) Hm Ha Hb)
    as (m' & Hset & Hm' & _).
  exists m'. unfold fill_cell. now rewrite Hx, Hset.
Qed.

Lemma fill_cell_not_writable (c : string) item (m : ndarray2) :
  has_shape 3 3 m -> ~ writable c item ->
  exists e, fill_cell c item m = (Raise e, m).
Proof.
  destruct item as [[i j] v]. intros Hm Hw. unfold fill_cell. simpl.
  destruct (v !! c) as [x|] eqn:Hx; [|eauto].
  destruct (setitem2_outside 3 3 m i j (threshold_error x)) as [e ->];
    [simpl; lia | simpl; lia | exact Hm | | eauto].
  intros [Hi Hj]. apply Hw. split; [simpl; eauto|]. simpl in *. lia.
Qed.

(** The exception of an entry that cannot be written, for a key of 64
    bits. *)
Lemma fill_cell_refused (c : string) item (m : ndarray2) :
  has_shape 3 3 m -> ~ writable c item ->
  -9223372036854775808 <= fst (fst item) <= 18446744073709551615 ->
  -9223372036854775808 <= snd (fst item) <= 18446744073709551615 ->
  fill_cell c item m =
  (Raise match snd item !! c with
         | Some _ =>
             if (9223372036854775808 <=? fst (fst item))
                || (9223372036854775808 <=? snd (fst item))
             then OverflowError else IndexError
         | None => KeyError
         end, m).
Proof.
  destruct item as [[i j] v]. intros Hm Hw Hi Hj. unfold fill_cell. simpl in *.
  destruct (v !! c) as [x|] eqn:Hx; [|reflexivity].
  rewrite (setitem2_refused 3 3); [reflexivity | simpl; lia | simpl; lia
    | exact Hm | exact Hi | exact Hj |].
  intros [Hi' Hj']. apply Hw. split; [simpl; eauto|]. simpl in *. lia.
Qed.

Lemma fill_cells_writable (c : string) (d : Results) (m : ndarray2) :
  has_shape 3 3 m -> Forall (writable c) d ->
  exists m', for_each d (fill_cell c) m = (Ok tt, m') /\ has_shape 3 3 m'.
Proof.
  intros Hm Hd. revert m Hm. induction Hd as [|item d Hitem _ IH]; intros m Hm.
  - exists m. auto.
  - destruct (fill_cell_writable c item m Hm Hitem) as (m1 & H1 & Hm1).
    destruct (IH m1 Hm1) as (m' & H' & Hm').
    exists m'. simpl. unfold Py.bind. rewrite H1. auto.
Qed.

Lemma fill_cells_first_bad (c : string) (good rest : Results) item (m : ndarray2) :
  has_shape 3 3 m -> Forall (writable c) good -> ~ writable c item ->
  -9223372036854775808 <= fst (fst item) <= 18446744073709551615 ->
  -9223372036854775808 <= snd (fst item) <= 18446744073709551615 ->
  exists m',
    for_each (good ++ item :: rest) (fill_cell c) m =
    (Raise match snd item !! c with
           | Some _ =>
               if (9223372036854775808 <=? fst (fst item))
                  || (9223372036854775808 <=? snd (fst item))
               then OverflowError else IndexError
           | None => KeyError
           end, m').
Proof.
  intros Hm Hgood Hbad Hi Hj.
  destruct (fill_cells_writable c good m Hm Hgood) as (m1 & H1 & Hm1).
  exists m1. rewrite for_each_app, H1. simpl. unfold Py.bind.
  now rewrite (fill_cell_refused c item m1 Hm1 Hbad Hi Hj).
Qed.

Lemma fill_cells_Ok_writable (c : string) (d : Results) (m m' : ndarray2) :
  has_shape 3 3 m -> for_each d (fill_cell c) m = (Ok tt, m') ->
  Forall (writable c) d.
Proof.
  revert m. induction d as [|item d IH]; intros m Hm H; [constructor|].
  destruct (writable_dec c item) as [Hw|Hw].
  - destruct (fill_cell_writable c item m Hm Hw) as (m1 & H1 & Hm1).
    simpl in H. unfold Py.bind in H. rewrite H1 in H.
    constructor; [exact Hw | eapply IH; eassumption].
  - simpl in H. unfold Py.bind in H.
    destruct (fill_cell_not_writable c item m Hm Hw) as [e He].
    rewrite He in H. discriminate.
Qed.
End Outcomes33.

Section Outcomes31.
Import PromoterLoss.

Lemma writable_dec_31 (c : string) (item : Z * gmap string Comparison) :
  writable c item \/ ~ writable c item.
Proof.
  unfold writable.
  destruct (decide (is_Some (snd item !! c) /\
                    (-3 <= fst item /\ fst item < 3))); auto.
Qed.

Lemma fill_row_writable (c : string) item (m : ndarray2) :
  has_shape 3 1 m -> writable c item ->
  exists m', fill_row c item m = (Ok tt, m') /\ has_shape 3 1 m'.
Proof.
  destruct item as [i v]. intros Hm ([x Hx] & Hi). simpl in *.
  destruct (proj2 (normalize_index_Ok_iff 3 i)) as [a Ha]; [simpl; lia|].
  destruct (setrow_at 3 m i a (threshold_error x) ltac:(simpl; lia) Hm Ha)
    as (m' & Hset & Hm' & _).
  exists m'. unfold fill_row. now rewrite Hx, Hset.
Qed.

Lemma fill_row_not_writable (c : string) item (m : ndarray2) :
  has_shape 3 1 m -> ~ writable c item ->
  exists e, fill_row c item m = (Raise e, m).
Proof.
  destruct item as [i v]. intros Hm Hw. unfold fill_row. simpl.
  destruct (v !! c) as [x|] eqn:Hx; [|eauto].
  destruct (setrow_outside 3 m i (threshold_error x)) as [e ->];
    [simpl; lia | exact Hm | | eauto].
  intros Hi. apply Hw. split; [simpl; eauto|]. simpl in *. lia.
Qed.

Lemma fill_row_refused (c : string) item (m : ndarray2) :
  has_shape 3 1 m -> ~ writable c item ->
  -9223372036854775808 <= fst item <= 18446744073709551615 ->
  fill_row c item m =
  (Raise match snd item !! c with
         | Some _ =>
             if 9223372036854775808 <=? fst item
             then OverflowError else IndexError
         | None => KeyError
         end, m).
Proof.
  destruct item as [i v]. intros Hm Hw Hi. unfold fill_row. simpl in *.
  destruct (v !! c) as [x|] eqn:Hx; [|reflexivity].
  rewrite (setrow_refused 3); [reflexivity | simpl; lia | exact Hm | exact Hi |].
  intros Hi'. apply Hw. split; [simpl; eauto|]. simpl in *. lia.
Qed.

Lemma fill_rows_writable (c : string) (d : Results) (m : ndarray2) :
  has_shape 3 1 m -> Forall (writable c) d ->
  exists m', for_each d (fill_row c) m = (Ok tt, m') /\ has_shape 3 1 m'.
Proof.
  intros Hm Hd. revert m Hm. induction Hd as [|item d Hitem _ IH]; intros m Hm.
  - exists m. auto.
  - destruct (fill_row_writable c item m Hm Hitem) as (m1 & H1 & Hm1).
    destruct (IH m1 Hm1) as (m' & H' & Hm').
    exists m'. simpl. unfold Py.bind. rewrite H1. auto.
Qed.

Lemma fill_rows_first_bad (c : string) (good rest : Results) item (m : ndarray2) :
  has_shape 3 1 m -> Forall (writable c) good -> ~ writable c item ->
  -9223372036854775808 <= fst item <= 18446744073709551615 ->
  exists m',
    for_each (good ++ item :: rest) (fill_row c) m =
    (Raise match snd item !! c with
           | Some _ =>
               if 9223372036854775808 <=? fst item
               then OverflowError else IndexError
           | None => KeyError
           end, m').
Proof.
  intros Hm Hgood Hbad Hi.
  destruct (fill_rows_writable c good m Hm Hgood) as (m1 & H1 & Hm1).
  exists m1. rewrite for_each_app, H1. simpl. unfold Py.bind.
  now rewrite (fill_row_refused c item m1 Hm1 Hbad Hi).
Qed.

Lemma fill_rows_Ok_writable (c : string) (d : Results) (m m' : ndarray2) :
  has_shape 3 1 m -> for_each d (fill_row c) m = (Ok tt, m') ->
  Forall (writable c) d.
Proof.
  revert m. induction d as [|item d IH]; intros m Hm H; [constructor|].
  destruct (writable_dec_31 c item) as [Hw|Hw].
  - destruct (fill_row_writable c item m Hm Hw) as (m1 & H1 & Hm1).
    simpl in H. unfold Py.bind in H. rewrite H1 in H.
    constructor; [exact Hw | eapply IH; eassumption].
  - simpl in H. unfold Py.bind in H.
    destruct (fill_row_not_writable c item m Hm Hw) as [e He].
    rewrite He in H. discriminate.
Qed.
End Outcomes31.

Section Extra_Outcomes.

Lemma has_shape_transpose (r c : nat) (m : ndarray2) :
  has_shape r c m -> has_shape c r (transpose c m).
Proof.
  intros [Hr _]. unfold transpose. split.
  - now rewrite length_map, length_seq.
  - apply List.Forall_forall. intros row Hin.
    apply in_map_iff in Hin as (j & <- & _). now rewrite length_map.
Qed.

(** X1: [plot_heatmap] returns a figure exactly when every entry of the
    dictionary covers the condition and has a key whose parts are valid
    indices of an axis of length 3 (from -3 to 2); the image of that figure
    is 3x3, resp. 3x1, whatever the keys are. *)
Theorem plot_heatmap_succeeds_iff
    (d : RepressorLoss.Results) (d1 : PromoterLoss.Results) (condition : string) :
  ((exists fig, RepressorLoss.plot_heatmap d condition = Ok fig) <->
   Forall (RepressorLoss.writable condition) d) /\
  (forall fig, RepressorLoss.plot_heatmap d condition = Ok fig ->
               has_shape 3 3 (image fig)) /\
  ((exists fig, PromoterLoss.plot_heatmap d1 condition = Ok fig) <->
   Forall (PromoterLoss.writable condition) d1) /\
  (forall fig, PromoterLoss.plot_heatmap d1 condition = Ok fig ->
               has_shape 3 1 (image fig)).
Proof.
  split; [|split; [|split]].
  - unfold RepressorLoss.plot_heatmap, items. split.
    + intros [fig H].
      destruct (for_each d (RepressorLoss.fill_cell condition) (zeros 3 3))
        as [[[]|e] m] eqn:E; [|discriminate].
      eapply fill_cells_Ok_writable; [apply has_shape_zeros | exact E].
    + intros Hd.
      destruct (fill_cells_writable condition d (zeros 3 3) (has_shape_zeros 3 3) Hd)
        as (m & -> & _). eauto.
  - unfold RepressorLoss.plot_heatmap, items. intros fig H.
    destruct (for_each d (RepressorLoss.fill_cell condition) (zeros 3 3))
      as [[[]|e] m] eqn:E; [|discriminate].
    pose proof (fill_cells_Ok_writable _ _ _ _ (has_shape_zeros 3 3) E) as Hd.
    destruct (fill_cells_writable condition d (zeros 3 3) (has_shape_zeros 3 3) Hd)
      as (m' & E' & Hm'). rewrite E in E'. inversion E'; subst m'.
    inversion H; subst fig. simpl. now apply has_shape_transpose.
  - unfold PromoterLoss.plot_heatmap, items. split.
    + intros [fig H].
      destruct (for_each d1 (PromoterLoss.fill_row condition) (zeros 3 1))
        as [[[]|e] m] eqn:E; [|discriminate].
      eapply fill_rows_Ok_writable; [apply has_shape_zeros | exact E].
    + intros Hd.
      destruct (fill_rows_writable condition d1 (zeros 3 1) (has_shape_zeros 3 1) Hd)
        as (m & -> & _). eauto.
  - unfold PromoterLoss.plot_heatmap, items. intros fig H.
    destruct (for_each d1 (PromoterLoss.fill_row condition) (zeros 3 1))
      as [[[]|e] m] eqn:E; [|discriminate].
    pose proof (fill_rows_Ok_writable _ _ _ _ (has_shape_zeros 3 1) E) as Hd.
    destruct (fill_rows_writable condition d1 (zeros 3 1) (has_shape_zeros 3 1) Hd)
      as (m' & E' & Hm'). rewrite E in E'. inversion E'; subst m'.
    inversion H; subst fig. simpl. exact Hm'.
Qed.

(** X2: when [plot_heatmap] fails, the first entry in insertion order that
    cannot be written decides the exception, and the entries after it are
    not looked at.  It is a [KeyError] if that entry lacks the condition.
    If the entry covers the condition and the parts of its key are integers
    of 64 bits, it is an [OverflowError] when a part of the key is [2^63] or
    more, and an [IndexError] for any other key outside the axes. *)
Theorem plot_heatmap_first_bad_entry (condition : string) :
  (forall (good rest : RepressorLoss.Results) item,
     Forall (RepressorLoss.writable condition) good ->
     ~ RepressorLoss.writable condition item ->
     -9223372036854775808 <= fst (fst item) <= 18446744073709551615 ->
     -9223372036854775808 <= snd (fst item) <= 18446744073709551615 ->
     RepressorLoss.plot_heatmap (good ++ item :: rest) condition =
     Raise match snd item !! condition with
           | Some _ =>
               if (9223372036854775808 <=? fst (fst item))
                  || (9223372036854775808 <=? snd (fst item))
               then OverflowError else IndexError
           | None => KeyError
           end) /\
  (forall (good rest : PromoterLoss.Results) item,
     Forall (PromoterLoss.writable condition) good ->
     ~ PromoterLoss.writable condition item ->
     -9223372036854775808 <= fst item <= 18446744073709551615 ->
     PromoterLoss.plot_heatmap (good ++ item :: rest) condition =
     Raise match snd item !! condition with
           | Some _ =>
               if 9223372036854775808 <=? fst item
               then OverflowError else IndexError
           | None => KeyError
           end).
Proof.
  split.
  - intros good rest item Hgood Hbad Hi Hj.
    unfold RepressorLoss.plot_heatmap, items.
    destruct (fill_cells_first_bad condition good rest item (zeros 3 3)
                (has_shape_zeros 3 3) Hgood Hbad Hi Hj) as (m' & ->).
    reflexivity.
  - intros good rest item Hgood Hbad Hi.
    unfold PromoterLoss.plot_heatmap, items.
    destruct (fill_rows_first_bad condition good rest item (zeros 3 1)
                (has_shape_zeros 3 1) Hgood Hbad Hi) as (m' & ->).
    reflexivity.
Qed.
End Extra_Outcomes.

(** ** Assigning keys and the order of the entries *)

Section Extra_Overwrite.

Lemma fill_cells_Ok_shape (c : string) (d : RepressorLoss.Results) (m m' : ndarray2) :
  has_shape 3 3 m -> for_each d (RepressorLoss.fill_cell c) m = (Ok tt, m') ->
  has_shape 3 3 m'.
Proof.
  intros Hm H.
  pose proof (fill_cells_Ok_writable c d m m' Hm H) as Hd.
  destruct (fill_cells_writable c d m Hm Hd) as (m1 & H1 & Hm1).
  rewrite H in H1. now inversion H1; subst.
Qed.

Lemma fill_rows_Ok_shape (c : string) (d : PromoterLoss.Results) (m m' : ndarray2) :
  has_shape 3 1 m -> for_each d (PromoterLoss.fill_row c) m = (Ok tt, m') ->
  has_shape 3 1 m'.
Proof.
  intros Hm H.
  pose proof (fill_rows_Ok_writable c d m m' Hm H) as Hd.
  destruct (fill_rows_writable c d m Hm Hd) as (m1 & H1 & Hm1).
  rewrite H in H1. now inversion H1; subst.
Qed.

(** X3: assigning a new key to the results changes the figure in one cell
    only, the one the key denotes after numpy's index normalisation (so
    [(-1, -1)] writes the cell of [(2, 2)], also when that position had an
    entry): that cell shows the new error frequency and every other cell is
    as before. *)
Theorem plot_heatmap_new_key_writes_one_cell (condition : string) :
  (forall (d : RepressorLoss.Results) (i j : Z) (v : gmap string Comparison)
          (x : Comparison) (fig : Figure) (a b : nat),
     RepressorLoss.plot_heatmap d condition = Ok fig ->
     dict_get (i, j) d = None ->
     v !! condition = Some x ->
     normalize_index 3 i = Ok a -> normalize_index 3 j = Ok b ->
     exists fig',
       RepressorLoss.plot_heatmap (dict_setitem (i, j) v d) condition = Ok fig' /\
       cell (image fig') b a = Some (threshold_error x) /\
       forall a' b', (a' < 3)%nat -> (b' < 3)%nat -> (a', b') <> (a, b) ->
         cell (image fig') b' a' = cell (image fig) b' a') /\
  (forall (d : PromoterLoss.Results) (i : Z) (v : gmap string Comparison)
          (x : Comparison) (fig : Figure) (a : nat),
     PromoterLoss.plot_heatmap d condition = Ok fig ->
     dict_get i d = None ->
     v !! condition = Some x ->
     normalize_index 3 i = Ok a ->
     exists fig',
       PromoterLoss.plot_heatmap (dict_setitem i v d) condition = Ok fig' /\
       image fig' !! a = Some [threshold_error x] /\
       forall a', a' <> a -> image fig' !! a' = image fig !! a').
Proof.
  split.
  - intros d i j v x fig a b Hfig Hnew Hx Ha Hb.
    rewrite (dict_setitem_new _ _ _ Hnew).
    unfold RepressorLoss.plot_heatmap, items in *.
    destruct (for_each d (RepressorLoss.fill_cell condition) (zeros 3 3))
      as [[[]|e] m] eqn:E; [|discriminate].
    pose proof (fill_cells_Ok_shape _ _ _ _ (has_shape_zeros 3 3) E) as Hm.
    destruct (setitem2_at 3 3 m i j a b (threshold_error x)
                ltac:(simpl; lia) ltac:(simpl; lia) Hm Ha Hb)
      as (m' & Hset & Hm' & Hhit & Hmiss).
    pose proof (normalize_index_Ok_lt _ _ _ Ha) as Hlta.
    pose proof (normalize_index_Ok_lt _ _ _ Hb) as Hltb.
    rewrite for_each_app, E. simpl. unfold Py.bind. simpl.
    rewrite Hx, Hset. simpl.
    eexists. split; [reflexivity|]. inversion Hfig; subst fig. simpl. split.
    + rewrite (cell_transpose 3 3) by auto. exact Hhit.
    + intros a' b' Ha' Hb' Hne.
      rewrite !(cell_transpose 3 3) by auto. now apply Hmiss.
  - intros d i v x fig a Hfig Hnew Hx Ha.
    rewrite (dict_setitem_new _ _ _ Hnew).
    unfold PromoterLoss.plot_heatmap, items in *.
    destruct (for_each d (PromoterLoss.fill_row condition) (zeros 3 1))
      as [[[]|e] m] eqn:E; [|discriminate].
    pose proof (fill_rows_Ok_shape _ _ _ _ (has_shape_zeros 3 1) E) as Hm.
    destruct (setrow_at 3 m i a (threshold_error x) ltac:(simpl; lia) Hm Ha)
      as (m' & Hset & Hm' & Hhit & Hmiss).
    rewrite for_each_app, E. simpl. unfold Py.bind. simpl.
    rewrite Hx, Hset. simpl.
    eexists. split; [reflexivity|]. inversion Hfig; subst fig. simpl. auto.
Qed.
End Extra_Overwrite.

Section Permuted.
Context {K V : Type} `{EqDecision K}.

Lemma dict_get_Some_In (k : K) (v : V) (d : dict K V) :
  dict_get k d = Some v -> In (k, v) d.
Proof.
  induction d as [|[k' v'] d IH]; simpl; [discriminate|].
  destruct (decide (k = k')) as [->|Hne].
  - inversion 1. now left.
  - intros H. right. auto.
Qed.

Lemma keys_Permutation (d d' : dict K V) : d ≡ₚ d' -> keys d ≡ₚ keys d'.
Proof. intros H. unfold keys. now apply Permutation_map. Qed.

(** Reading a key does not depend on the order of the entries. *)
Lemma dict_get_Permutation (k : K) (d d' : dict K V) :
  NoDup (keys d) -> d ≡ₚ d' -> dict_get k d' = dict_get k d.
Proof.
  intros Hnd Hp.
  assert (Hnd' : NoDup (keys d')) by now rewrite <- (keys_Permutation d d' Hp).
  destruct (dict_get k d) as [v|] eqn:E.
  - apply dict_get_In; [exact Hnd'|].
    eapply Permutation_in; [exact Hp|]. now apply dict_get_Some_In.
  - apply dict_get_None. apply dict_get_None in E. intros Hin. apply E.
    eapply Permutation_in; [symmetry; apply keys_Permutation; exact Hp | exact Hin].
Qed.
End Permuted.

Section Extra_Order.

Lemma has_shape_ext (r c : nat) (m m' : ndarray2) :
  has_shape r c m -> has_shape r c m' ->
  (forall a b, (a < r)%nat -> (b < c)%nat -> cell m a b = cell m' a b) ->
  m = m'.
Proof.
  intros Hm Hm' Hcells. apply list_eq. intros a.
  destruct (Nat.lt_ge_cases a r) as [Ha|Ha].
  - destruct (has_shape_lookup r c m a Hm Ha) as (row & Hrow & Hlen).
    destruct (has_shape_lookup r c m' a Hm' Ha) as (row' & Hrow' & Hlen').
    rewrite Hrow, Hrow'. f_equal. apply list_eq. intros b.
    destruct (Nat.lt_ge_cases b c) as [Hb|Hb].
    + specialize (Hcells a b Ha Hb). unfold cell in Hcells.
      now rewrite Hrow, Hrow' in Hcells.
    + rewrite !lookup_ge_None_2 by lia. reflexivity.
  - destruct Hm as [Hr _], Hm' as [Hr' _].
    rewrite !lookup_ge_None_2 by lia. reflexivity.
Qed.

Lemma on_grid_Permutation (c : string) (d d' : RepressorLoss.Results) :
  RepressorLoss.on_grid c d -> d ≡ₚ d' -> RepressorLoss.on_grid c d'.
Proof.
  intros (Hnd & Hk & Hv) Hp. split; [|split].
  - now rewrite <- (keys_Permutation d d' Hp).
  - intros i j Hin. apply Hk.
    eapply Permutation_in; [symmetry; apply keys_Permutation; exact Hp | exact Hin].
  - intros k v Hin. apply (Hv k).
    eapply Permutation_in; [symmetry; exact Hp | exact Hin].
Qed.

Lemma on_column_Permutation (c : string) (d d' : PromoterLoss.Results) :
  PromoterLoss.on_column c d -> d ≡ₚ d' -> PromoterLoss.on_column c d'.
Proof.
  intros (Hnd & Hk & Hv) Hp. split; [|split].
  - now rewrite <- (keys_Permutation d d' Hp).
  - intros i Hin. apply Hk.
    eapply Permutation_in; [symmetry; apply keys_Permutation; exact Hp | exact Hin].
  - intros k v Hin. apply (Hv k).
    eapply Permutation_in; [symmetry; exact Hp | exact Hin].
Qed.

(** X4: for results keyed by distinct positions of the grid, the figure
    does not depend on the order in which the entries were inserted: any
    reordering of the dictionary gives the same figure. *)
Theorem plot_heatmap_order_independent (condition : string) :
  (forall d d' : RepressorLoss.Results,
     RepressorLoss.on_grid condition d -> d ≡ₚ d' ->
     RepressorLoss.plot_heatmap d' condition
     = RepressorLoss.plot_heatmap d condition) /\
  (forall d d' : PromoterLoss.Results,
     PromoterLoss.on_column condition d -> d ≡ₚ d' ->
     PromoterLoss.plot_heatmap d' condition
     = PromoterLoss.plot_heatmap d condition).
Proof.
  split.
  - intros d d' Hd Hp.
    pose proof (on_grid_Permutation _ _ _ Hd Hp) as Hd'.
    destruct (fill_cells_spec condition d (zeros 3 3) (has_shape_zeros 3 3) Hd)
      as (m & Hfor & Hm & Hcells).
    destruct (fill_cells_spec condition d' (zeros 3 3) (has_shape_zeros 3 3) Hd')
      as (m' & Hfor' & Hm' & Hcells').
    assert (m' = m) as ->.
    { apply (has_shape_ext 3 3); [exact Hm' | exact Hm |].
      intros a b Ha Hb.
      specialize (Hcells (Z.of_nat a) (Z.of_nat b)).
      specialize (Hcells' (Z.of_nat a) (Z.of_nat b)).
      rewrite !Nat2Z.id in Hcells, Hcells'.
      rewrite Hcells, Hcells' by lia.
      destruct Hd as (Hnd & _).
      now rewrite (dict_get_Permutation _ d d' Hnd Hp). }
    unfold RepressorLoss.plot_heatmap. now rewrite Hfor, Hfor'.
  - intros d d' Hd Hp.
    pose proof (on_column_Permutation _ _ _ Hd Hp) as Hd'.
    destruct (fill_rows_spec condition d (zeros 3 1) (has_shape_zeros 3 1) Hd)
      as (m & Hfor & Hm & Hrows).
    destruct (fill_rows_spec condition d' (zeros 3 1) (has_shape_zeros 3 1) Hd')
      as (m' & Hfor' & Hm' & Hrows').
    assert (m' = m) as ->.
    { apply list_eq. intros a.
      destruct (Nat.lt_ge_cases a 3) as [Ha|Ha].
      - specialize (Hrows (Z.of_nat a)). specialize (Hrows' (Z.of_nat a)).
        rewrite !Nat2Z.id in Hrows, Hrows'.
        rewrite Hrows, Hrows' by lia.
        destruct Hd as (Hnd & _).
        now rewrite (dict_get_Permutation _ d d' Hnd Hp).
      - destruct Hm as [Hr _], Hm' as [Hr' _].
        rewrite !lookup_ge_None_2 by lia. reflexivity. }
    unfold PromoterLoss.plot_heatmap. now rewrite Hfor, Hfor'.
Qed.
End Extra_Order.

(** ** Every outcome of [plot_trajectories] *)

Section TrajectoryOutcomes.
Import Example.

Lemma normalize_index_Raise_inv (n : nat) (i : Z) (e : Exception) :
  normalize_index n i = Raise e -> e = IndexError.
Proof.
  unfold normalize_index.
  destruct ((0 <=? i) && (i <? Z.of_nat n)); [discriminate|].
  destruct ((- Z.of_nat n <=? i) && (i <? 0)); [discriminate|].
  now inversion 1.
Qed.


Lemma mapM_normalize_Raise (n : nat) (ind : list Z) (e : Exception) :
  mapM (normalize_index n) ind = Raise e -> e = IndexError.
Proof.
  induction ind as [|i ind IH]; simpl; [discriminate|].
  destruct (normalize_index n i) as [k|e'] eqn:Ek; simpl.
  - destruct (mapM (normalize_index n) ind) as [ks'|e'']; simpl; [discriminate|].
    inversion 1; subst. now apply IH.
  - inversion 1; subst. eapply normalize_index_Raise_inv; eassumption.
Qed.

Lemma take_last_Raise (a : ndarray3) (ind : list Z) (e : Exception) :
  take_last a ind = Raise e -> e = IndexError.
Proof.
  unfold take_last.
  destruct (normalize_index (shape1 a) (-1)) as [j|e'] eqn:Ej; simpl.
  - destruct (mapM (normalize_index (shape0 a)) ind) as [ks|e''] eqn:Eks; simpl;
      [discriminate|].
    inversion 1; subst. eapply mapM_normalize_Raise; eassumption.
  - inversion 1; subst. eapply normalize_index_Raise_inv; eassumption.
Qed.


Lemma randint_Raise_inv (low high : Z) (size : nat) (rs rs' : RandomState) e :
  randint low high size rs = (Raise e, rs') ->
  e = ValueError /\ rs' = rs /\ size <> 0%nat /\ high <= low.
Proof.
  unfold randint. destruct (Nat.eqb_spec size 0); [discriminate|].
  destruct (Z.leb_spec high low); [|discriminate].
  inversion 1. auto.
Qed.
End TrajectoryOutcomes.

Section Extra_Trajectories.
Import Example.



(** X6: [plot_trajectories] labels the axis and sets its limits exactly when
    it has drawn all [2 N] lines.  When it raises, labels and limits are as
    they were, and the axis has either no new line or exactly the [N]
    reference lines, never a compared line.  Without a new line the
    exception is the [ValueError] of the draw from an empty reference, with
    axis and random state untouched, the [IndexError] of the reference
    array, or the [ValueError] of the first reference line, whose row is
    not as long as the time points.  With the [N] reference lines it is the
    [IndexError] of the compared array or the [ValueError] of the first
    compared line. *)
Theorem plot_trajectories_formats_iff_drawn
    (c : Comparison) (N : nat) (s s' : PlotState) (r : Exc unit) :
  plot_trajectories c N s = (r, s') ->
  match r with
  | Ok _ =>
      ax_xlabel (ax s') = "Time (h)" /\ ax_ylabel (ax s') = "Protein level" /\
      ax_xlim (ax s') = Some (-2, 50) /\
      length (lines (ax s')) = (length (lines (ax s)) + 2 * N)%nat
  | Raise e =>
      ax_xlabel (ax s') = ax_xlabel (ax s) /\
      ax_ylabel (ax s') = ax_ylabel (ax s) /\
      ax_xlim (ax s') = ax_xlim (ax s) /\
      ((e = ValueError /\ s' = s /\ N <> 0%nat /\
        shape0 (states (reference c)) = 0%nat) \/
       (lines (ax s') = lines (ax s) /\
        (e = IndexError \/
         (e = ValueError /\ N <> 0%nat /\
          length (t c) <> shape2 (states (reference c))))) \/
       (exists ks,
          length ks = N /\
          lines (ax s') =
            lines (ax s) ++ map (trajectory_line c "m" (states (reference c))) ks /\
          (e = IndexError \/
           (e = ValueError /\ N <> 0%nat /\
            length (t c) <> shape2 (states (compared c))))))
  end.
Proof.
  unfold plot_trajectories, mbind, M_bind, Py.bind, with_random, lift.
  destruct (randint 0 _ N (np_random s)) as [[ind|e] rs] eqn:Er; simpl.
  2:{ apply randint_Raise_inv in Er as (-> & -> & HN & Hhigh).
      inversion 1; subst. simpl. repeat split. left.
      repeat split; [now destruct s | exact HN | lia]. }
  destruct (randint_Ok_inv _ _ _ _ _ _ Er) as [Hlen _].
  destruct (take_last (states (reference c)) ind) as [rows|e] eqn:E1; simpl.
  2:{ apply take_last_Raise in E1 as ->. inversion 1; subst. simpl.
      repeat split. right. left. auto. }
  apply take_last_inv in E1 as (ks & -> & Hks & _).
  match goal with |- context [for_each _ _ ?s0] =>
    destruct (for_each_plot_cases c "m" (states (reference c)) ks s0)
      as [[-> _]|[-> [Hne Ht]]] end; simpl.
  2:{ inversion 1; subst. simpl. repeat split. right. left.
      split; [reflexivity|]. right. split; [reflexivity|]. split; [|exact Ht].
      intros HN0. apply Hne. destruct ks; [reflexivity|]. simpl in Hks. lia. }
  destruct (take_last (states (compared c)) ind) as [rows'|e] eqn:E2; simpl.
  2:{ apply take_last_Raise in E2 as ->. inversion 1; subst. simpl.
      repeat split. right. right.
      exists ks. split; [congruence|]. split; [reflexivity | now left]. }
  apply take_last_inv in E2 as (ks' & -> & Hks' & _).
  match goal with |- context [for_each _ _ ?s0] =>
    destruct (for_each_plot_cases c "grey" (states (compared c)) ks' s0)
      as [[-> _]|[-> [Hne Ht]]] end; simpl.
  2:{ inversion 1; subst. simpl. repeat split. right. right.
      exists ks. split; [congruence|]. split; [reflexivity|]. right.
      split; [reflexivity|]. split; [|exact Ht].
      intros HN0. apply Hne. destruct ks'; [reflexivity|]. simpl in Hks'. lia. }
  unfold on_ax, modify. simpl.
  inversion 1; subst. simpl. repeat split.
  rewrite !length_app, !length_map. lia.
Qed.

Lemma plot_trajectories_formats_iff_drawn_witness :
  plot_trajectories Toy.short_comparison 3 Toy.plot_start
    = (Raise IndexError,
       {| np_random := fun k => Toy.random_state (3 + k)%nat;
          ax := {| lines :=
                     [{| xdata := [0; 1; 2]; ydata := [3; 4; 5];
                         color := "m"; lw := 1 # 2 |};
                      {| xdata := [0; 1; 2]; ydata := [2; 3; 4];
                         color := "m"; lw := 1 # 2 |};
                      {| xdata := [0; 1; 2]; ydata := [1; 2; 3];
                         color := "m"; lw := 1 # 2 |}]%Q;
                   ax_xlabel := ""; ax_ylabel := ""; ax_xlim := None |} |}) /\
  exists ks,
    length ks = 3%nat /\
    [{| xdata := [0; 1; 2]; ydata := [3; 4; 5]; color := "m"; lw := 1 # 2 |};
     {| xdata := [0; 1; 2]; ydata := [2; 3; 4]; color := "m"; lw := 1 # 2 |};
     {| xdata := [0; 1; 2]; ydata := [1; 2; 3]; color := "m"; lw := 1 # 2 |}]%Q
    = map (trajectory_line Toy.short_comparison "m"
             (states (reference Toy.short_comparison))) ks.
Proof.
  split; [vm_compute; reflexivity|].
  destruct (plot_trajectories_formats_iff_drawn Toy.short_comparison 3 Toy.plot_start
              (snd (plot_trajectories Toy.short_comparison 3 Toy.plot_start))
              (Raise IndexError))
    as (_ & _ & _ & [(Hv & _)|[(Hl & _)|(ks & Hlen & Hl & _)]]).
  - vm_compute; reflexivity.
  - discriminate Hv.
  - vm_compute in Hl. discriminate Hl.
  - exists ks. split; [exact Hlen|]. exact Hl.
Defined.
End Extra_Trajectories.

(** ** The strengths a sweep reads and the progress it keeps *)

Section StrengthsRead.
Import RepressorLoss.

Lemma getitem_take (eta : list Q) (i : Z) :
  0 <= i < 3 -> getitem (take 3 eta) i = getitem eta i.
Proof.
  intros Hi. unfold getitem. rewrite length_take.
  destruct (Z_lt_le_dec i (Z.of_nat (length eta))) as [Hlt|Hge].
  - rewrite !normalize_index_range by lia. simpl.
    now rewrite lookup_take_lt by lia.
  - rewrite !normalize_index_Raise by lia. reflexivity.
Qed.

Lemma strengths_at_take (eta : list Q) (i : Z) :
  0 <= i < 3 -> strengths_at (take 3 eta) i = strengths_at eta i.
Proof. intros Hi. unfold strengths_at. now rewrite getitem_take. Qed.

Lemma getitem_Ok_length {A} (l : list A) (i : Z) (x : A) :
  0 <= i -> getitem l i = Ok x -> i < Z.of_nat (length l).
Proof.
  intros Hi. unfold getitem.
  destruct (normalize_index (length l) i) as [k|] eqn:E; simpl; [|discriminate].
  intros _. assert (H : exists k, normalize_index (length l) i = Ok k) by eauto.
  apply normalize_index_Ok_iff in H. lia.
Qed.

Lemma for_each_ext {S A} (xs : list A) (f g : A -> M S unit) (s : S) :
  (forall x t, In x xs -> f x t = g x t) -> for_each xs f s = for_each xs g s.
Proof.
  revert s. induction xs as [|x xs IH]; intros s H; simpl; [reflexivity|].
  unfold Py.bind. rewrite (H x s) by now left.
  destruct (g x s) as [[[]|e] s1]; [|reflexivity].
  apply IH. intros y t Hy. apply H. now right.
Qed.
End StrengthsRead.

Section Extra_Sweeps.
Context {EngineState : Type}.
Variable simulate :
  LinearModel -> string -> nat -> EngineState -> TimeSeries * EngineState.
Variable threshold_rule : TimeSeries -> TimeSeries -> nat -> bool.

(** X7: the sweeps read the first three strengths of [eta] and nothing
    else: with any longer tuple they do exactly what they do with its first
    three entries. *)
Theorem sweeps_read_first_three_strengths (eta : list Q) (N : nat)
    (k : RepressorLoss.Kernel EngineState) (k1 : PromoterLoss.Kernel EngineState) :
  RepressorLoss.sweep simulate threshold_rule eta N k
    = RepressorLoss.sweep simulate threshold_rule (take 3 eta) N k /\
  PromoterLoss.sweep simulate threshold_rule eta N k1
    = PromoterLoss.sweep simulate threshold_rule (take 3 eta) N k1.
Proof.
  split.
  - unfold RepressorLoss.sweep, mbind, M_bind, Py.bind.
    destruct (RepressorLoss.set_comparisons [] k) as [[[]|e] k0]; [|reflexivity].
    apply for_each_ext. intros i t Hi. apply for_each_ext. intros j u Hj.
    apply In_range in Hi. apply In_range in Hj.
    unfold RepressorLoss.sweep_body, RepressorLoss.pair_model.
    now rewrite !strengths_at_take by (simpl in *; lia).
  - unfold PromoterLoss.sweep, mbind, M_bind, Py.bind.
    destruct (PromoterLoss.set_comparisons [] k1) as [[[]|e] k0]; [|reflexivity].
    apply for_each_ext. intros i t Hi.
    apply In_range in Hi.
    unfold PromoterLoss.sweep_body, PromoterLoss.loss_model.
    now rewrite !strengths_at_take by (simpl in *; lia).
Qed.

(** X8: a sweep can only complete when [eta] has at least three entries:
    with fewer, the iteration that needs the missing strength raises. *)
Theorem completed_sweep_has_three_strengths (eta : list Q) (N : nat) :
  (forall k k' : RepressorLoss.Kernel EngineState,
     RepressorLoss.sweep simulate threshold_rule eta N k = (Ok tt, k') ->
     (3 <= length eta)%nat) /\
  (forall k k' : PromoterLoss.Kernel EngineState,
     PromoterLoss.sweep simulate threshold_rule eta N k = (Ok tt, k') ->
     (3 <= length eta)%nat).
Proof.
  split.
  - intros k k' H. unfold RepressorLoss.sweep in H.
    apply bind_Ok_inv in H as ([] & k0 & _ & H).
    change (range 3) with [0; 1; 2] in H.
    apply for_each_cons_inv in H as (ka & Ha & _). cbv beta in Ha.
    change (range 3) with [0; 1; 2] in Ha.
    apply for_each_cons_inv in Ha as (k00 & _ & Ha).
    apply for_each_cons_inv in Ha as (k01 & _ & Ha).
    apply for_each_cons_inv in Ha as (k02 & Ha & _).
    apply sweep_step_33 in Ha as (sim & comps & ei & ej & _ & _ & _ & _ & Hej & _);
      [|lia|lia].
    apply getitem_Ok_length in Hej; lia.
  - intros k k' H. unfold PromoterLoss.sweep in H.
    apply bind_Ok_inv in H as ([] & k0 & _ & H).
    change (range 3) with [0; 1; 2] in H.
    apply for_each_cons_inv in H as (k00 & _ & H).
    apply for_each_cons_inv in H as (k01 & _ & H).
    apply for_each_cons_inv in H as (k02 & H & _).
    apply sweep_step_31 in H as (sim & comps & ei & _ & _ & _ & Hei & _); [|lia].
    apply getitem_Ok_length in Hei; lia.
Qed.
End Extra_Sweeps.

Section SweepRaises.
Context {EngineState : Type}.
Variable simulate :
  LinearModel -> string -> nat -> EngineState -> TimeSeries * EngineState.
Variable threshold_rule : TimeSeries -> TimeSeries -> nat -> bool.

(** An iteration that raises has stored nothing. *)
Lemma sweep_body_Raise_33 (eta : list Q) (N : nat) (i j : Z) (e : Exception)
    (k k' : RepressorLoss.Kernel EngineState) :
  RepressorLoss.sweep_body simulate threshold_rule eta N i j k = (Raise e, k') ->
  RepressorLoss.comparisons k' = RepressorLoss.comparisons k /\
  RepressorLoss.simulations k' = RepressorLoss.simulations k.
Proof.
  unfold RepressorLoss.sweep_body, mbind, M_bind, Py.bind, lift.
  destruct (RepressorLoss.pair_model eta i j) as [m|e0]; [|now inversion 1].
  unfold RepressorLoss.simulate_model.
  destruct (run simulate threshold_rule (new_ConditionSimulation m) N
              (RepressorLoss.engine k)) as [[sim|e1] s1] eqn:Er;
    [|now inversion 1].
  apply run_inv in Er as (_ & comps & Hc & _).
  unfold get_comparisons. rewrite Hc. unfold modify. discriminate.
Qed.

Lemma sweep_body_Raise_31 (eta : list Q) (N : nat) (i : Z) (e : Exception)
    (k k' : PromoterLoss.Kernel EngineState) :
  PromoterLoss.sweep_body simulate threshold_rule eta N i k = (Raise e, k') ->
  PromoterLoss.comparisons k' = PromoterLoss.comparisons k /\
  PromoterLoss.simulations k' = PromoterLoss.simulations k.
Proof.
  unfold PromoterLoss.sweep_body, mbind, M_bind, Py.bind, lift.
  destruct (PromoterLoss.loss_model eta i) as [m|e0]; [|now inversion 1].
  unfold PromoterLoss.simulate_model.
  destruct (run simulate threshold_rule (new_ConditionSimulation m) N
              (PromoterLoss.engine k)) as [[sim|e1] s1] eqn:Er;
    [|now inversion 1].
  apply run_inv in Er as (_ & comps & Hc & _).
  unfold get_comparisons. rewrite Hc. unfold modify. discriminate.
Qed.

Ltac chain_33 :=
  repeat match goal with
  | H : RepressorLoss.comparisons ?x = _ |- context [RepressorLoss.comparisons ?x] =>
      rewrite H
  | H : RepressorLoss.simulations ?x = _ |- context [RepressorLoss.simulations ?x] =>
      rewrite H
  end; simpl.

Ltac chain_31 :=
  repeat match goal with
  | H : PromoterLoss.comparisons ?x = _ |- context [PromoterLoss.comparisons ?x] =>
      rewrite H
  | H : PromoterLoss.simulations ?x = _ |- context [PromoterLoss.simulations ?x] =>
      rewrite H
  end; simpl.

Ltac stored :=
  first
    [ exists []; split; [now rewrite app_nil_r | reflexivity]
    | rewrite <- ?app_assoc; simpl; eexists; split; [reflexivity|]; simpl;
      repeat match goal with
      | H : comparisons ?x = Some _ |- context [comparisons ?x] => rewrite H
      end; reflexivity ].

(** X9: however a sweep ends, [comparisons] holds the results of the
    iterations completed so far and nothing else: its keys are the first
    pairs (resp. indices) of the loop order, whatever the dictionary held
    before; one simulation was run for each of them and its comparisons are
    the entry; the keys are all nine (resp. three) exactly when the sweep
    completed. *)
Theorem sweep_keeps_completed_iterations (eta : list Q) (N : nat)
    (k : RepressorLoss.Kernel EngineState) (k1 : PromoterLoss.Kernel EngineState) :
  (keys (RepressorLoss.comparisons
           (snd (RepressorLoss.sweep simulate threshold_rule eta N k)))
     `prefix_of`
     [(0, 0); (0, 1); (0, 2); (1, 0); (1, 1); (1, 2); (2, 0); (2, 1); (2, 2)] /\
   (exists sims,
      RepressorLoss.simulations
        (snd (RepressorLoss.sweep simulate threshold_rule eta N k))
        = RepressorLoss.simulations k ++ sims /\
      map comparisons sims
        = map (fun kv => Some (snd kv))
            (RepressorLoss.comparisons
               (snd (RepressorLoss.sweep simulate threshold_rule eta N k)))) /\
   (fst (RepressorLoss.sweep simulate threshold_rule eta N k) = Ok tt <->
    length (RepressorLoss.comparisons
              (snd (RepressorLoss.sweep simulate threshold_rule eta N k)))
      = 9%nat)) /\
  (keys (PromoterLoss.comparisons
           (snd (PromoterLoss.sweep simulate threshold_rule eta N k1)))
     `prefix_of` [0; 1; 2] /\
   (exists sims,
      PromoterLoss.simulations
        (snd (PromoterLoss.sweep simulate threshold_rule eta N k1))
        = PromoterLoss.simulations k1 ++ sims /\
      map comparisons sims
        = map (fun kv => Some (snd kv))
            (PromoterLoss.comparisons
               (snd (PromoterLoss.sweep simulate threshold_rule eta N k1)))) /\
   (fst (PromoterLoss.sweep simulate threshold_rule eta N k1) = Ok tt <->
    length (PromoterLoss.comparisons
              (snd (PromoterLoss.sweep simulate threshold_rule eta N k1)))
      = 3%nat)).
Proof.
  split.
  - destruct (RepressorLoss.sweep simulate threshold_rule eta N k) as [r k'] eqn:HR.
    simpl. revert HR.
    unfold RepressorLoss.sweep, mbind, M_bind, Py.bind,
      RepressorLoss.set_comparisons, modify.
    change (range 3) with [0; 1; 2]. simpl. unfold Py.bind.
    repeat match goal with
    | |- context [RepressorLoss.sweep_body simulate threshold_rule eta N ?i ?j ?s] =>
        let H := fresh "H" in
        destruct (RepressorLoss.sweep_body simulate threshold_rule eta N i j s)
          as [[[]|?] ?] eqn:H;
        [apply sweep_body_inv_33 in H as (? & ? & ? & _ & _ & _ & ? & ? & ?);
         unfold Py.ret; simpl
        |apply sweep_body_Raise_33 in H as (? & ?);
         unfold Py.ret; simpl; intros HR; inversion HR; subst; clear HR;
         chain_33;
         (split; [eexists; reflexivity|]);
         (split; [stored|]);
         (split; [discriminate | intros Hlen; simpl in Hlen; discriminate Hlen])]
    end.
    intros HR; inversion HR; subst; clear HR. chain_33.
    split; [eexists; reflexivity|]. split; [stored|]. split; reflexivity.
  - destruct (PromoterLoss.sweep simulate threshold_rule eta N k1) as [r k'] eqn:HR.
    simpl. revert HR.
    unfold PromoterLoss.sweep, mbind, M_bind, Py.bind,
      PromoterLoss.set_comparisons, modify.
    change (range 3) with [0; 1; 2]. simpl. unfold Py.bind.
    repeat match goal with
    | |- context [PromoterLoss.sweep_body simulate threshold_rule eta N ?i ?s] =>
        let H := fresh "H" in
        destruct (PromoterLoss.sweep_body simulate threshold_rule eta N i s)
          as [[[]|?] ?] eqn:H;
        [apply sweep_body_inv_31 in H as (? & ? & ? & _ & _ & _ & ? & ? & ?);
         unfold Py.ret; simpl
        |apply sweep_body_Raise_31 in H as (? & ?);
         unfold Py.ret; simpl; intros HR; inversion HR; subst; clear HR;
         chain_31;
         (split; [eexists; reflexivity|]);
         (split; [stored|]);
         (split; [discriminate | intros Hlen; simpl in Hlen; discriminate Hlen])]
    end.
    intros HR; inversion HR; subst; clear HR. chain_31.
    split; [eexists; reflexivity|]. split; [stored|]. split; reflexivity.
Qed.
End SweepRaises.

(** ** From a completed sweep to its heat maps *)

Section SweepToHeatmap.
Context {EngineState : Type}.
Variable simulate :
  LinearModel -> string -> nat -> EngineState -> TimeSeries * EngineState.
Variable threshold_rule : TimeSeries -> TimeSeries -> nat -> bool.

Lemma error_frequency_bounds (ref cmp : TimeSeries) (e : Q) :
  error_frequency threshold_rule ref cmp = Ok e -> (0 <= e)%Q /\ (e <= 1)%Q.
Proof.
  intros H. apply error_frequency_inv in H as [Hn ->].
  pose proof (error_count_le threshold_rule ref cmp) as Hle.
  set (k := error_count threshold_rule ref cmp) in *.
  set (n := shape0 (states cmp)) in *.
  assert (Hpos : Z.pos (Pos.of_nat n) = Z.of_nat n).
  { destruct n as [|n']; [lia|]. rewrite <- Pos.of_nat_succ. lia. }
  split; rewrite Qred_correct; unfold Qle; simpl; lia.
Qed.

Lemma run_proportions sim N s sim' s' comps :
  run simulate threshold_rule sim N s = (Ok sim', s') ->
  comparisons sim' = Some comps -> proportions comps.
Proof.
  intros H Hc c cmp Hcmp.
  apply run_inv in H as (_ & comps' & Hc' & _ & Hget).
  rewrite Hc in Hc'. inversion Hc'; subst comps'.
  destruct (Hget c cmp Hcmp) as (_ & s1 & _ & _ & _ & He).
  eapply error_frequency_bounds; eassumption.
Qed.

Lemma swept_proportions_33 (eta : list Q) (N : nat)
    (k k' : RepressorLoss.Kernel EngineState) :
  RepressorLoss.sweep simulate threshold_rule eta N k = (Ok tt, k') ->
  forall key v, In (key, v) (RepressorLoss.comparisons k') -> proportions v.
Proof.
  intros H. unfold RepressorLoss.sweep in H.
  apply bind_Ok_inv in H as ([] & k0 & H0 & H).
  unfold RepressorLoss.set_comparisons, modify in H0.
  inversion H0; subst k0; clear H0.
  refine (for_each_invariant
            (fun k => forall key v, In (key, v) (RepressorLoss.comparisons k) ->
                                    proportions v)
            _ _ _ _ _ H _).
  - intros i s s' Hi Hloop.
    refine (for_each_invariant
              (fun k => forall key v, In (key, v) (RepressorLoss.comparisons k) ->
                                      proportions v)
              _ _ _ _ _ Hloop).
    intros j t t' Hj Hbody Hinv key v Hin.
    apply sweep_body_inv_33 in Hbody
      as (m & sim & comps & _ & Hrun & _ & Hcs & Hk & _).
    rewrite Hk in Hin. apply In_dict_setitem in Hin as [Heq|Hin]; [|eauto].
    inversion Heq; subst. eapply run_proportions; eassumption.
  - simpl. intros key v [].
Qed.

Lemma swept_proportions_31 (eta : list Q) (N : nat)
    (k k' : PromoterLoss.Kernel EngineState) :
  PromoterLoss.sweep simulate threshold_rule eta N k = (Ok tt, k') ->
  forall key v, In (key, v) (PromoterLoss.comparisons k') -> proportions v.
Proof.
  intros H. unfold PromoterLoss.sweep in H.
  apply bind_Ok_inv in H as ([] & k0 & H0 & H).
  unfold PromoterLoss.set_comparisons, modify in H0.
  inversion H0; subst k0; clear H0.
  refine (for_each_invariant
            (fun k => forall key v, In (key, v) (PromoterLoss.comparisons k) ->
                                    proportions v)
            _ _ _ _ _ H _).
  - intros i s s' Hi Hbody Hinv key v Hin.
    apply sweep_body_inv_31 in Hbody
      as (m & sim & comps & _ & Hrun & _ & Hcs & Hk & _).
    rewrite Hk in Hin. apply In_dict_setitem in Hin as [Heq|Hin]; [|eauto].
    inversion Heq; subst. eapply run_proportions; eassumption.
  - simpl. intros key v [].
Qed.

(** X10: after a completed sweep [plot_heatmap] returns a figure for each of
    the three conditions, and every cell of its image lies within the
    colour range of the figure, from [vmin = 0] to [vmax = 1]. *)
Theorem swept_heatmaps_within_colour_range (eta : list Q) (N : nat)
    (condition : string) :
  In condition conditions ->
  (forall k k' : RepressorLoss.Kernel EngineState,
     RepressorLoss.sweep simulate threshold_rule eta N k = (Ok tt, k') ->
     exists fig,
       RepressorLoss.plot_heatmap (RepressorLoss.comparisons k') condition = Ok fig /\
       forall a b, (a < 3)%nat -> (b < 3)%nat ->
         exists x, cell (image fig) a b = Some x /\
                   (vmin fig <= x)%Q /\ (x <= vmax fig)%Q) /\
  (forall k k' : PromoterLoss.Kernel EngineState,
     PromoterLoss.sweep simulate threshold_rule eta N k = (Ok tt, k') ->
     exists fig,
       PromoterLoss.plot_heatmap (PromoterLoss.comparisons k') condition = Ok fig /\
       forall a, (a < 3)%nat ->
         exists x, image fig !! a = Some [x] /\
                   (vmin fig <= x)%Q /\ (x <= vmax fig)%Q).
Proof.
  intros Hc. split.
  - intros k k' H.
    pose proof (swept_results_on_grid _ _ _ _ _ _ _ H Hc) as Hd.
    pose proof (swept_proportions_33 _ _ _ _ H) as Hp.
    destruct (fill_cells_spec condition _ (zeros 3 3) (has_shape_zeros 3 3) Hd)
      as (m & Hfor & Hm & Hcells).
    destruct (plot_heatmap_image _ condition m Hfor)
      as (fig & Hfig & Him & Hlo & Hhi & _).
    exists fig. split; [exact Hfig|]. intros a b Ha Hb.
    rewrite Him, Hlo, Hhi, (cell_transpose 3 3) by auto.
    specialize (Hcells (Z.of_nat b) (Z.of_nat a)).
    rewrite !Nat2Z.id in Hcells. rewrite Hcells by lia.
    destruct (dict_get (Z.of_nat b, Z.of_nat a) (RepressorLoss.comparisons k'))
      as [v|] eqn:Eg.
    + apply dict_get_Some_In in Eg.
      destruct Hd as (_ & _ & Hv). destruct (Hv _ _ Eg) as [cmp Hcmp].
      unfold error_of. rewrite Hcmp. simpl.
      exists (threshold_error cmp). split; [reflexivity|].
      exact (Hp _ _ Eg _ _ Hcmp).
    + rewrite cell_zeros by lia. exists 0%Q. split; [reflexivity|].
      split; unfold Qle; simpl; lia.
  - intros k k' H.
    pose proof (swept_results_on_column _ _ _ _ _ _ _ H Hc) as Hd.
    pose proof (swept_proportions_31 _ _ _ _ H) as Hp.
    destruct (fill_rows_spec condition _ (zeros 3 1) (has_shape_zeros 3 1) Hd)
      as (m & Hfor & Hm & Hrows).
    destruct (plot_heatmap_column _ condition m Hfor)
      as (fig & Hfig & Him & Hlo & Hhi & _).
    exists fig. split; [exact Hfig|]. intros a Ha.
    rewrite Him, Hlo, Hhi.
    specialize (Hrows (Z.of_nat a)). rewrite !Nat2Z.id in Hrows.
    rewrite Hrows by lia.
    destruct (dict_get (Z.of_nat a) (PromoterLoss.comparisons k')) as [v|] eqn:Eg.
    + apply dict_get_Some_In in Eg.
      destruct Hd as (_ & _ & Hv). destruct (Hv _ _ Eg) as [cmp Hcmp].
      unfold error_of. rewrite Hcmp. simpl.
      exists (threshold_error cmp). split; [reflexivity|].
      exact (Hp _ _ Eg _ _ Hcmp).
    + unfold zeros. rewrite lookup_replicate_2 by lia. exists 0%Q.
      split; [reflexivity|]. split; unfold Qle; simpl; lia.
Qed.
End SweepToHeatmap.

(** ** What [plot_heatmap] reads of the results *)

Section Extra_Reads.

Lemma fill_cell_same (c : string) (k : Z * Z) (v v' : gmap string Comparison)
    (m : ndarray2) :
  error_of v c = error_of v' c ->
  RepressorLoss.fill_cell c (k, v) m = RepressorLoss.fill_cell c (k, v') m.
Proof.
  unfold RepressorLoss.fill_cell, error_of. destruct k as [i j].
  destruct (v !! c), (v' !! c); simpl; intros H; inversion H; reflexivity.
Qed.

Lemma fill_row_same (c : string) (k : Z) (v v' : gmap string Comparison)
    (m : ndarray2) :
  error_of v c = error_of v' c ->
  PromoterLoss.fill_row c (k, v) m = PromoterLoss.fill_row c (k, v') m.
Proof.
  unfold PromoterLoss.fill_row, error_of.
  destruct (v !! c), (v' !! c); simpl; intros H; inversion H; reflexivity.
Qed.

(** X11: [plot_heatmap] reads of the results the keys, in their order, and
    the [threshold_error] of each entry under the condition, and nothing
    else: two results that agree on these give the same figure, or the same
    exception, whatever their comparisons hold besides. *)
Theorem plot_heatmap_reads_keys_and_errors (condition : string) :
  (forall d d' : RepressorLoss.Results,
     same_errors condition d d' ->
     RepressorLoss.plot_heatmap d' condition
     = RepressorLoss.plot_heatmap d condition) /\
  (forall d d' : PromoterLoss.Results,
     same_errors condition d d' ->
     PromoterLoss.plot_heatmap d' condition
     = PromoterLoss.plot_heatmap d condition).
Proof.
  split.
  - intros d d' H. unfold RepressorLoss.plot_heatmap, items.
    enough (Hm : forall m, for_each d' (RepressorLoss.fill_cell condition) m
                           = for_each d (RepressorLoss.fill_cell condition) m)
      by now rewrite Hm.
    induction H as [|[k v] [k' v'] d d' [Hk Hv] _ IH]; intros m; simpl in *;
      [reflexivity|].
    subst k'. unfold Py.bind. rewrite <- (fill_cell_same condition k v v' m Hv).
    destruct (RepressorLoss.fill_cell condition (k, v) m) as [[[]|] m1];
      [apply IH | reflexivity].
  - intros d d' H. unfold PromoterLoss.plot_heatmap, items.
    enough (Hm : forall m, for_each d' (PromoterLoss.fill_row condition) m
                           = for_each d (PromoterLoss.fill_row condition) m)
      by now rewrite Hm.
    induction H as [|[k v] [k' v'] d d' [Hk Hv] _ IH]; intros m; simpl in *;
      [reflexivity|].
    subst k'. unfold Py.bind. rewrite <- (fill_row_same condition k v v' m Hv).
    destruct (PromoterLoss.fill_row condition (k, v) m) as [[[]|] m1];
      [apply IH | reflexivity].
Qed.
End Extra_Reads.

(** ** The further properties on the small engine *)

Section Extra_Instances.

Lemma example_covers_normal : is_Some (Toy.example_comparisons !! "normal").
Proof. eexists. vm_compute. reflexivity. Defined.

Lemma quarter_covers_normal : is_Some (Toy.quarter_comparisons !! "normal").
Proof. eexists. vm_compute. reflexivity. Defined.

Lemma plot_heatmap_first_bad_entry_witness :
  (Forall (RepressorLoss.writable "normal") [((0, 1), Toy.example_comparisons)] /\
   ~ RepressorLoss.writable "normal" ((3, 0), Toy.example_comparisons) /\
   RepressorLoss.plot_heatmap
     ([((0, 1), Toy.example_comparisons)]
      ++ ((3, 0), Toy.example_comparisons) :: [((2, 2), ∅)]) "normal"
   = Raise IndexError) /\
  (~ RepressorLoss.writable "normal"
       ((3, 9223372036854775808), Toy.example_comparisons) /\
   RepressorLoss.plot_heatmap
     ([((0, 1), Toy.example_comparisons)]
      ++ ((3, 9223372036854775808), Toy.example_comparisons) :: [((2, 2), ∅)])
     "normal"
   = Raise OverflowError) /\
  (Forall (PromoterLoss.writable "normal") [(1, Toy.example_comparisons)] /\
   ~ PromoterLoss.writable "normal" (0, ∅) /\
   PromoterLoss.plot_heatmap
     ([(1, Toy.example_comparisons)]
      ++ (0, ∅) :: [(7, Toy.example_comparisons)]) "normal"
   = Raise KeyError).
Proof.
  assert (H1 : Forall (RepressorLoss.writable "normal")
                 [((0, 1), Toy.example_comparisons)]).
  { repeat constructor; simpl; try lia. exact example_covers_normal. }
  assert (H2 : ~ RepressorLoss.writable "normal" ((3, 0), Toy.example_comparisons)).
  { intros (_ & Hi & _). simpl in Hi. lia. }
  assert (H2' : ~ RepressorLoss.writable "normal"
                    ((3, 9223372036854775808), Toy.example_comparisons)).
  { intros (_ & Hi & _). simpl in Hi. lia. }
  assert (H3 : Forall (PromoterLoss.writable "normal")
                 [(1, Toy.example_comparisons)]).
  { repeat constructor; simpl; try lia. exact example_covers_normal. }
  assert (H4 : ~ PromoterLoss.writable "normal" (0, ∅)).
  { intros ([x Hx] & _). simpl in Hx. rewrite lookup_empty in Hx. discriminate. }
  split; [|split].
  - split; [exact H1|]. split; [exact H2|].
    apply (proj1 (plot_heatmap_first_bad_entry "normal")
             [((0, 1), Toy.example_comparisons)] [((2, 2), ∅)]
             ((3, 0), Toy.example_comparisons) H1 H2); simpl; lia.
  - split; [exact H2'|].
    apply (proj1 (plot_heatmap_first_bad_entry "normal")
             [((0, 1), Toy.example_comparisons)] [((2, 2), ∅)]
             ((3, 9223372036854775808), Toy.example_comparisons) H1 H2');
      simpl; lia.
  - split; [exact H3|]. split; [exact H4|].
    apply (proj2 (plot_heatmap_first_bad_entry "normal")
             [(1, Toy.example_comparisons)] [(7, Toy.example_comparisons)]
             (0, ∅) H3 H4); simpl; lia.
Defined.

Lemma plot_heatmap_new_key_writes_one_cell_witness :
  (RepressorLoss.plot_heatmap Toy.two_entries "normal" = Ok Toy.figure_two /\
   dict_get (-1, -1) Toy.two_entries = None /\
   Toy.quarter_comparisons !! "normal"
     = Some (Toy.comparison_of Example.example_model "normal" 0 (1 # 4)) /\
   normalize_index 3 (-1) = Ok 2%nat /\
   exists fig',
     RepressorLoss.plot_heatmap
       (dict_setitem (-1, -1) Toy.quarter_comparisons Toy.two_entries) "normal"
     = Ok fig' /\
     cell (image fig') 2 2 = Some (1 # 4) /\
     forall a' b', (a' < 3)%nat -> (b' < 3)%nat -> (a', b') <> (2%nat, 2%nat) ->
       cell (image fig') b' a' = cell (image Toy.figure_two) b' a') /\
  (PromoterLoss.plot_heatmap Toy.one_entry "normal" = Ok Toy.figure_one /\
   dict_get (-2) Toy.one_entry = None /\
   normalize_index 3 (-2) = Ok 1%nat /\
   exists fig',
     PromoterLoss.plot_heatmap
       (dict_setitem (-2) Toy.quarter_comparisons Toy.one_entry) "normal"
     = Ok fig' /\
     image fig' !! 1%nat = Some [1 # 4] /\
     forall a', a' <> 1%nat -> image fig' !! a' = image Toy.figure_one !! a').
Proof.
  split.
  - split; [vm_compute; reflexivity|]. split; [reflexivity|].
    split; [vm_compute; reflexivity|]. split; [reflexivity|].
    apply (proj1 (plot_heatmap_new_key_writes_one_cell "normal")
             Toy.two_entries (-1) (-1) Toy.quarter_comparisons
             (Toy.comparison_of Example.example_model "normal" 0 (1 # 4))
             Toy.figure_two 2%nat 2%nat);
      vm_compute; reflexivity.
  - split; [vm_compute; reflexivity|]. split; [reflexivity|].
    split; [reflexivity|].
    apply (proj2 (plot_heatmap_new_key_writes_one_cell "normal")
             Toy.one_entry (-2) Toy.quarter_comparisons
             (Toy.comparison_of Example.example_model "normal" 0 (1 # 4))
             Toy.figure_one 1%nat);
      vm_compute; reflexivity.
Defined.

Lemma two_rows_on_column : PromoterLoss.on_column "normal" Toy.two_rows.
Proof.
  split; [|split].
  - apply (bool_decide_unpack _). vm_compute. exact I.
  - intros i [H|[H|[]]]; simpl in H; subst; lia.
  - intros k v [H|[H|[]]]; inversion H; subst.
    + exact example_covers_normal.
    + exact quarter_covers_normal.
Defined.

Lemma plot_heatmap_order_independent_witness :
  (RepressorLoss.on_grid "normal" Toy.two_entries /\
   Toy.two_entries
     ≡ₚ [((2, 2), Toy.example_comparisons); ((0, 1), Toy.example_comparisons)] /\
   RepressorLoss.plot_heatmap
     [((2, 2), Toy.example_comparisons); ((0, 1), Toy.example_comparisons)] "normal"
   = RepressorLoss.plot_heatmap Toy.two_entries "normal") /\
  (PromoterLoss.on_column "normal" Toy.two_rows /\
   Toy.two_rows
     ≡ₚ [(0, Toy.quarter_comparisons); (1, Toy.example_comparisons)] /\
   PromoterLoss.plot_heatmap
     [(0, Toy.quarter_comparisons); (1, Toy.example_comparisons)] "normal"
   = PromoterLoss.plot_heatmap Toy.two_rows "normal").
Proof.
  split.
  - split; [exact two_entries_on_grid|]. split; [apply perm_swap|].
    apply (proj1 (plot_heatmap_order_independent "normal") Toy.two_entries
             [((2, 2), Toy.example_comparisons); ((0, 1), Toy.example_comparisons)]
             two_entries_on_grid).
    apply perm_swap.
  - split; [exact two_rows_on_column|]. split; [apply perm_swap|].
    apply (proj2 (plot_heatmap_order_independent "normal") Toy.two_rows
             [(0, Toy.quarter_comparisons); (1, Toy.example_comparisons)]
             two_rows_on_column).
    apply perm_swap.
Defined.

Lemma completed_sweep_has_three_strengths_witness :
  (RepressorLoss.sweep Toy.simulate Toy.threshold_rule RepressorLoss.eta 4
     (Toy.kernel33 []) = (Ok tt, Toy.swept33) /\
   (3 <= length RepressorLoss.eta)%nat) /\
  (PromoterLoss.sweep Toy.simulate Toy.threshold_rule RepressorLoss.eta 4
     (Toy.kernel31 [])
   = (Ok tt, snd (PromoterLoss.sweep Toy.simulate Toy.threshold_rule
                    RepressorLoss.eta 4 (Toy.kernel31 []))) /\
   (3 <= length RepressorLoss.eta)%nat).
Proof.
  split.
  - split; [vm_compute; reflexivity|].
    apply (proj1 (completed_sweep_has_three_strengths Toy.simulate Toy.threshold_rule
                    RepressorLoss.eta 4) (Toy.kernel33 []) Toy.swept33).
    vm_compute; reflexivity.
  - split; [vm_compute; reflexivity|].
    apply (proj2 (completed_sweep_has_three_strengths Toy.simulate Toy.threshold_rule
                    RepressorLoss.eta 4) (Toy.kernel31 [])
             (snd (PromoterLoss.sweep Toy.simulate Toy.threshold_rule
                     RepressorLoss.eta 4 (Toy.kernel31 [])))).
    vm_compute; reflexivity.
Defined.

Lemma swept_heatmaps_within_colour_range_witness :
  In "diabetic" conditions /\
  RepressorLoss.sweep Toy.simulate Toy.threshold_rule RepressorLoss.eta 4
    (Toy.kernel33 []) = (Ok tt, Toy.swept33) /\
  PromoterLoss.sweep Toy.simulate Toy.threshold_rule RepressorLoss.eta 4
    (Toy.kernel31 [])
  = (Ok tt, snd (PromoterLoss.sweep Toy.simulate Toy.threshold_rule
                   RepressorLoss.eta 4 (Toy.kernel31 []))) /\
  (exists fig,
     RepressorLoss.plot_heatmap (RepressorLoss.comparisons Toy.swept33) "diabetic"
     = Ok fig /\
     forall a b, (a < 3)%nat -> (b < 3)%nat ->
       exists x, cell (image fig) a b = Some x /\
                 (vmin fig <= x)%Q /\ (x <= vmax fig)%Q) /\
  (exists fig,
     PromoterLoss.plot_heatmap
       (PromoterLoss.comparisons
          (snd (PromoterLoss.sweep Toy.simulate Toy.threshold_rule
                  RepressorLoss.eta 4 (Toy.kernel31 [])))) "diabetic"
     = Ok fig /\
     forall a, (a < 3)%nat ->
       exists x, image fig !! a = Some [x] /\
                 (vmin fig <= x)%Q /\ (x <= vmax fig)%Q).
Proof.
  assert (Hin : In "diabetic" conditions) by (simpl; auto).
  split; [exact Hin|].
  split; [vm_compute; reflexivity|]. split; [vm_compute; reflexivity|].
  split.
  - apply (proj1 (swept_heatmaps_within_colour_range Toy.simulate Toy.threshold_rule
                    RepressorLoss.eta 4 "diabetic" Hin) (Toy.kernel33 []) Toy.swept33).
    vm_compute; reflexivity.
  - apply (proj2 (swept_heatmaps_within_colour_range Toy.simulate Toy.threshold_rule
                    RepressorLoss.eta 4 "diabetic" Hin) (Toy.kernel31 [])).
    vm_compute; reflexivity.
Defined.
Lemma plot_heatmap_reads_keys_and_errors_witness :
  new_Comparison Toy.threshold_rule (Toy.series 4) Toy.shifted
    = Ok (Toy.compare (Toy.series 4) Toy.shifted (1 # 2)) /\
  (same_errors "normal" Toy.two_entries Toy.two_others /\
   RepressorLoss.plot_heatmap Toy.two_others "normal"
   = RepressorLoss.plot_heatmap Toy.two_entries "normal") /\
  (same_errors "normal" Toy.one_entry Toy.one_other /\
   PromoterLoss.plot_heatmap Toy.one_other "normal"
   = PromoterLoss.plot_heatmap Toy.one_entry "normal").
Proof.
  assert (H2 : same_errors "normal" Toy.two_entries Toy.two_others).
  { repeat constructor; vm_compute; reflexivity. }
  assert (H1 : same_errors "normal" Toy.one_entry Toy.one_other).
  { repeat constructor; vm_compute; reflexivity. }
  split; [reflexivity|]. split.
  - split; [exact H2|].
    exact (proj1 (plot_heatmap_reads_keys_and_errors "normal") _ _ H2).
  - split; [exact H1|].
    exact (proj2 (plot_heatmap_reads_keys_and_errors "normal") _ _ H1).
Defined.
End Extra_Instances.
